(** * SATrans multi-task models: [MMOE_MT] and [MMOE_MT_ATT]

    A shallow embedding of [models/mmoe_mt.py] and [models/mmoe_mt_att.py].

    - Python objects are attribute dictionaries; the constructors run in a
      state-and-exception monad over that dictionary, so that the state
      reached when an exception is raised can be inspected.
    - [nn.Module]s are descriptors (constructor arguments) stored under the
      attribute that holds them; [forward] is written once over an interface
      of tensor operations and interpreted twice: on shapes, and on tensors
      of real numbers of rank at most three.
    - The base class [BaseModel] (models/mtl_basemodel.py), the attention
      layers (models/satrans.py) and the toolkit layers [DNN] and
      [PredictionLayer] are not part of the sources; what the two classes
      use of them is a parameter of the development. *)

From Stdlib Require Import String Ascii List ZArith Bool Lia Reals Lra.

Set Warnings "-register-all".
Import ListNotations.

Local Open Scope string_scope.
Local Open Scope list_scope.
Local Open Scope Z_scope.

(* ===================================================================== *)
(** ** Python values, exceptions and the object monad *)
(* ===================================================================== *)

Inductive pyexn : Type :=
| ValueError (msg : string)
| TypeError (msg : string)
| IndexError (msg : string)
| KeyError (msg : string)
| AttributeError (msg : string)
| RuntimeError (msg : string).

Inductive result (A : Type) : Type :=
| Ok (a : A)
| Raise (e : pyexn).
Arguments Ok {A} a.
Arguments Raise {A} e.

Definition is_ok {A} (r : result A) : bool :=
  match r with Ok _ => true | Raise _ => false end.

Definition is_ValueError {A} (r : result A) : bool :=
  match r with Raise (ValueError _) => true | _ => false end.

Definition is_TypeError {A} (r : result A) : bool :=
  match r with Raise (TypeError _) => true | _ => false end.

Definition is_IndexError {A} (r : result A) : bool :=
  match r with Raise (IndexError _) => true | _ => false end.

(** Computations that read and write a state [S] and may raise; the state
    reached at a [Raise] is kept. *)
Definition M (S A : Type) : Type := S -> result A * S.

Definition ret {S A} (a : A) : M S A := fun s => (Ok a, s).
Definition raise {S A} (e : pyexn) : M S A := fun s => (Raise e, s).
Definition bind {S A B} (c : M S A) (k : A -> M S B) : M S B :=
  fun s => match c s with
           | (Ok a, s') => k a s'
           | (Raise e, s') => (Raise e, s')
           end.
Definition lift {S A} (r : result A) : M S A := fun s => (r, s).

Declare Scope py_scope.
Delimit Scope py_scope with py.
Notation "x <- c ;; k" := (bind c (fun x => k))
  (at level 61, c at next level, right associativity) : py_scope.
Notation "c ;; k" := (bind c (fun _ => k))
  (at level 61, right associativity) : py_scope.
Notation "' pat <- c ;; k" := (bind c (fun x => match x with pat => k end))
  (at level 61, pat pattern, c at next level, right associativity) : py_scope.
Local Open Scope py_scope.

(** [for x in xs: body x] collecting the values, as a list comprehension. *)
Fixpoint mapM {S A B} (f : A -> M S B) (xs : list A) : M S (list B) :=
  match xs with
  | [] => ret []
  | x :: xs' => y <- f x ;; ys <- mapM f xs' ;; ret (y :: ys)
  end.

(** [for x in xs: body x] for its effects only. *)
Fixpoint forM_ {S A} (xs : list A) (f : A -> M S unit) : M S unit :=
  match xs with
  | [] => ret tt
  | x :: xs' => f x ;; forM_ xs' f
  end.

(** [for x in xs: acc = body x acc]. *)
Fixpoint foldM {S A B} (f : B -> A -> M S B) (acc : B) (xs : list A) : M S B :=
  match xs with
  | [] => ret acc
  | x :: xs' => acc' <- f acc x ;; foldM f acc' xs'
  end.

(** [range(n)] for a Python integer [n]. *)
Definition range (n : Z) : list nat := seq 0 (Z.to_nat n).

(** [len(xs)]. *)
Definition len {A} (xs : list A) : Z := Z.of_nat (List.length xs).

(** [xs[-1]] on a tuple or a list. *)
Definition last_item (xs : list Z) : result Z :=
  match rev xs with
  | [] => Raise (IndexError "tuple index out of range")
  | x :: _ => Ok x
  end.

(** [xs[i]] on a list, for a non-negative index. *)
Definition item {A} (xs : list A) (i : nat) : result A :=
  match nth_error xs i with
  | Some x => Ok x
  | None => Raise (IndexError "list index out of range")
  end.

(** The values an argument such as [flag] or [domain_column] can take:
    [None], a string, or a list (tuple) of strings. *)
Inductive pyval : Type :=
| PyNone
| PyStr (s : string)
| PyStrs (l : list string).

(** [needle in hay] on two strings: substring test. *)
Fixpoint str_contains (needle hay : string) : bool :=
  String.prefix needle hay ||
  match hay with
  | EmptyString => false
  | String _ hay' => str_contains needle hay'
  end.

(** [x in c]: substring test on a string, membership on a list, and a
    [TypeError] on [None]. *)
Definition py_in (x : string) (c : pyval) : result bool :=
  match c with
  | PyNone => Raise (TypeError "argument of type 'NoneType' is not iterable")
  | PyStr s => Ok (str_contains x s)
  | PyStrs l => Ok (existsb (String.eqb x) l)
  end.

(* ===================================================================== *)
(** ** Feature columns, module descriptors, attributes *)
(* ===================================================================== *)

(** The toolkit's feature columns, as far as the two classes look at
    them: every column has a [name]. *)
Inductive FeatureColumn : Type :=
| SparseFeat (name : string) (vocabulary_size : Z) (embedding_dim : Z)
| DenseFeat (name : string) (dimension : Z).

Definition name (feat : FeatureColumn) : string :=
  match feat with
  | SparseFeat n _ _ => n
  | DenseFeat n _ => n
  end.

(** A module is recorded by the call that built it. *)
Inductive nn_Module : Type :=
| Linear (in_features out_features : Z)            (* bias=False *)
| ReLU
| Sigmoid
| Embedding (num_embeddings embedding_dim : Z)
| DNN (inputs_dim : Z) (hidden_units : list Z)
| PredictionLayer (task : string)
| SelfAttention_Layer (embedding_dim head_num : Z) (use_res : bool)
| Attention_Layer (embedding_dim head_num : Z) (use_res : bool)
| ModuleList (modules : list nn_Module).

(** [torch.empty] refuses a negative dimension; [nn.Linear] and
    [nn.Embedding] allocate their weight with it. *)
Definition nn_Linear (in_features out_features : Z) : result nn_Module :=
  if (in_features <? 0) || (out_features <? 0)
  then Raise (RuntimeError "Trying to create tensor with negative dimension")
  else Ok (Linear in_features out_features).

Definition nn_Embedding (num_embeddings embedding_dim : Z) : result nn_Module :=
  if (num_embeddings <? 0) || (embedding_dim <? 0)
  then Raise (RuntimeError "Trying to create tensor with negative dimension")
  else Ok (Embedding num_embeddings embedding_dim).

(** The toolkit's [DNN] refuses an empty list of hidden units. *)
Definition mk_DNN (inputs_dim : Z) (hidden_units : list Z) : result nn_Module :=
  match hidden_units with
  | [] => Raise (ValueError "hidden_units is empty!!")
  | _ => Ok (DNN inputs_dim hidden_units)
  end.

(** Attribute values. *)
Inductive attr : Type :=
| AInt (z : Z)
| AInts (l : list Z)
| AStrs (l : list string)
| APy (v : pyval)
| AFeats (l : list FeatureColumn)
| AIndex (d : list (string * (nat * nat)))
| AEmbDict (d : list (string * nn_Module))
| AModule (m : nn_Module).

(** [self.__dict__]. *)
Definition attrs : Type := list (string * attr).

Fixpoint lookup (a : string) (d : attrs) : option attr :=
  match d with
  | [] => None
  | (k, v) :: d' => if String.eqb a k then Some v else lookup a d'
  end.

Definition hasattr (d : attrs) (a : string) : bool :=
  match lookup a d with Some _ => true | None => false end.

(** [self.a = v]. *)
Definition setattr (a : string) (v : attr) : M attrs unit :=
  fun d => (Ok tt, (a, v) :: d).

(** [self.a]. *)
Definition getattr_of (d : attrs) (a : string) : result attr :=
  match lookup a d with
  | Some v => Ok v
  | None => Raise (AttributeError a)
  end.

Definition getattr (a : string) : M attrs attr :=
  fun d => (getattr_of d a, d).

Definition as_int (v : attr) : result Z :=
  match v with AInt z => Ok z | _ => Raise (TypeError "int expected") end.
Definition as_ints (v : attr) : result (list Z) :=
  match v with AInts l => Ok l | _ => Raise (TypeError "tuple expected") end.
Definition as_py (v : attr) : result pyval :=
  match v with APy p => Ok p | _ => Raise (TypeError "value expected") end.
Definition as_feats (v : attr) : result (list FeatureColumn) :=
  match v with AFeats l => Ok l | _ => Raise (TypeError "columns expected") end.
Definition as_index (v : attr) : result (list (string * (nat * nat))) :=
  match v with AIndex d => Ok d | _ => Raise (TypeError "dict expected") end.
Definition as_embdict (v : attr) : result (list (string * nn_Module)) :=
  match v with AEmbDict d => Ok d | _ => Raise (TypeError "ModuleDict expected") end.
Definition as_modules (v : attr) : result (list nn_Module) :=
  match v with
  | AModule (ModuleList ms) => Ok ms
  | _ => Raise (TypeError "ModuleList expected")
  end.
Definition as_module (v : attr) : result nn_Module :=
  match v with AModule m => Ok m | _ => Raise (TypeError "Module expected") end.

Definition rbind {A B} (r : result A) (k : A -> result B) : result B :=
  match r with Ok a => k a | Raise e => Raise e end.

(** Typed attribute reads, in the constructor's monad. *)
Definition get {A} (a : string) (cast : attr -> result A) : M attrs A :=
  v <- getattr a ;; lift (cast v).

(* ===================================================================== *)
(** ** Constructor arguments *)
(* ===================================================================== *)

(** The arguments of [__init__] that the classes themselves inspect.  The
    regularisation strengths, [init_std], [seed], [dnn_dropout],
    [dnn_activation], [dnn_use_bn], [device] and [gpus] are only handed on
    to the base class and to the toolkit layers. *)
Record Args : Type := mkArgs {
  dnn_feature_columns : list FeatureColumn;
  num_domains : Z;
  num_experts : Z;
  expert_dnn_hidden_units : list Z;
  gate_dnn_hidden_units : list Z;
  tower_dnn_hidden_units : list Z;
  task_types : list string;
  task_names : list string;
  domain_column : pyval;
  flag : pyval;
  domain_id_as_feature : bool
}.

(** The defaults of the signature at lines 47-51. *)
Definition default_args (cols : list FeatureColumn) (nd : Z) : Args :=
  {| dnn_feature_columns := cols;
     num_domains := nd;
     num_experts := 3;
     expert_dnn_hidden_units := [256; 128];
     gate_dnn_hidden_units := [64];
     tower_dnn_hidden_units := [64];
     task_types := ["binary"; "binary"];
     task_names := ["ctr"; "ctcvr"];
     domain_column := PyNone;
     flag := PyNone;
     domain_id_as_feature := false |}.

(** [task_type not in ['binary', 'regression']]. *)
Definition legal_task_type (task_type : string) : bool :=
  existsb (String.eqb task_type) ["binary"; "regression"].

(** [filter_feature_columns]: the list comprehension
    [[feat for feat in feature_columns if feat.name not in filtered_col_names]].
    The method does not touch [self]. *)
Fixpoint filter_feature_columns (feature_columns : list FeatureColumn)
    (filtered_col_names : pyval) : result (list FeatureColumn) :=
  match feature_columns with
  | [] => Ok []
  | feat :: rest =>
      rbind (py_in (name feat) filtered_col_names) (fun b =>
      rbind (filter_feature_columns rest filtered_col_names) (fun kept =>
      Ok (if b then kept else feat :: kept)))
  end.

(** The checks of lines 59-70, shared verbatim by the two classes. *)
Definition check_arguments (num_tasks : Z) (a : Args) : M attrs unit :=
  (if num_tasks <=? 1
   then raise (ValueError "num_tasks must be greater than 1") else ret tt) ;;
  (if num_experts a <=? 1
   then raise (ValueError "num_experts must be greater than 1") else ret tt) ;;
  (if len (dnn_feature_columns a) =? 0
   then raise (ValueError "dnn_feature_columns is null!") else ret tt) ;;
  (if negb (len (task_types a) =? num_tasks)
   then raise (ValueError "num_tasks must be equal to the length of task_types")
   else ret tt) ;;
  forM_ (task_types a) (fun task_type =>
    if negb (legal_task_type task_type)
    then raise (ValueError ("task must be binary or regression, "
                              ++ task_type ++ " is illegal"))
    else ret tt).

(** A list comprehension [[build for _ in range(n)]] of modules. *)
Definition modules_for_range (n : Z) (build : result nn_Module) : M attrs (list nn_Module) :=
  mapM (fun _ : nat => lift build) (range n).

Section Construction.

(** [BaseModel.compute_input_dim], from models/mtl_basemodel.py. *)
Variable compute_input_dim : list FeatureColumn -> Z.

(** Lines 55-120, which the two classes share verbatim.  The object
    state on entry is the one [super().__init__] left;
    [add_regularization_weight] and [to(device)] register and move
    parameters and assign none of the attributes read below. *)
Definition init_common (a : Args) : M attrs unit :=
  setattr "num_tasks" (AInt (len (task_names a))) ;;
  setattr "domain_column" (APy (domain_column a)) ;;
  setattr "flag" (APy (flag a)) ;;
  num_tasks <- get "num_tasks" as_int ;;
  check_arguments num_tasks a ;;
  setattr "num_experts" (AInt (num_experts a)) ;;
  setattr "task_names" (AStrs (task_names a)) ;;
  setattr "input_dim" (AInt (compute_input_dim (dnn_feature_columns a))) ;;
  setattr "expert_dnn_hidden_units" (AInts (expert_dnn_hidden_units a)) ;;
  setattr "gate_dnn_hidden_units" (AInts (gate_dnn_hidden_units a)) ;;
  setattr "tower_dnn_hidden_units" (AInts (tower_dnn_hidden_units a)) ;;
  self_flag <- get "flag" as_py ;;
  usetrans <- lift (py_in "usetrans" self_flag) ;;
  (if usetrans then
     embedding_dim <- get "embedding_dim" as_int ;;
     setattr "int_layers"
       (AModule (ModuleList (map (fun _ => SelfAttention_Layer embedding_dim 4 true)
                                 (range 3))))
   else ret tt) ;;
  (* expert dnn *)
  input_dim <- get "input_dim" as_int ;;
  self_num_experts <- get "num_experts" as_int ;;
  expert_dnn <- modules_for_range self_num_experts
                  (mk_DNN input_dim (expert_dnn_hidden_units a)) ;;
  setattr "expert_dnn" (AModule (ModuleList expert_dnn)) ;;
  (* gate dnn *)
  (if 0 <? len (gate_dnn_hidden_units a) then
     gate_dnn <- modules_for_range num_tasks
                   (mk_DNN input_dim (gate_dnn_hidden_units a)) ;;
     setattr "gate_dnn" (AModule (ModuleList gate_dnn))
   else ret tt) ;;
  gate_dnn_final_layer <- modules_for_range num_tasks
     (rbind (if 0 <? len (gate_dnn_hidden_units a)
             then last_item (gate_dnn_hidden_units a) else Ok input_dim)
            (fun d => nn_Linear d self_num_experts)) ;;
  setattr "gate_dnn_final_layer" (AModule (ModuleList gate_dnn_final_layer)) ;;
  (* tower dnn (task-specific) *)
  (if 0 <? len (tower_dnn_hidden_units a) then
     tower_dnn <- modules_for_range num_tasks
                    (rbind (last_item (expert_dnn_hidden_units a)) (fun d =>
                     mk_DNN d (tower_dnn_hidden_units a))) ;;
     setattr "tower_dnn" (AModule (ModuleList tower_dnn))
   else ret tt) ;;
  tower_dnn_final_layer <- modules_for_range num_tasks
     (rbind (if 0 <? len (tower_dnn_hidden_units a)
             then last_item (tower_dnn_hidden_units a)
             else last_item (expert_dnn_hidden_units a))
            (fun d => nn_Linear d 1)) ;;
  setattr "tower_dnn_final_layer" (AModule (ModuleList tower_dnn_final_layer)) ;;
  setattr "out" (AModule (ModuleList (map PredictionLayer (task_types a)))).

(** Lines 121-130: the [#domain] part up to the embedding table. *)
Definition init_domain (a : Args) : M attrs Z :=
  '(dnn_feature_columns_local, field_num) <-
     (if domain_id_as_feature a then
        embedding_dict <- get "embedding_dict" as_embdict ;;
        ret (dnn_feature_columns a, len embedding_dict)
      else
        filtered <- lift (filter_feature_columns (dnn_feature_columns a)
                                                 (domain_column a)) ;;
        embedding_dict <- get "embedding_dict" as_embdict ;;
        ret (filtered, len embedding_dict - 1)) ;;
  setattr "domain_column" (APy (domain_column a)) ;;
  embedding_size <- get "embedding_size" as_int ;;
  domain_embeddings <- lift (nn_Embedding (num_domains a + 1) embedding_size) ;;
  setattr "domain_embeddings" (AModule domain_embeddings) ;;
  ret embedding_size.

(** One LHUC block: lines 131-136. *)
Definition lhuc_block (embedding_size : Z) : result nn_Module :=
  rbind (nn_Linear embedding_size 128) (fun l0 =>
  rbind (nn_Linear 128 64) (fun l2 =>
  Ok (ModuleList [l0; ReLU; l2; Sigmoid]))).

End Construction.

(* ===================================================================== *)
(** ** The tensor framework as an interface *)
(* ===================================================================== *)

(** A module instance is named by the attribute that holds it and its
    position inside nested [ModuleList]s: [("expert_dnn", [2])] is
    [self.expert_dnn[2]]. *)
Definition mpath : Type := (string * list nat)%type.

Definition mpath_eqb (p q : mpath) : bool :=
  String.eqb (fst p) (fst q) &&
  if list_eq_dec Nat.eq_dec (snd p) (snd q) then true else false.

(** What [forward] uses of torch and of the toolkit, over a carrier [T] of
    tensors.  Every operation may raise. *)
Class Torch (T : Type) : Type := {
  torch_cat : list T -> Z -> result T;
  torch_flatten : T -> Z -> result T;
  torch_stack : list T -> Z -> result T;
  torch_matmul : T -> T -> result T;
  softmax : T -> Z -> result T;
  unsqueeze : T -> Z -> result T;
  squeeze : T -> result T;
  mul : T -> T -> result T;
  mul_int : T -> Z -> result T;
  select_column : T -> nat -> result T;
  long : T -> result T;
  (** [module(inputs)] for the module instance at a path. *)
  call : mpath -> nn_Module -> list T -> result T;
  (** [BaseModel.input_from_feature_columns] and the toolkit's
      [combined_dnn_input]. *)
  input_from_feature_columns :
    T -> list FeatureColumn -> list (string * nn_Module) -> result (list T * list T);
  combined_dnn_input : list T -> list T -> result T
}.

(** What a forward pass leaves behind: the module calls it made, in order,
    and the columns it asked the base class to embed. *)
Inductive event (T : Type) : Type :=
| ModuleCall (p : mpath) (inputs : list T)
| InputFromFeatureColumns (cols : list FeatureColumn).
Arguments ModuleCall {T} p inputs.
Arguments InputFromFeatureColumns {T} cols.

Section Forward.

Context {T : Type} `{Torch T}.

(** The monad of [forward]: a log of events, and exceptions. *)
Definition F (A : Type) : Type := M (list (event T)) A.

Definition log (e : event T) : F unit := fun tr => (Ok tt, tr ++ [e]).

(** [self.a], read-only. *)
Definition self_get {A} (self : attrs) (a : string) (cast : attr -> result A) : F A :=
  lift (rbind (getattr_of self a) cast).

(** [self.a[i]] for a [ModuleList] attribute. *)
Definition self_module (self : attrs) (a : string) (i : nat) : F nn_Module :=
  ms <- self_get self a as_modules ;; lift (item ms i).

(** [m(x)]: the call is logged, then performed. *)
Definition call_module (p : mpath) (m : nn_Module) (inputs : list T) : F T :=
  log (ModuleCall p inputs) ;; lift (call p m inputs).

(** [self.a[i](x)]. *)
Definition call_at (self : attrs) (a : string) (i : nat) (inputs : list T) : F T :=
  m <- self_module self a i ;; call_module (a, [i]) m inputs.

(** [concat_fun], lines 17-21. *)
Definition concat_fun (inputs : list T) (axis : Z) : result T :=
  match inputs with
  | [x] => Ok x
  | _ => torch_cat inputs axis
  end.

(** [for layer in layers: x = layer(x)], the layers being the members of
    the [ModuleList] at [prefix]. *)
Definition run_layers (prefix : mpath) (layers : list nn_Module) (x : T) : F T :=
  foldM (fun x '(k, layer) => call_module (fst prefix, snd prefix ++ [k]) layer [x])
        x (combine (seq 0 (List.length layers)) layers).

(** Lines 139-156 of mmoe_mt.py (140-157 of mmoe_mt_att.py): the input
    of the experts and of the gates. *)
Definition forward_dnn_input (self : attrs) (X : T) : F T :=
  cols <- self_get self "dnn_feature_columns" as_feats ;;
  embedding_dict <- self_get self "embedding_dict" as_embdict ;;
  log (InputFromFeatureColumns cols) ;;
  '(sparse_embedding_list, dense_value_list) <-
     lift (input_from_feature_columns X cols embedding_dict) ;;
  self_flag <- self_get self "flag" as_py ;;
  usetrans <- lift (py_in "usetrans" self_flag) ;;
  if usetrans then
    att_input <- lift (concat_fun sparse_embedding_list 1) ;;
    int_layers <- self_get self "int_layers" as_modules ;;
    att_input <- run_layers ("int_layers", []) int_layers att_input ;;
    att_output <- lift (torch_flatten att_input 1) ;;
    if 0 <? len dense_value_list then
      dense_input <- lift (concat_fun dense_value_list 1) ;;
      lift (concat_fun [att_output; dense_input] (-1))
    else ret att_output
  else
    lift (combined_dnn_input sparse_embedding_list dense_value_list).

(** Lines 159-164: the experts. *)
Definition forward_expert_outs (self : attrs) (dnn_input : T) : F T :=
  self_num_experts <- self_get self "num_experts" as_int ;;
  expert_outs <- mapM (fun i => call_at self "expert_dnn" i [dnn_input])
                      (range self_num_experts) ;;
  lift (torch_stack expert_outs 1).

(** Lines 169-175: the body of the gate loop for task [i]. *)
Definition forward_gate (self : attrs) (dnn_input expert_outs : T) (i : nat) : F T :=
  gate_units <- self_get self "gate_dnn_hidden_units" as_ints ;;
  gate_dnn_out <-
    (if 0 <? len gate_units then
       gate_dnn_out <- call_at self "gate_dnn" i [dnn_input] ;;
       call_at self "gate_dnn_final_layer" i [gate_dnn_out]
     else
       call_at self "gate_dnn_final_layer" i [dnn_input]) ;;
  weights <- lift (rbind (softmax gate_dnn_out 1) (fun w => unsqueeze w 1)) ;;
  gate_mul_expert <- lift (torch_matmul weights expert_outs) ;;
  lift (squeeze gate_mul_expert).

(** Lines 166-175: the gate loop. *)
Definition forward_mmoe_outs (self : attrs) (dnn_input expert_outs : T) : F (list T) :=
  num_tasks <- self_get self "num_tasks" as_int ;;
  mapM (forward_gate self dnn_input expert_outs) (range num_tasks).

(** [self.feature_index[self.domain_column][0]]: the key of a dictionary
    lookup has to be hashable, and present. *)
Definition domain_column_index (self : attrs) : F nat :=
  feature_index <- self_get self "feature_index" as_index ;;
  self_domain_column <- self_get self "domain_column" as_py ;;
  match self_domain_column with
  | PyStr c =>
      match find (fun kv => String.eqb c (fst kv)) feature_index with
      | Some (_, (start, _)) => ret start
      | None => raise (KeyError c)
      end
  | PyNone => raise (KeyError "None")
  | PyStrs _ => raise (TypeError "unhashable type: 'list'")
  end.

(** Lines 179-180: the rows of the domain embedding table selected by
    the domain column of the batch. *)
Definition forward_domain_emb (self : attrs) (X : T) : F T :=
  j <- domain_column_index self ;;
  domain_ids <- lift (rbind (select_column X j) long) ;;
  domain_embeddings <- self_get self "domain_embeddings" as_module ;;
  call_module ("domain_embeddings", []) domain_embeddings [domain_ids].

End Forward.

(* ===================================================================== *)
(** ** models/mmoe_mt.py *)
(* ===================================================================== *)

Module MMOE_MT.

(** [MMOE_MT.__init__], from the return of [super().__init__] on. *)
Definition init (compute_input_dim : list FeatureColumn -> Z) (a : Args)
  : M attrs unit :=
  init_common compute_input_dim a ;;
  embedding_size <- init_domain a ;;
  lhuc <- lift (lhuc_block embedding_size) ;;
  setattr "lhuc" (AModule lhuc).

Section WithTorch.
Context {T : Type} `{Torch T}.

(** Lines 182-185: the domain adaptation block and its doubling. *)
Definition forward_lhuc (self : attrs) (domain_emb : T) : F T :=
  lhuc <- self_get self "lhuc" as_modules ;;
  lhuc_output <- run_layers ("lhuc", []) lhuc domain_emb ;;
  lift (mul_int lhuc_output 2).

(** Lines 191-199: the body of the tower loop for task [i]. *)
Definition forward_tower (self : attrs) (mmoe_outs : list T) (lhuc_output : T)
    (i : nat) : F T :=
  tower_units <- self_get self "tower_dnn_hidden_units" as_ints ;;
  mmoe_out <- lift (item mmoe_outs i) ;;
  tower_dnn_logit <-
    (if 0 <? len tower_units then
       tower_dnn_out <- call_at self "tower_dnn" i [mmoe_out] ;;
       tower_dnn_out <- lift (mul tower_dnn_out lhuc_output) ;;
       call_at self "tower_dnn_final_layer" i [tower_dnn_out]
     else
       call_at self "tower_dnn_final_layer" i [mmoe_out]) ;;
  call_at self "out" i [tower_dnn_logit].

(** [MMOE_MT.forward], lines 138-202. *)
Definition forward (self : attrs) (X : T) : F T :=
  dnn_input <- forward_dnn_input self X ;;
  expert_outs <- forward_expert_outs self dnn_input ;;
  mmoe_outs <- forward_mmoe_outs self dnn_input expert_outs ;;
  domain_emb <- forward_domain_emb self X ;;
  lhuc_output <- forward_lhuc self domain_emb ;;
  num_tasks <- self_get self "num_tasks" as_int ;;
  task_outs <- mapM (forward_tower self mmoe_outs lhuc_output) (range num_tasks) ;;
  lift (torch_cat task_outs (-1)).

End WithTorch.

End MMOE_MT.

(* ===================================================================== *)
(** ** models/mmoe_mt_att.py *)
(* ===================================================================== *)

Module MMOE_MT_ATT.

(** [MMOE_MT_ATT.__init__], from the return of [super().__init__] on. *)
Definition init (compute_input_dim : list FeatureColumn -> Z) (a : Args)
  : M attrs unit :=
  init_common compute_input_dim a ;;
  embedding_size <- init_domain a ;;
  num_tasks <- get "num_tasks" as_int ;;
  lhuc <- modules_for_range num_tasks (lhuc_block embedding_size) ;;
  setattr "lhuc" (AModule (ModuleList lhuc)) ;;
  self_embedding_size <- get "embedding_size" as_int ;;
  target_attention <- modules_for_range num_tasks
                        (Ok (Attention_Layer self_embedding_size 4 true)) ;;
  setattr "target_attention" (AModule (ModuleList target_attention)).

Section WithTorch.
Context {T : Type} `{Torch T}.

(** Lines 199-202: the rescaling factor of task [i]. *)
Definition forward_att (self : attrs) (tower_dnn_out domain_emb : T) (i : nat) : F T :=
  att <- call_at self "target_attention" i [tower_dnn_out; domain_emb] ;;
  lhuc_i <- self_module self "lhuc" i ;;
  layers <- lift (as_modules (AModule lhuc_i)) ;;
  run_layers ("lhuc", [i]) layers att.

(** Lines 197-209: the body of the tower loop for task [i]. *)
Definition forward_tower (self : attrs) (mmoe_outs : list T) (domain_emb : T)
    (i : nat) : F T :=
  tower_units <- self_get self "tower_dnn_hidden_units" as_ints ;;
  mmoe_out <- lift (item mmoe_outs i) ;;
  tower_dnn_logit <-
    (if 0 <? len tower_units then
       tower_dnn_out <- call_at self "tower_dnn" i [mmoe_out] ;;
       att <- forward_att self tower_dnn_out domain_emb i ;;
       tower_dnn_out <- lift (mul tower_dnn_out att) ;;
       call_at self "tower_dnn_final_layer" i [tower_dnn_out]
     else
       call_at self "tower_dnn_final_layer" i [mmoe_out]) ;;
  call_at self "out" i [tower_dnn_logit].

(** [MMOE_MT_ATT.forward], lines 139-212. *)
Definition forward (self : attrs) (X : T) : F T :=
  dnn_input <- forward_dnn_input self X ;;
  expert_outs <- forward_expert_outs self dnn_input ;;
  mmoe_outs <- forward_mmoe_outs self dnn_input expert_outs ;;
  domain_emb <- forward_domain_emb self X ;;
  num_tasks <- self_get self "num_tasks" as_int ;;
  task_outs <- mapM (forward_tower self mmoe_outs domain_emb) (range num_tasks) ;;
  lift (torch_cat task_outs (-1)).

End WithTorch.

End MMOE_MT_ATT.

(* ===================================================================== *)
(** ** First interpretation: shapes *)
(* ===================================================================== *)

Module ShapeSem.

Local Open Scope nat_scope.

(** A tensor is seen as its [shape]. *)
Definition shape : Type := list nat.

Definition shape_error {A} : result A :=
  Raise (RuntimeError "shape mismatch").
Definition dim_error {A} : result A :=
  Raise (IndexError "Dimension out of range").

(** A dimension argument, negative ones counting from the end, for a
    tensor with [n] admissible positions. *)
Definition norm_dim (dim : Z) (n : nat) : result nat :=
  let r := Z.of_nat n in
  if ((- r <=? dim) && (dim <? r))%Z
  then Ok (Z.to_nat (if (dim <? 0)%Z then dim + r else dim)%Z)
  else dim_error.

Definition prod (s : shape) : nat := fold_right Nat.mul 1 s.
Definition total (l : list nat) : nat := fold_right Nat.add 0 l.

Fixpoint set_dim (d : nat) (v : nat) (s : shape) : shape :=
  match s, d with
  | [], _ => []
  | _ :: s', O => v :: s'
  | x :: s', S d' => x :: set_dim d' v s'
  end.

Fixpoint insert_dim (d : nat) (v : nat) (s : shape) : shape :=
  match d, s with
  | O, _ => v :: s
  | S d', x :: s' => x :: insert_dim d' v s'
  | S _, [] => [v]
  end.

Fixpoint remove_dim (d : nat) (s : shape) : shape :=
  match s, d with
  | [], _ => []
  | _ :: s', O => s'
  | x :: s', S d' => x :: remove_dim d' s'
  end.

Definition shape_eqb (s s' : shape) : bool :=
  if list_eq_dec Nat.eq_dec s s' then true else false.

(** [torch.cat]: a non-empty list of tensors that agree on every
    dimension but [dim]. *)
Definition cat (l : list shape) (dim : Z) : result shape :=
  match l with
  | [] => Raise (RuntimeError "torch.cat(): expected a non-empty list of Tensors")
  | s :: rest =>
      rbind (norm_dim dim (List.length s)) (fun d =>
      if forallb (fun s' => shape_eqb (set_dim d 0 s') (set_dim d 0 s)) rest
      then Ok (set_dim d (total (map (fun s' => nth d s' 0) l)) s)
      else shape_error)
  end.

(** [torch.flatten(t, start_dim)], with [end_dim = -1]. *)
Definition flatten (s : shape) (start_dim : Z) : result shape :=
  rbind (norm_dim start_dim (Nat.max 1 (List.length s))) (fun d =>
  Ok (firstn d s ++ [prod (skipn d s)])).

(** [torch.stack]: a non-empty list of tensors of one shape. *)
Definition stack (l : list shape) (dim : Z) : result shape :=
  match l with
  | [] => Raise (RuntimeError "stack expects a non-empty TensorList")
  | s :: rest =>
      rbind (norm_dim dim (S (List.length s))) (fun d =>
      if forallb (shape_eqb s) rest
      then Ok (insert_dim d (List.length l) s)
      else shape_error)
  end.

(** Broadcasting, on reversed shapes. *)
Fixpoint broadcast_rev (r1 r2 : list nat) : result (list nat) :=
  match r1, r2 with
  | [], r => Ok r
  | r, [] => Ok r
  | x :: r1', y :: r2' =>
      rbind (broadcast_rev r1' r2') (fun r =>
      if x =? y then Ok (x :: r)
      else if x =? 1 then Ok (y :: r)
      else if y =? 1 then Ok (x :: r)
      else shape_error)
  end.

Definition broadcast (s1 s2 : shape) : result shape :=
  rbind (broadcast_rev (rev s1) (rev s2)) (fun r => Ok (rev r)).

(** [torch.matmul]: vectors are promoted to matrices and the added
    dimension removed afterwards; leading dimensions broadcast. *)
Definition matmul (a b : shape) : result shape :=
  match rev a, rev b with
  | [], _ | _, [] =>
      Raise (RuntimeError "both arguments to matmul need to be at least 1D")
  | [k], [k'] => if k =? k' then Ok [] else shape_error
  | [k], p :: k' :: batch_b =>
      if k =? k' then Ok (rev (p :: batch_b)) else shape_error
  | k :: n :: batch_a, [k'] =>
      if k =? k' then Ok (rev (n :: batch_a)) else shape_error
  | k :: n :: batch_a, p :: k' :: batch_b =>
      if k =? k'
      then rbind (broadcast_rev batch_a batch_b) (fun batch =>
           Ok (rev (p :: n :: batch)))
      else shape_error
  end.

(** [t.softmax(dim)]. *)
Definition softmax_shape (s : shape) (dim : Z) : result shape :=
  rbind (norm_dim dim (Nat.max 1 (List.length s))) (fun _ => Ok s).

(** [t.unsqueeze(dim)]. *)
Definition unsqueeze_shape (s : shape) (dim : Z) : result shape :=
  rbind (norm_dim dim (S (List.length s))) (fun d => Ok (insert_dim d 1 s)).

(** [t.squeeze()]: every dimension of size one goes. *)
Definition squeeze_shape (s : shape) : result shape :=
  Ok (filter (fun n => negb (n =? 1)) s).

(** [X[:, j]]. *)
Definition select_column_shape (s : shape) (j : nat) : result shape :=
  match s with
  | b :: f :: rest =>
      if j <? f then Ok (b :: rest)
      else Raise (IndexError "index is out of bounds for dimension 1")
  | _ => Raise (IndexError "too many indices for tensor")
  end.

(** A linear map on the last dimension. *)
Definition linear_shape (in_features out_features : Z) (s : shape) : result shape :=
  match rev s with
  | k :: pre =>
      if (Z.of_nat k =? in_features)%Z
      then Ok (rev (Z.to_nat out_features :: pre))
      else Raise (RuntimeError "mat1 and mat2 shapes cannot be multiplied")
  | [] => Raise (RuntimeError "mat1 and mat2 shapes cannot be multiplied")
  end.

Section WithAttention.

(** The shape rule of the layers of models/satrans.py. *)
Variable satrans_shape : nn_Module -> list shape -> result shape.

(** [m(inputs)].  The toolkit's [DNN] (without batch normalisation) is
    a chain of linear layers and shape-preserving activations;
    [PredictionLayer] adds, in place, a bias of shape [(1,)]. *)
Definition call_shape (p : mpath) (m : nn_Module) (inputs : list shape) : result shape :=
  match m, inputs with
  | Linear i o, [s] => linear_shape i o s
  | ReLU, [s] => Ok s
  | Sigmoid, [s] => Ok s
  | Embedding _ d, [s] => Ok (s ++ [Z.to_nat d])
  | DNN i hidden, [s] =>
      match last_item hidden with
      | Ok o => linear_shape i o s
      | Raise _ => Ok s
      end
  | PredictionLayer _, [s] =>
    match s with
    | [] => shape_error
    | _ :: _ => Ok s
    end
  | SelfAttention_Layer _ _ _, _ => satrans_shape m inputs
  | Attention_Layer _ _ _, _ => satrans_shape m inputs
  | _, _ => Raise (TypeError "forward() got unexpected arguments")
  end.

(** [input_from_feature_columns] on a batch [X] of shape [(b, F)]: one
    [(b, 1, embedding_dim)] tensor per sparse column, one
    [(b, dimension)] tensor per dense column. *)
Definition input_shapes (X : shape) (cols : list FeatureColumn)
    (embedding_dict : list (string * nn_Module)) : result (list shape * list shape) :=
  match X with
  | [b; _] =>
      Ok (flat_map (fun feat => match feat with
                                | SparseFeat _ _ d => [[b; 1; Z.to_nat d]]
                                | DenseFeat _ _ => []
                                end) cols,
          flat_map (fun feat => match feat with
                                | SparseFeat _ _ _ => []
                                | DenseFeat _ d => [[b; Z.to_nat d]]
                                end) cols)
  | _ => Raise (IndexError "too many indices for tensor")
  end.

(** The toolkit's [combined_dnn_input]. *)
Definition combined_shape (sparse dense : list shape) : result shape :=
  let flat l := rbind (cat l (-1)) (fun c => flatten c 1) in
  match sparse, dense with
  | _ :: _, _ :: _ =>
      rbind (flat sparse) (fun sparse_dnn_input =>
      rbind (flat dense) (fun dense_dnn_input =>
      cat [sparse_dnn_input; dense_dnn_input] (-1)))
  | _ :: _, [] => flat sparse
  | [], _ :: _ => flat dense
  | [], [] => Raise (RuntimeError "NotImplementedError")
  end.

#[export] Instance torch_shape : Torch shape := {
  torch_cat := cat;
  torch_flatten := flatten;
  torch_stack := stack;
  torch_matmul := matmul;
  softmax := softmax_shape;
  unsqueeze := unsqueeze_shape;
  squeeze := squeeze_shape;
  mul := broadcast;
  mul_int := fun s _ => Ok s;
  select_column := select_column_shape;
  long := fun s => Ok s;
  call := call_shape;
  input_from_feature_columns := input_shapes;
  combined_dnn_input := combined_shape
}.

End WithAttention.

End ShapeSem.

(* ===================================================================== *)
(** ** Second interpretation: tensors of real numbers *)
(* ===================================================================== *)

Module RealSem.

Local Open Scope R_scope.

(** Tensors of rank at most three, the largest rank [forward] handles
    itself: [(bs, num_experts, dim)].  A row is a list, so a tensor with
    an empty leading dimension has no trailing dimensions to speak of. *)
Inductive tensor : Type :=
| T0 (x : R)
| T1 (v : list R)
| T2 (m : list (list R))
| T3 (c : list (list (list R))).

Definition shape_of (t : tensor) : ShapeSem.shape :=
  match t with
  | T0 _ => []
  | T1 v => [List.length v]
  | T2 m => [List.length m; List.length (hd [] m)]
  | T3 c => [List.length c; List.length (hd [] c); List.length (hd [] (hd [] c))]
  end.

(** Every row as long as the first one. *)
Definition rectangular {A} (m : list (list A)) : Prop :=
  Forall (fun row => List.length row = List.length (hd [] m)) m.

Definition well_formed (t : tensor) : Prop :=
  match t with
  | T0 _ | T1 _ => True
  | T2 m => rectangular m
  | T3 c => rectangular c /\
            Forall (fun mat => Forall (fun row => List.length row
                                                  = List.length (hd [] (hd [] c))) mat) c
  end.

(** The entries, in row-major order. *)
Definition entries (t : tensor) : list R :=
  match t with
  | T0 x => [x]
  | T1 v => v
  | T2 m => concat m
  | T3 c => concat (concat c)
  end.

Definition tmap (f : R -> R) (t : tensor) : tensor :=
  match t with
  | T0 x => T0 (f x)
  | T1 v => T1 (map f v)
  | T2 m => T2 (map (map f) m)
  | T3 c => T3 (map (map (map f)) c)
  end.

Definition not_modelled {A} : result A :=
  Raise (RuntimeError "outside the modelled fragment").

(** *** Scalar functions *)

(** The exact sigmoid.  Its values lie strictly between 0 and 1; the
    rounded sigmoid of the program reaches both ends, so the bounds stated
    of it below are the closed ones, which hold of both. *)
Definition sigmoid (x : R) : R := 1 / (1 + exp (- x)).
Definition relu (x : R) : R := Rmax 0 x.

(** [float.long()]: truncation towards zero. *)
Definition Rtrunc (x : R) : Z :=
  if Rle_dec 0 x then Int_part x else (- Int_part (- x))%Z.

(** *** Vectors and matrices *)

Definition sum (v : list R) : R := fold_right Rplus 0 v.

Definition dot (u v : list R) : R :=
  sum (map (fun p => fst p * snd p) (combine u v)).

Definition column {A} (d : A) (j : nat) (m : list (list A)) : list A :=
  map (fun row => nth j row d) m.

Definition ncols {A} (m : list (list A)) : nat := List.length (hd [] m).

Definition transpose {A} (d : A) (m : list (list A)) : list (list A) :=
  map (fun j => column d j m) (seq 0 (ncols m)).

(** A row vector times a matrix, and a matrix times a matrix. *)
Definition vecmat (u : list R) (B : list (list R)) : list R :=
  map (fun j => dot u (column 0 j B)) (seq 0 (ncols B)).

Definition mm (A B : list (list R)) : list (list R) :=
  map (fun row => vecmat row B) A.

(** [softmax] of one row. *)
Definition softmax_row (v : list R) : list R :=
  map (fun x => exp x / sum (map exp v)) v.

(** A linear layer without bias, [y = x W^T], on one row; the weight has
    one row per output feature. *)
Definition linear_row (W : list (list R)) (x : list R) : list R :=
  map (fun w => dot x w) W.

(** Broadcasting a dimension of size one. *)
Definition stretch {A} (d : A) (l : list A) (n : nat) : list A :=
  if (List.length l =? n)%nat then l else repeat (hd d l) n.

Fixpoint map2 {A B C} (f : A -> B -> C) (l : list A) (l' : list B) : list C :=
  match l, l' with
  | x :: l, y :: l' => f x y :: map2 f l l'
  | _, _ => []
  end.

(** The [r]-th element of every list, for [r < n]. *)
Definition zip_rows {A} (n : nat) (ls : list (list A)) : list (list A) :=
  map (fun r => flat_map (fun l => match nth_error l r with
                                   | Some x => [x]
                                   | None => []
                                   end) ls) (seq 0 n).

(** *** Lists of tensors of one rank *)

Fixpoint all_T0 (l : list tensor) : option (list R) :=
  match l with
  | [] => Some []
  | T0 x :: l' => option_map (cons x) (all_T0 l')
  | _ => None
  end.

Fixpoint all_T1 (l : list tensor) : option (list (list R)) :=
  match l with
  | [] => Some []
  | T1 v :: l' => option_map (cons v) (all_T1 l')
  | _ => None
  end.

Fixpoint all_T2 (l : list tensor) : option (list (list (list R))) :=
  match l with
  | [] => Some []
  | T2 m :: l' => option_map (cons m) (all_T2 l')
  | _ => None
  end.

Fixpoint all_T3 (l : list tensor) : option (list (list (list (list R)))) :=
  match l with
  | [] => Some []
  | T3 c :: l' => option_map (cons c) (all_T3 l')
  | _ => None
  end.

(** *** Tensor operations: the shape rule decides whether the operation
    raises, the lists carry the entries. *)

Definition checked {A} (s : result ShapeSem.shape) (k : ShapeSem.shape -> result A)
  : result A := rbind s k.

Definition cat (l : list tensor) (dim : Z) : result tensor :=
  checked (ShapeSem.cat (map shape_of l) dim) (fun out =>
  match all_T1 l, all_T2 l, all_T3 l, out with
  | Some vs, _, _, _ => Ok (T1 (concat vs))
  | _, Some ms, _, [n; _] =>
      if (dim =? 0)%Z || (dim =? -2)%Z then Ok (T2 (concat ms))
      else Ok (T2 (map (@concat R) (zip_rows n ms)))
  | _, _, Some cs, [n; k; _] =>
      if (dim =? 0)%Z || (dim =? -3)%Z then Ok (T3 (concat cs))
      else if (dim =? 1)%Z || (dim =? -2)%Z
           then Ok (T3 (map (@concat (list R)) (zip_rows n cs)))
           else Ok (T3 (map (fun mats => map (@concat R) (zip_rows k mats))
                            (zip_rows n cs)))
  | _, _, _, _ => not_modelled
  end).

Definition flatten (t : tensor) (start_dim : Z) : result tensor :=
  checked (ShapeSem.flatten (shape_of t) start_dim) (fun out =>
  match t, out with
  | T0 x, _ => Ok (T1 [x])
  | T1 v, _ => Ok (T1 v)
  | T2 m, [_] => Ok (T1 (concat m))
  | T2 m, _ => Ok (T2 m)
  | T3 c, [_] => Ok (T1 (concat (concat c)))
  | T3 c, [_; _] => Ok (T2 (map (@concat R) c))
  | T3 c, _ => Ok (T3 c)
  end).

Definition stack (l : list tensor) (dim : Z) : result tensor :=
  checked (ShapeSem.stack (map shape_of l) dim) (fun out =>
  match all_T0 l, all_T1 l, all_T2 l, out with
  | Some xs, _, _, _ => Ok (T1 xs)
  | _, Some vs, _, [n; _] =>
      if (dim =? 0)%Z || (dim =? -2)%Z then Ok (T2 vs)
      else Ok (T2 (zip_rows n vs))
  | _, _, Some ms, [n; k; _] =>
      if (dim =? 0)%Z || (dim =? -3)%Z then Ok (T3 ms)
      else if (dim =? 1)%Z || (dim =? -2)%Z
           then Ok (T3 (zip_rows n ms))
           else Ok (T3 (map (zip_rows k) (zip_rows n ms)))
  | _, _, _, _ => not_modelled
  end).

Definition matmul (a b : tensor) : result tensor :=
  checked (ShapeSem.matmul (shape_of a) (shape_of b)) (fun out =>
  match a, b with
  | T1 u, T1 v => Ok (T0 (dot u v))
  | T1 u, T2 B => Ok (T1 (vecmat u B))
  | T2 A, T1 v => Ok (T1 (map (fun row => dot row v) A))
  | T2 A, T2 B => Ok (T2 (mm A B))
  | T3 As, T3 Bs =>
      let n := hd 0%nat out in
      Ok (T3 (map2 mm (stretch [] As n) (stretch [] Bs n)))
  | T3 As, T2 B => Ok (T3 (map (fun A => mm A B) As))
  | T2 A, T3 Bs => Ok (T3 (map (mm A) Bs))
  | T3 As, T1 v => Ok (T2 (map (map (fun row => dot row v)) As))
  | T1 u, T3 Bs => Ok (T2 (map (vecmat u) Bs))
  | _, _ => not_modelled
  end).

Definition softmax_t (t : tensor) (dim : Z) : result tensor :=
  checked (ShapeSem.softmax_shape (shape_of t) dim) (fun _ =>
  match t with
  | T0 _ => Ok (T0 1)
  | T1 v => Ok (T1 (softmax_row v))
  | T2 m =>
      if (dim =? 1)%Z || (dim =? -1)%Z then Ok (T2 (map softmax_row m))
      else Ok (T2 (transpose 0 (map softmax_row (transpose 0 m))))
  | T3 c =>
      if (dim =? 2)%Z || (dim =? -1)%Z then Ok (T3 (map (map softmax_row) c))
      else if (dim =? 1)%Z || (dim =? -2)%Z
           then Ok (T3 (map (fun m => transpose 0 (map softmax_row (transpose 0 m))) c))
           else not_modelled
  end).

Definition unsqueeze_t (t : tensor) (dim : Z) : result tensor :=
  checked (ShapeSem.unsqueeze_shape (shape_of t) dim) (fun _ =>
  match t with
  | T0 x => Ok (T1 [x])
  | T1 v =>
      if (dim =? 0)%Z || (dim =? -2)%Z then Ok (T2 [v])
      else Ok (T2 (map (fun x => [x]) v))
  | T2 m =>
      if (dim =? 0)%Z || (dim =? -3)%Z then Ok (T3 [m])
      else if (dim =? 1)%Z || (dim =? -2)%Z
           then Ok (T3 (map (fun row => [row]) m))
           else Ok (T3 (map (map (fun x => [x])) m))
  | T3 _ => not_modelled
  end).

(** [squeeze()]: the entries stay, in order; the rank drops by the number
    of dimensions of size one. *)
Definition squeeze_t (t : tensor) : result tensor :=
  checked (ShapeSem.squeeze_shape (shape_of t)) (fun out =>
  match out, t with
  | [], _ => Ok (T0 (hd 0 (entries t)))
  | [_], _ => Ok (T1 (entries t))
  | [_; _], T2 m => Ok (T2 m)
  | [_; _], T3 c =>
      if (List.length c =? 1)%nat then Ok (T2 (concat c))
      else Ok (T2 (map (@concat R) c))
  | _, _ => Ok t
  end).

(** Broadcasting to a given shape. *)
Definition expand1 (t : tensor) (k : nat) : list R :=
  match t with
  | T0 x => repeat x k
  | _ => stretch 0 (entries t) k
  end.

Definition expand2 (t : tensor) (n k : nat) : list (list R) :=
  match t with
  | T2 m => stretch [] (map (fun row => stretch 0 row k) m) n
  | _ => repeat (expand1 t k) n
  end.

Definition expand3 (t : tensor) (b n k : nat) : list (list (list R)) :=
  match t with
  | T3 c => stretch [] (map (fun m => expand2 (T2 m) n k) c) b
  | _ => repeat (expand2 t n k) b
  end.

(** [a * b], element-wise with broadcasting. *)
Definition mul_t (a b : tensor) : result tensor :=
  checked (ShapeSem.broadcast (shape_of a) (shape_of b)) (fun out =>
  match out with
  | [] => Ok (T0 (hd 0 (entries a) * hd 0 (entries b)))
  | [k] => Ok (T1 (map2 Rmult (expand1 a k) (expand1 b k)))
  | [n; k] => Ok (T2 (map2 (map2 Rmult) (expand2 a n k) (expand2 b n k)))
  | [b'; n; k] =>
      Ok (T3 (map2 (map2 (map2 Rmult)) (expand3 a b' n k) (expand3 b b' n k)))
  | _ => not_modelled
  end).

Definition mul_int_t (t : tensor) (k : Z) : result tensor :=
  Ok (tmap (fun x => x * IZR k) t).

(** [X[:, j]]. *)
Definition select_column_t (X : tensor) (j : nat) : result tensor :=
  checked (ShapeSem.select_column_shape (shape_of X) j) (fun _ =>
  match X with
  | T2 m => Ok (T1 (column 0 j m))
  | T3 c => Ok (T2 (column [] j c))
  | _ => not_modelled
  end).

(** [t.long()]; integers are kept as the reals they are. *)
Definition long_t (t : tensor) : result tensor :=
  Ok (tmap (fun x => IZR (Rtrunc x)) t).

(** *** Modules *)

(** [F.embedding]: the row of the table at an index, which has to lie in
    [[0, num_embeddings)]. *)
Definition embedding_row (table : list (list R)) (id : R) : result (list R) :=
  let k := Rtrunc id in
  if ((0 <=? k) && (k <? len table))%Z
  then Ok (nth (Z.to_nat k) table [])
  else Raise (IndexError "index out of range in self").

Fixpoint mapR {A B} (f : A -> result B) (l : list A) : result (list B) :=
  match l with
  | [] => Ok []
  | x :: l' => rbind (f x) (fun y => rbind (mapR f l') (fun ys => Ok (y :: ys)))
  end.

Definition embedding (table : list (list R)) (ids : tensor) : result tensor :=
  match ids with
  | T0 x => rbind (embedding_row table x) (fun row => Ok (T1 row))
  | T1 v => rbind (mapR (embedding_row table) v) (fun rows => Ok (T2 rows))
  | T2 m => rbind (mapR (mapR (embedding_row table)) m) (fun c => Ok (T3 c))
  | T3 _ => not_modelled
  end.

Definition linear (i o : Z) (W : list (list R)) (t : tensor) : result tensor :=
  checked (ShapeSem.linear_shape i o (shape_of t)) (fun _ =>
  match t with
  | T0 _ => not_modelled
  | T1 v => Ok (T1 (linear_row W v))
  | T2 m => Ok (T2 (map (linear_row W) m))
  | T3 c => Ok (T3 (map (map (linear_row W)) c))
  end).

Section WithParameters.

(** The learned parameters: the weight of the [nn.Linear] or
    [nn.Embedding] at a path. *)
Variable weight : mpath -> list (list R).

(** The modules that come from the toolkit and from models/satrans.py:
    [DNN], [PredictionLayer] and the attention layers. *)
Variable external : mpath -> nn_Module -> list tensor -> result tensor.

Definition call_t (p : mpath) (m : nn_Module) (inputs : list tensor) : result tensor :=
  match m, inputs with
  | Linear i o, [t] => linear i o (weight p) t
  | ReLU, [t] => Ok (tmap relu t)
  | Sigmoid, [t] => Ok (tmap sigmoid t)
  | Embedding _ _, [ids] => embedding (weight p) ids
  | ModuleList _, _ => Raise (TypeError "forward() got unexpected arguments")
  | _, _ => external p m inputs
  end.

(** Where [build_input_features] puts the columns of a batch: a sparse
    column takes one position, a dense one [dimension] positions. *)
Fixpoint input_positions (start : nat) (cols : list FeatureColumn)
  : list (FeatureColumn * nat) :=
  match cols with
  | [] => []
  | feat :: cols' =>
      (feat, start)
      :: input_positions (start + match feat with
                                  | SparseFeat _ _ _ => 1
                                  | DenseFeat _ d => Z.to_nat d
                                  end)%nat cols'
  end.

(** [input_from_feature_columns]: every sparse column is looked up in its
    embedding table, every dense column is sliced out of the batch. *)
Definition input_tensors (X : tensor) (cols : list FeatureColumn)
    (embedding_dict : list (string * nn_Module)) : result (list tensor * list tensor) :=
  match X with
  | T2 rows =>
      rbind (mapR (fun '(feat, p) =>
                     match feat with
                     | SparseFeat n _ _ =>
                         rbind (embedding (weight (("embedding_dict." ++ n)%string, []))
                                          (T2 (map (fun row => firstn 1 (skipn p row)) rows)))
                               (fun e => Ok [e])
                     | DenseFeat _ _ => Ok []
                     end) (input_positions 0 cols)) (fun sparse =>
      Ok (concat sparse,
          flat_map (fun '(feat, p) =>
                      match feat with
                      | SparseFeat _ _ _ => []
                      | DenseFeat _ d =>
                          [T2 (map (fun row => firstn (Z.to_nat d) (skipn p row)) rows)]
                      end) (input_positions 0 cols)))
  | _ => Raise (IndexError "too many indices for tensor")
  end.

(** The toolkit's [combined_dnn_input]. *)
Definition combined (sparse dense : list tensor) : result tensor :=
  let flat l := rbind (cat l (-1)) (fun c => flatten c 1) in
  match sparse, dense with
  | _ :: _, _ :: _ =>
      rbind (flat sparse) (fun sparse_dnn_input =>
      rbind (flat dense) (fun dense_dnn_input =>
      cat [sparse_dnn_input; dense_dnn_input] (-1)))
  | _ :: _, [] => flat sparse
  | [], _ :: _ => flat dense
  | [], [] => Raise (RuntimeError "NotImplementedError")
  end.

#[export] Instance torch_real : Torch tensor := {
  torch_cat := cat;
  torch_flatten := flatten;
  torch_stack := stack;
  torch_matmul := matmul;
  softmax := softmax_t;
  unsqueeze := unsqueeze_t;
  squeeze := squeeze_t;
  mul := mul_t;
  mul_int := mul_int_t;
  select_column := select_column_t;
  long := long_t;
  call := call_t;
  input_from_feature_columns := input_tensors;
  combined_dnn_input := combined
}.

End WithParameters.

End RealSem.

(* ===================================================================== *)
(** ** The constructors in closed form *)
(* ===================================================================== *)

(** The outcome of [check_arguments], in closed form. *)
Definition check_result (num_tasks : Z) (a : Args) : result unit :=
  if num_tasks <=? 1 then Raise (ValueError "num_tasks must be greater than 1")
  else if num_experts a <=? 1 then Raise (ValueError "num_experts must be greater than 1")
  else if len (dnn_feature_columns a) =? 0 then Raise (ValueError "dnn_feature_columns is null!")
  else if negb (len (task_types a) =? num_tasks)
       then Raise (ValueError "num_tasks must be equal to the length of task_types")
  else match find (fun t => negb (legal_task_type t)) (task_types a) with
       | Some t => Raise (ValueError ("task must be binary or regression, "
                                        ++ t ++ " is illegal"))
       | None => Ok tt
       end.

(** The three checks the claim names, as messages. *)
Definition count_or_type_error (e : pyexn) : Prop :=
  e = ValueError "num_tasks must be greater than 1" \/
  e = ValueError "num_experts must be greater than 1" \/
  exists t, e = ValueError ("task must be binary or regression, " ++ t ++ " is illegal").

Definition none_not_iterable : pyexn :=
  TypeError "argument of type 'NoneType' is not iterable".

(** [init_common] up to the validation: three attributes are set, then the
    checks decide. *)
Definition after_header (a : Args) (s : attrs) : attrs :=
  ("flag", APy (flag a)) :: ("domain_column", APy (domain_column a))
    :: ("num_tasks", AInt (len (task_names a))) :: s.

(** The attributes set at lines 72-77, on top of the first three. *)
Definition after_settings cid (a : Args) (s : attrs) : attrs :=
  ("tower_dnn_hidden_units", AInts (tower_dnn_hidden_units a))
  :: ("gate_dnn_hidden_units", AInts (gate_dnn_hidden_units a))
  :: ("expert_dnn_hidden_units", AInts (expert_dnn_hidden_units a))
  :: ("input_dim", AInt (cid (dnn_feature_columns a)))
  :: ("task_names", AStrs (task_names a))
  :: ("num_experts", AInt (num_experts a))
  :: after_header a s.

Definition last_unit (units : list Z) : Z := List.last units 0.

Definition lhuc_layers (e : Z) : list nn_Module :=
  [Linear e 128; ReLU; Linear 128 64; Sigmoid].

(** Attribute dictionaries are joined with [+++], the newest first. *)
Notation "d1 +++ d2" := (@app (string * attr) d1 d2)
  (at level 60, right associativity).

Definition opt_attr (b : bool) (k : string) (v : attr) : attrs :=
  if b then [(k, v)] else [].

(** The object after line 120, for arguments that got that far. *)
Definition after_layers cid (a : Args) (usetrans : bool) (e : Z) (s : attrs) : attrs :=
  let nt := Z.to_nat (len (task_names a)) in
  let input_dim := cid (dnn_feature_columns a) in
  let gate := 0 <? len (gate_dnn_hidden_units a) in
  let tower := 0 <? len (tower_dnn_hidden_units a) in
  [("out", AModule (ModuleList (map PredictionLayer (task_types a))));
   ("tower_dnn_final_layer",
    AModule (ModuleList (repeat
      (Linear (if tower then last_unit (tower_dnn_hidden_units a)
               else last_unit (expert_dnn_hidden_units a)) 1) nt)))]
  +++ opt_attr tower "tower_dnn"
        (AModule (ModuleList (repeat
           (DNN (last_unit (expert_dnn_hidden_units a)) (tower_dnn_hidden_units a)) nt)))
  +++ [("gate_dnn_final_layer",
        AModule (ModuleList (repeat
          (Linear (if gate then last_unit (gate_dnn_hidden_units a) else input_dim)
                  (num_experts a)) nt)))]
  +++ opt_attr gate "gate_dnn"
        (AModule (ModuleList (repeat (DNN input_dim (gate_dnn_hidden_units a)) nt)))
  +++ [("expert_dnn",
        AModule (ModuleList (repeat (DNN input_dim (expert_dnn_hidden_units a))
                                    (Z.to_nat (num_experts a)))))]
  +++ opt_attr usetrans "int_layers"
        (AModule (ModuleList (repeat (SelfAttention_Layer e 4 true) 3)))
  +++ after_settings cid a s.

(** The attributes that hold the layers built at lines 78-114. *)
Definition layer_attributes : list string :=
  ["int_layers"; "expert_dnn"; "gate_dnn"; "gate_dnn_final_layer";
   "tower_dnn"; "tower_dnn_final_layer"; "out"].

(** [feat.name in filtered_col_names], for a container that supports [in]. *)
Definition named_in (filtered_col_names : pyval) (feat : FeatureColumn) : bool :=
  match py_in (name feat) filtered_col_names with
  | Ok b => b
  | Raise _ => false
  end.

(** The object after line 130. *)
Definition after_domain (a : Args) (e : Z) (s : attrs) : attrs :=
  ("domain_embeddings", AModule (Embedding (num_domains a + 1) e))
  :: ("domain_column", APy (domain_column a)) :: s.

Definition MMOE_MT_built cid (a : Args) (usetrans : bool) (e_dim e_size : Z) (s : attrs) : attrs :=
  ("lhuc", AModule (ModuleList (lhuc_layers e_size)))
  :: after_domain a e_size (after_layers cid a usetrans e_dim s).

Definition MMOE_MT_ATT_built cid (a : Args) (usetrans : bool) (e_dim e_size : Z) (s : attrs) : attrs :=
  let nt := Z.to_nat (len (task_names a)) in
  ("target_attention", AModule (ModuleList (repeat (Attention_Layer e_size 4 true) nt)))
  :: ("lhuc", AModule (ModuleList (repeat (ModuleList (lhuc_layers e_size)) nt)))
  :: after_domain a e_size (after_layers cid a usetrans e_dim s).

(** An object built by one of the two constructors. *)
Definition constructed cid (a : Args) usetrans e_dim e_size (s self : attrs) : Prop :=
  self = MMOE_MT_built cid a usetrans e_dim e_size s \/
  self = MMOE_MT_ATT_built cid a usetrans e_dim e_size s.

(** The attributes the two constructors assign. *)
Definition assigned_attributes : list string :=
  ["target_attention"; "lhuc"; "domain_embeddings"] ++ layer_attributes ++
  ["tower_dnn_hidden_units"; "gate_dnn_hidden_units"; "expert_dnn_hidden_units";
   "input_dim"; "task_names"; "num_experts"; "flag"; "domain_column"; "num_tasks"].

(* ===================================================================== *)
(** ** The log of a forward pass *)
(* ===================================================================== *)

(** The value and the events of a computation started on an empty log. *)
Definition value {T A} (c : M (list (event T)) A) : result A := fst (c []).

Definition events {T A} (c : M (list (event T)) A) : list (event T) := snd (c []).

(** A computation that only appends to the log. *)
Definition writer {T A} (c : M (list (event T)) A) : Prop :=
  forall tr, c tr = (value c, tr ++ events c).

Section Calls.

Context {T : Type}.

(** Calls of one of the experts. *)
Definition is_expert_call (e : event T) : bool :=
  match e with
  | ModuleCall p _ => String.eqb (fst p) "expert_dnn"
  | InputFromFeatureColumns _ => false
  end.

Definition expert_calls (tr : list (event T)) : list (event T) :=
  filter is_expert_call tr.

(** A computation that appends to the log and calls no expert. *)
Definition quiet {A} (c : M (list (event T)) A) : Prop :=
  writer c /\ expert_calls (events c) = [].

End Calls.

(* ===================================================================== *)
(** ** The blocks of [forward] as the specification words them *)
(* ===================================================================== *)

Section Described.

Context {T : Type} `{Torch T}.

(** The input of the experts and gates as C6 describes it under
    'usetrans': the concatenated sparse embeddings through three stacked
    self-attention layers, flattened, and joined with the concatenated
    dense values when there are any. *)
Definition self_attention_input (e : Z) (sparse dense : list T) : result T :=
  rbind (concat_fun sparse 1) (fun x0 =>
  rbind (call ("int_layers", [0%nat]) (SelfAttention_Layer e 4 true) [x0]) (fun x1 =>
  rbind (call ("int_layers", [1%nat]) (SelfAttention_Layer e 4 true) [x1]) (fun x2 =>
  rbind (call ("int_layers", [2%nat]) (SelfAttention_Layer e 4 true) [x2]) (fun x3 =>
  rbind (torch_flatten x3 1) (fun att_output =>
  match dense with
  | [] => Ok att_output
  | _ :: _ =>
      rbind (concat_fun dense 1) (fun dense_input =>
      torch_cat [att_output; dense_input] (-1))
  end))))).

(** What C7 says of a forward pass on the batch [X] that left the log
    [tr]: the experts [0 .. num_experts-1] are each called once, in the
    expert loop, on the one [dnn_input]; their outputs are stacked into one
    tensor [expert_outs]; and the gate of every task is run on that
    tensor. *)
Definition experts_shared (self : attrs) (X : T) (tr : list (event T)) : Prop :=
  exists E dnn_input outs expert_outs num_tasks mmoe_outs,
    lookup "num_experts" self = Some (AInt E) /\
    value (forward_dnn_input self X) = Ok dnn_input /\
    expert_calls tr
    = map (fun j => ModuleCall ("expert_dnn", [j]) [dnn_input]) (range E) /\
    Forall2 (fun j out =>
               exists experts m,
                 lookup "expert_dnn" self = Some (AModule (ModuleList experts)) /\
                 nth_error experts j = Some m /\
                 call ("expert_dnn", [j]) m [dnn_input] = Ok out)
            (range E) outs /\
    torch_stack outs 1 = Ok expert_outs /\
    lookup "num_tasks" self = Some (AInt num_tasks) /\
    Forall2 (fun i mmoe_out =>
               value (forward_gate self dnn_input expert_outs i) = Ok mmoe_out)
            (range num_tasks) mmoe_outs.

(** The logits of the gate of task [i]: the output of the final linear
    layer of the gate, fed by the gate DNN when there is one. *)
Definition gate_logits (cid : list FeatureColumn -> Z) (a : Args) (i : nat)
    (dnn_input : T) : result T :=
  if 0 <? len (gate_dnn_hidden_units a) then
    rbind (call ("gate_dnn", [i])
                (DNN (cid (dnn_feature_columns a)) (gate_dnn_hidden_units a))
                [dnn_input]) (fun gate_dnn_out =>
    call ("gate_dnn_final_layer", [i])
         (Linear (last_unit (gate_dnn_hidden_units a)) (num_experts a)) [gate_dnn_out])
  else
    call ("gate_dnn_final_layer", [i])
         (Linear (cid (dnn_feature_columns a)) (num_experts a)) [dnn_input].

(** The factor of task [i] as C5 describes it: the [i]-th target-attention
    layer on the tower representation and the domain embedding, then the
    four layers of the [i]-th LHUC block. *)
Definition task_factor (e_size : Z) (i : nat) (tower_dnn_out domain_emb : T) : result T :=
  rbind (call ("target_attention", [i]) (Attention_Layer e_size 4 true)
              [tower_dnn_out; domain_emb]) (fun att =>
  rbind (call ("lhuc", [i; 0%nat]) (Linear e_size 128) [att]) (fun h1 =>
  rbind (call ("lhuc", [i; 1%nat]) ReLU [h1]) (fun h2 =>
  rbind (call ("lhuc", [i; 2%nat]) (Linear 128 64) [h2]) (fun h3 =>
  call ("lhuc", [i; 3%nat]) Sigmoid [h3])))).

(** The tower of task [i] as C5 describes it. *)
Definition task_tower (a : Args) (e_size : Z) (type_i : string) (i : nat)
    (mmoe_out domain_emb : T) : result T :=
  rbind (call ("tower_dnn", [i])
              (DNN (last_unit (expert_dnn_hidden_units a)) (tower_dnn_hidden_units a))
              [mmoe_out]) (fun tower_dnn_out =>
  rbind (task_factor e_size i tower_dnn_out domain_emb) (fun att =>
  rbind (mul tower_dnn_out att) (fun rescaled =>
  rbind (call ("tower_dnn_final_layer", [i])
              (Linear (last_unit (tower_dnn_hidden_units a)) 1) [rescaled]) (fun logit =>
  call ("out", [i]) (PredictionLayer type_i) [logit])))).

End Described.

Section Mixture.

Import RealSem.
Local Open Scope R_scope.

(** [w_1 * e_1 + ... + w_E * e_E], the vectors [e_j] of length [D]. *)
Fixpoint weighted_sum (D : nat) (w : list R) (experts : list (list R)) : list R :=
  match w, experts with
  | wj :: w', ej :: experts' =>
      map2 Rplus (map (Rmult wj) ej) (weighted_sum D w' experts')
  | _, _ => repeat 0 D
  end.

End Mixture.

(* ===================================================================== *)
(** ** Concrete models *)
(* ===================================================================== *)

Module Demo.

(** The user column, the domain column '301' and one dense value. *)
Definition cols : list FeatureColumn :=
  [SparseFeat "user" 10 4; SparseFeat "301" 3 4; DenseFeat "price" 1].

Definition compute_input_dim (fcs : list FeatureColumn) : Z :=
  fold_right Z.add 0
    (map (fun feat => match feat with
                      | SparseFeat _ _ d => d
                      | DenseFeat _ d => d
                      end) fcs).

Definition embedding_dict : list (string * nn_Module) :=
  [("user", Embedding 10 4); ("301", Embedding 3 4)].

(** The object as the base class leaves it. *)
Definition base : attrs :=
  [("embedding_dim", AInt 4); ("embedding_size", AInt 4);
   ("embedding_dict", AEmbDict embedding_dict);
   ("dnn_feature_columns", AFeats cols);
   ("feature_index",
    AIndex [("user", (0, 1)%nat); ("301", (1, 2)%nat); ("price", (2, 3)%nat)])].

(** The defaults, with the domain column and the flag of the command
    lines quoted at the end of the sources. *)
Definition args (tower : list Z) (fl : string) : Args :=
  {| dnn_feature_columns := cols;
     num_domains := 3;
     num_experts := 3;
     expert_dnn_hidden_units := [256; 128];
     gate_dnn_hidden_units := [64];
     tower_dnn_hidden_units := tower;
     task_types := ["binary"; "binary"];
     task_names := ["ctr"; "ctcvr"];
     domain_column := PyStr "301";
     flag := PyStr fl;
     domain_id_as_feature := false |}.

Definition mmoe_mt (tower : list Z) (fl : string) : attrs :=
  snd (MMOE_MT.init compute_input_dim (args tower fl) base).

Definition mmoe_mt_att (tower : list Z) (fl : string) : attrs :=
  snd (MMOE_MT_ATT.init compute_input_dim (args tower fl) base).

(** A stand-in for the layers of models/satrans.py on shapes: a layer
    returns a tensor shaped like its last input. *)
Definition satrans_shape (m : nn_Module) (inputs : list ShapeSem.shape)
  : result ShapeSem.shape :=
  match rev inputs with
  | s :: _ => Ok s
  | [] => Raise (TypeError "forward() missing argument")
  end.

Definition shapes : Torch ShapeSem.shape := ShapeSem.torch_shape satrans_shape.

End Demo.

(** A concrete set of parameters for the concrete model: every weight is
    zero.  The toolkit's [DNN] is a chain of linear layers and ReLUs, here
    with zero weights and biases as well; [PredictionLayer] applies a
    sigmoid for a binary task. *)
Module DemoReal.

Import RealSem.
Local Open Scope R_scope.

Definition zeros (n k : nat) : list (list R) := repeat (repeat 0 k) n.

Definition weight (p : mpath) : list (list R) :=
  if mpath_eqb p ("lhuc", [0%nat]) then zeros 128 4
  else if mpath_eqb p ("lhuc", [2%nat]) then zeros 64 128
  else if mpath_eqb p ("domain_embeddings", []) then zeros 4 4
  else if String.eqb (fst p) "gate_dnn_final_layer" then zeros 3 64
  else if String.eqb (fst p) "tower_dnn_final_layer" then zeros 1 64
  else zeros 10 4.

Definition external (p : mpath) (m : nn_Module) (inputs : list tensor) : result tensor :=
  match m, inputs with
  | DNN i hidden, [t] =>
      linear i (last_unit hidden) (zeros (Z.to_nat (last_unit hidden)) (Z.to_nat i)) t
  | PredictionLayer _, [t] => Ok (tmap sigmoid t)
  | _, _ => not_modelled
  end.

Definition reals : Torch tensor := torch_real weight external.

End DemoReal.

(* ===================================================================== *)
(** ** The modules a forward pass calls *)
(* ===================================================================== *)

(** The arguments [a] with [domain_id_as_feature] replaced. *)
Definition with_domain_id_as_feature (b : bool) (a : Args) : Args :=
  {| dnn_feature_columns := dnn_feature_columns a;
     num_domains := num_domains a;
     num_experts := num_experts a;
     expert_dnn_hidden_units := expert_dnn_hidden_units a;
     gate_dnn_hidden_units := gate_dnn_hidden_units a;
     tower_dnn_hidden_units := tower_dnn_hidden_units a;
     task_types := task_types a;
     task_names := task_names a;
     domain_column := domain_column a;
     flag := flag a;
     domain_id_as_feature := b |}.

(** The module instances a log says were called, in the order of the
    calls. *)
Definition called {T} (tr : list (event T)) : list mpath :=
  flat_map (fun e => match e with
                     | ModuleCall p _ => [p]
                     | InputFromFeatureColumns _ => []
                     end) tr.

Definition calls {T A} (c : M (list (event T)) A) : list mpath := called (events c).

(** The members [0 .. n-1] of the [ModuleList] at [(a, prefix)]. *)
Definition members (a : string) (prefix : list nat) (n : nat) : list mpath :=
  map (fun k => (a, prefix ++ [k])) (seq 0 n).

(** The calls of lines 139-180, which the two classes share: the
    self-attention layers when the flag asks for them, the experts, the
    gate of every task, the domain embedding. *)
Definition shared_calls (a : Args) (usetrans : bool) : list mpath :=
  (if usetrans then members "int_layers" [] 3 else [])
  ++ members "expert_dnn" [] (Z.to_nat (num_experts a))
  ++ flat_map (fun i => (if 0 <? len (gate_dnn_hidden_units a)
                         then [("gate_dnn", [i])] else [])
                        ++ [("gate_dnn_final_layer", [i])])
              (range (len (task_names a)))
  ++ [("domain_embeddings", [])].

(** The calls of a forward pass of [MMOE_MT]. *)
Definition MMOE_MT_calls (a : Args) (usetrans : bool) : list mpath :=
  shared_calls a usetrans
  ++ members "lhuc" [] 4
  ++ flat_map (fun i => (if 0 <? len (tower_dnn_hidden_units a)
                         then [("tower_dnn", [i])] else [])
                        ++ [("tower_dnn_final_layer", [i]); ("out", [i])])
              (range (len (task_names a))).

(** The calls of a forward pass of [MMOE_MT_ATT]. *)
Definition MMOE_MT_ATT_calls (a : Args) (usetrans : bool) : list mpath :=
  shared_calls a usetrans
  ++ flat_map (fun i => (if 0 <? len (tower_dnn_hidden_units a)
                         then [("tower_dnn", [i]); ("target_attention", [i])]
                              ++ members "lhuc" [i] 4
                         else [])
                        ++ [("tower_dnn_final_layer", [i]); ("out", [i])])
              (range (len (task_names a))).

(* ===================================================================== *)
(** * Properties *)
(* ===================================================================== *)

(** ** The monad *)

Lemma bind_raise {S A B} (c : M S A) (k : A -> M S B) s e s' :
  c s = (Raise e, s') -> bind c k s = (Raise e, s').
Proof. intros E. unfold bind. now rewrite E. Qed.

Lemma bind_ok {S A B} (c : M S A) (k : A -> M S B) s a s' :
  c s = (Ok a, s') -> bind c k s = k a s'.
Proof. intros E. unfold bind. now rewrite E. Qed.

Lemma bind_ok_inv {S A B} (c : M S A) (k : A -> M S B) s b s2 :
  bind c k s = (Ok b, s2) ->
  exists a s1, c s = (Ok a, s1) /\ k a s1 = (Ok b, s2).
Proof.
  unfold bind. destruct (c s) as [[a|e] s1]; intros E.
  - now exists a, s1.
  - discriminate.
Qed.

Lemma lift_ok_inv {S A} (r : result A) (s : S) a s' :
  lift r s = (Ok a, s') -> r = Ok a /\ s' = s.
Proof. unfold lift. intros E. now inversion E. Qed.

Lemma rbind_ok_inv {A B} (r : result A) (k : A -> result B) b :
  rbind r k = Ok b -> exists a, r = Ok a /\ k a = Ok b.
Proof. destruct r as [a|e]; simpl; intros E; [now exists a | discriminate]. Qed.

(** ** Argument validation *)

Lemma task_type_loop (types : list string) (s : attrs) :
  forM_ types (fun task_type =>
    if negb (legal_task_type task_type)
    then raise (ValueError ("task must be binary or regression, "
                              ++ task_type ++ " is illegal"))
    else ret tt) s
  = (match find (fun t => negb (legal_task_type t)) types with
     | Some t => Raise (ValueError ("task must be binary or regression, "
                                      ++ t ++ " is illegal"))
     | None => Ok tt
     end, s).
Proof.
  induction types as [|t types IH]; simpl; [reflexivity|].
  unfold bind. destruct (negb (legal_task_type t)); simpl; [reflexivity|].
  apply IH.
Qed.

Lemma check_arguments_eq (n : Z) (a : Args) (s : attrs) :
  check_arguments n a s = (check_result n a, s).
Proof.
  unfold check_arguments, check_result, bind.
  destruct (n <=? 1); [reflexivity|]. simpl.
  destruct (num_experts a <=? 1); [reflexivity|]. simpl.
  destruct (len (dnn_feature_columns a) =? 0); [reflexivity|]. simpl.
  destruct (negb (len (task_types a) =? n)); [reflexivity|]. simpl.
  apply task_type_loop.
Qed.

Lemma check_result_cases (n : Z) (a : Args) :
  check_result n a = Ok tt \/ is_ValueError (check_result n a) = true.
Proof.
  unfold check_result.
  repeat match goal with
         | |- context [if ?b then _ else _] => destruct b; [now right|]
         end.
  destruct (find _ _); [now right | now left].
Qed.

Lemma check_result_ok_iff (n : Z) (a : Args) :
  check_result n a = Ok tt <->
  1 < n /\ 1 < num_experts a /\ dnn_feature_columns a <> [] /\
  len (task_types a) = n /\ Forall (fun t => legal_task_type t = true) (task_types a).
Proof.
  unfold check_result.
  destruct (Z.leb_spec n 1); [split; [discriminate | lia]|].
  destruct (Z.leb_spec (num_experts a) 1); [split; [discriminate | lia]|].
  destruct (Z.eqb_spec (len (dnn_feature_columns a)) 0) as [E0|E0].
  { split; [discriminate|]. intros (_ & _ & C & _).
    unfold len in E0. destruct (dnn_feature_columns a); [congruence | simpl in E0; lia]. }
  destruct (Z.eqb_spec (len (task_types a)) n) as [E1|E1]; simpl;
    [| split; [discriminate | tauto]].
  destruct (find _ _) as [t|] eqn:Ef.
  - split; [discriminate|]. intros (_ & _ & _ & _ & Hall).
    apply find_some in Ef as [Hin Ht]. rewrite Forall_forall in Hall.
    rewrite (Hall _ Hin) in Ht. discriminate.
  - split; [|reflexivity]. intros _. repeat split; try assumption.
    + intros C. rewrite C in E0. now apply E0.
    + apply Forall_forall. intros t Hin.
      pose proof (find_none _ _ Ef t Hin) as Ht. now apply negb_false_iff in Ht.
Qed.

Lemma init_common_rejects cid (a : Args) (s : attrs) e :
  check_result (len (task_names a)) a = Raise e ->
  init_common cid a s = (Raise e, after_header a s).
Proof.
  intros E. unfold init_common, bind, setattr, get, getattr, lift, getattr_of.
  simpl. rewrite check_arguments_eq, E. reflexivity.
Qed.

(** ** Stepping through a constructor that returned *)

Lemma setattr_inv k v (s : attrs) u s' :
  setattr k v s = (Ok u, s') -> s' = (k, v) :: s.
Proof. unfold setattr. intros E. now inversion E. Qed.

Lemma ret_inv {S A} (a b : A) (s s' : S) :
  ret a s = (Ok b, s') -> b = a /\ s' = s.
Proof. unfold ret. intros E. now inversion E. Qed.

Lemma get_inv {A} k (cast : attr -> result A) (s : attrs) a s' :
  get k cast s = (Ok a, s') ->
  s' = s /\ exists v, lookup k s = Some v /\ cast v = Ok a.
Proof.
  unfold get, bind, getattr, getattr_of, lift.
  destruct (lookup k s) as [v|]; [|discriminate].
  intros E. inversion E; subst. split; [reflexivity|]. now exists v.
Qed.

Lemma mapM_const_ok {S A} (r : result A) (idx : list nat) (s : S) l s' :
  mapM (fun _ : nat => lift r) idx s = (Ok l, s') ->
  s' = s /\ (idx = [] \/ exists m, r = Ok m /\ l = repeat m (List.length idx)) /\
  List.length l = List.length idx.
Proof.
  revert l. induction idx as [|i idx IH]; simpl; intros l E.
  - apply ret_inv in E as [-> ->]. auto.
  - apply bind_ok_inv in E as (m & s1 & E1 & E).
    apply lift_ok_inv in E1 as [Er ->].
    apply bind_ok_inv in E as (ms & s2 & E2 & E).
    apply ret_inv in E as [-> ->].
    destruct (IH _ E2) as (-> & Hl & Hlen). split; [reflexivity|]. split.
    + right. exists m. split; [assumption|]. simpl. f_equal.
      destruct Hl as [-> | (m' & Em & ->)].
      * simpl in Hlen. now destruct ms.
      * congruence.
    + simpl. now rewrite Hlen.
Qed.

Lemma range_length (n : Z) : List.length (range n) = Z.to_nat n.
Proof. unfold range. apply length_seq. Qed.

Lemma modules_for_range_inv (n : Z) build (s : attrs) l s' :
  modules_for_range n build s = (Ok l, s') ->
  s' = s /\ List.length l = Z.to_nat n /\
  (0 < n -> exists m, build = Ok m /\ l = repeat m (Z.to_nat n)).
Proof.
  unfold modules_for_range. intros E.
  apply mapM_const_ok in E as (-> & Hl & Hlen). rewrite range_length in *.
  repeat split; try assumption. intros Hn.
  destruct Hl as [E0 | Hm]; [|assumption].
  apply (f_equal (@List.length nat)) in E0. rewrite range_length in E0. simpl in E0. lia.
Qed.

(** One step of symbolic execution of a computation known to return:
    [a] names the value bound, [E] what is known of it. *)
Ltac step_as H a E :=
  let s := fresh "s" in
  apply bind_ok_inv in H as (a & s & E & H);
  lazymatch type of E with
  | setattr _ _ _ = _ => apply setattr_inv in E; subst s
  | get _ _ _ = _ =>
      let x := fresh "x" in
      let L := fresh "L" in
      apply get_inv in E as (-> & x & L & E);
      simpl in L; try (injection L as <-; simpl in E; injection E as <-)
  | lift _ _ = _ => apply lift_ok_inv in E as [E ->]
  | ret _ _ = _ => apply ret_inv in E as [-> ->]
  | modules_for_range _ _ _ = _ =>
      apply modules_for_range_inv in E as (-> & _ & E)
  | _ => idtac
  end.

Ltac step H :=
  let a := fresh "v" in
  let E := fresh "E" in
  step_as H a E.

(** ** The object a constructor leaves *)

Lemma last_item_ok (units : list Z) d :
  last_item units = Ok d -> d = last_unit units.
Proof.
  unfold last_item, last_unit. destruct units as [|u units] using rev_ind.
  - discriminate.
  - rewrite rev_app_distr. simpl. intros E. inversion E. now rewrite last_last.
Qed.

Lemma last_item_nonempty (units : list Z) :
  (0 <? len units) = true -> last_item units = Ok (last_unit units).
Proof.
  unfold last_item, last_unit. destruct units as [|u units] using rev_ind.
  - discriminate.
  - intros _. rewrite rev_app_distr. simpl. now rewrite last_last.
Qed.

Lemma nn_Linear_ok i o m : nn_Linear i o = Ok m -> m = Linear i o.
Proof. unfold nn_Linear. destruct (_ || _); intros E; now inversion E. Qed.

Lemma mk_DNN_ok i h m : mk_DNN i h = Ok m -> m = DNN i h /\ h <> [].
Proof. unfold mk_DNN. destruct h; intros E; inversion E. split; congruence. Qed.

Lemma nn_Embedding_ok n d m :
  nn_Embedding n d = Ok m -> m = Embedding n d /\ 0 <= n /\ 0 <= d.
Proof.
  unfold nn_Embedding. destruct (Z.ltb_spec n 0); simpl; [discriminate|].
  destruct (Z.ltb_spec d 0); simpl; [discriminate|]. intros E. inversion E. auto.
Qed.

Lemma lookup_opt_attr k b k' v (d : attrs) :
  String.eqb k k' = false -> lookup k (opt_attr b k' v +++ d) = lookup k d.
Proof. intros E. destruct b; simpl; [now rewrite E | reflexivity]. Qed.

Lemma init_common_ok cid (a : Args) (s s' : attrs) :
  init_common cid a s = (Ok tt, s') ->
  check_result (len (task_names a)) a = Ok tt /\
  expert_dnn_hidden_units a <> [] /\
  exists usetrans e,
    py_in "usetrans" (flag a) = Ok usetrans /\
    (usetrans = true -> lookup "embedding_dim" s = Some (AInt e)) /\
    s' = after_layers cid a usetrans e s.
Proof.
  intros H. unfold init_common in H.
  do 3 step H. step_as H nt Ent.
  step_as H u Echk. rewrite check_arguments_eq in Echk. injection Echk as Hchk <-.
  destruct u. pose proof Hchk as Hpos. apply check_result_ok_iff in Hpos as (Hnt & Hne & _).
  do 6 step H.
  step_as H fl Efl.
  step_as H usetrans Eut.
  step_as H u Eint.
  assert (exists e, (usetrans = true -> lookup "embedding_dim" s = Some (AInt e)) /\
                    s0 = opt_attr usetrans "int_layers"
                            (AModule (ModuleList (repeat (SelfAttention_Layer e 4 true) 3)))
                          +++ after_settings cid a s) as (e & He & ->).
  { destruct usetrans.
    - step_as Eint e Ee. apply setattr_inv in Eint. subst s0.
      destruct x; try discriminate. injection Ee as <-. exists z. now split.
    - apply ret_inv in Eint as [_ ->]. exists 0. split; [discriminate | reflexivity]. }
  clear Eint.
  step_as H input_dim Ei.
  rewrite lookup_opt_attr in L by reflexivity. simpl in L. injection L as <-.
  simpl in Ei. injection Ei as <-.
  step_as H self_num_experts Ee.
  rewrite lookup_opt_attr in L by reflexivity. simpl in L. injection L as <-.
  simpl in Ee. injection Ee as <-.
  step_as H expert_dnn Ex. destruct (Ex ltac:(lia)) as (m & Em & ->).
  apply mk_DNN_ok in Em as [-> Hex]. clear Ex.
  step H.
  step_as H u2 Egate.
  assert (s0 = opt_attr (0 <? len (gate_dnn_hidden_units a)) "gate_dnn"
                  (AModule (ModuleList (repeat
                     (DNN (cid (dnn_feature_columns a)) (gate_dnn_hidden_units a))
                     (Z.to_nat (len (task_names a))))))
                +++ [("expert_dnn",
                    AModule (ModuleList (repeat
                      (DNN (cid (dnn_feature_columns a)) (expert_dnn_hidden_units a))
                      (Z.to_nat (num_experts a)))))]
                +++ opt_attr usetrans "int_layers"
                     (AModule (ModuleList (repeat (SelfAttention_Layer e 4 true) 3)))
                +++ after_settings cid a s) as ->.
  { destruct (0 <? len (gate_dnn_hidden_units a)).
    - step_as Egate gate_dnn Eg. destruct (Eg ltac:(lia)) as (m & Em & ->).
      apply mk_DNN_ok in Em as [-> _].
      apply setattr_inv in Egate. now subst s0.
    - now apply ret_inv in Egate as [_ ->]. }
  clear Egate.
  step_as H gate_final Eg. destruct (Eg ltac:(lia)) as (m & Em & ->). clear Eg.
  apply rbind_ok_inv in Em as (dg & Edg & Em). apply nn_Linear_ok in Em as ->.
  step H. step_as H u3 Etower.
  match type of Etower with _ ?st = _ => remember st as base eqn:Hbase end.
  assert (s0 = opt_attr (0 <? len (tower_dnn_hidden_units a)) "tower_dnn"
                  (AModule (ModuleList (repeat
                     (DNN (last_unit (expert_dnn_hidden_units a)) (tower_dnn_hidden_units a))
                     (Z.to_nat (len (task_names a))))))
                +++ base) as ->.
  { destruct (0 <? len (tower_dnn_hidden_units a)).
    - step_as Etower tower_dnn Et. destruct (Et ltac:(lia)) as (m & Em & ->).
      apply rbind_ok_inv in Em as (d & Ed & Em). apply mk_DNN_ok in Em as [-> _].
      apply last_item_ok in Ed as ->.
      apply setattr_inv in Etower. now subst s0.
    - now apply ret_inv in Etower as [_ ->]. }
  clear Etower.
  step_as H tower_final Et. destruct (Et ltac:(lia)) as (m & Em & ->). clear Et.
  apply rbind_ok_inv in Em as (dt & Edt & Em). apply nn_Linear_ok in Em as ->.
  step H. apply setattr_inv in H. subst s' base.
  split; [assumption|]. split; [assumption|]. exists usetrans, e.
  split; [assumption|]. split; [assumption|].
  unfold after_layers. cbv zeta.
  assert (dg = if 0 <? len (gate_dnn_hidden_units a)
               then last_unit (gate_dnn_hidden_units a)
               else cid (dnn_feature_columns a)) as ->.
  { destruct (0 <? len (gate_dnn_hidden_units a));
      [now apply last_item_ok | now inversion Edg]. }
  assert (dt = if 0 <? len (tower_dnn_hidden_units a)
               then last_unit (tower_dnn_hidden_units a)
               else last_unit (expert_dnn_hidden_units a)) as ->.
  { destruct (0 <? len (tower_dnn_hidden_units a)); now apply last_item_ok. }
  reflexivity.
Qed.

Lemma filter_feature_columns_None (cols : list FeatureColumn) :
  cols <> [] -> is_TypeError (filter_feature_columns cols PyNone) = true.
Proof. destruct cols; [congruence | reflexivity]. Qed.

Lemma filter_feature_columns_filter (cols : list FeatureColumn) (c : pyval) :
  c <> PyNone ->
  filter_feature_columns cols c = Ok (filter (fun feat => negb (named_in c feat)) cols).
Proof.
  intros Hc. induction cols as [|feat cols IH]; simpl; [reflexivity|].
  rewrite IH. unfold named_in.
  destruct c as [|str|l]; [congruence | |]; simpl;
    match goal with |- context [if ?b then _ else _] => now destruct b end.
Qed.

Lemma init_domain_ok (a : Args) (s s' : attrs) e :
  init_domain a s = (Ok e, s') ->
  lookup "embedding_size" s = Some (AInt e) /\
  0 <= num_domains a + 1 /\
  s' = after_domain a e s.
Proof.
  intros H. unfold init_domain in H.
  step_as H local Eloc.
  assert (s0 = s) as ->.
  { destruct (domain_id_as_feature a).
    - step_as Eloc d Ed. now apply ret_inv in Eloc as [_ ->].
    - step_as Eloc kept Ek. step_as Eloc d Ed. now apply ret_inv in Eloc as [_ ->]. }
  destruct local as [local field_num]. step H.
  step_as H es Ees. destruct x; try discriminate. simpl in Ees. injection Ees as <-.
  step_as H emb Eemb. apply nn_Embedding_ok in Eemb as (-> & Hn & _).
  step H. apply ret_inv in H as [-> ->].
  repeat split; assumption.
Qed.

Lemma MMOE_MT_init_ok cid (a : Args) (s self : attrs) :
  MMOE_MT.init cid a s = (Ok tt, self) ->
  check_result (len (task_names a)) a = Ok tt /\
  expert_dnn_hidden_units a <> [] /\
  0 <= num_domains a + 1 /\
  exists usetrans e_dim e_size,
    py_in "usetrans" (flag a) = Ok usetrans /\
    (usetrans = true -> lookup "embedding_dim" s = Some (AInt e_dim)) /\
    lookup "embedding_size" s = Some (AInt e_size) /\
    self = MMOE_MT_built cid a usetrans e_dim e_size s.
Proof.
  intros H. unfold MMOE_MT.init in H.
  step_as H u Ec. destruct u.
  apply init_common_ok in Ec as (Hchk & Hex & usetrans & e_dim & Hut & Hdim & ->).
  step_as H e_size Ed. apply init_domain_ok in Ed as (Hsize & Hnd & ->).
  step_as H lhuc El. apply setattr_inv in H. subst self.
  unfold lhuc_block in El.
  apply rbind_ok_inv in El as (l0 & E0 & El). apply nn_Linear_ok in E0 as ->.
  apply rbind_ok_inv in El as (l2 & E2 & El). apply nn_Linear_ok in E2 as ->.
  injection El as <-.
  repeat (split; [assumption|]). exists usetrans, e_dim, e_size.
  repeat (split; [assumption|]).
  split; [|reflexivity].
  unfold after_layers in Hsize. cbv zeta in Hsize. simpl in Hsize.
  repeat (rewrite lookup_opt_attr in Hsize by reflexivity; simpl in Hsize).
  exact Hsize.
Qed.

Lemma MMOE_MT_ATT_init_ok cid (a : Args) (s self : attrs) :
  MMOE_MT_ATT.init cid a s = (Ok tt, self) ->
  check_result (len (task_names a)) a = Ok tt /\
  expert_dnn_hidden_units a <> [] /\
  0 <= num_domains a + 1 /\
  exists usetrans e_dim e_size,
    py_in "usetrans" (flag a) = Ok usetrans /\
    (usetrans = true -> lookup "embedding_dim" s = Some (AInt e_dim)) /\
    lookup "embedding_size" s = Some (AInt e_size) /\
    self = MMOE_MT_ATT_built cid a usetrans e_dim e_size s.
Proof.
  intros H. unfold MMOE_MT_ATT.init in H.
  step_as H u Ec. destruct u.
  apply init_common_ok in Ec as (Hchk & Hex & usetrans & e_dim & Hut & Hdim & ->).
  pose proof Hchk as Hpos. apply check_result_ok_iff in Hpos as (Hnt & _).
  step_as H e_size Ed. apply init_domain_ok in Ed as (Hsize & Hnd & ->).
  unfold after_layers in Hsize. cbv zeta in Hsize. simpl in Hsize.
  repeat (rewrite lookup_opt_attr in Hsize by reflexivity; simpl in Hsize).
  step_as H nt Ent.
  unfold after_domain, after_layers in L. cbv zeta in L. simpl in L.
  repeat (rewrite lookup_opt_attr in L by reflexivity; simpl in L).
  injection L as <-. simpl in Ent. injection Ent as <-.
  step_as H lhuc El. destruct (El ltac:(lia)) as (m & Em & ->). clear El.
  unfold lhuc_block in Em.
  apply rbind_ok_inv in Em as (l0 & E0 & Em). apply nn_Linear_ok in E0 as ->.
  apply rbind_ok_inv in Em as (l2 & E2 & Em). apply nn_Linear_ok in E2 as ->.
  injection Em as <-.
  step H. step_as H es Ees.
  unfold after_domain, after_layers in L. cbv zeta in L. simpl in L.
  repeat (rewrite lookup_opt_attr in L by reflexivity; simpl in L).
  rewrite Hsize in L. injection L as <-. simpl in Ees. injection Ees as <-.
  step_as H ta Eta. destruct (Eta ltac:(lia)) as (m & Em & ->). clear Eta.
  injection Em as <-. apply setattr_inv in H. subst self.
  repeat (split; [assumption|]). exists usetrans, e_dim, e_size.
  repeat (split; [assumption|]). reflexivity.
Qed.

(** ** C1: argument validation *)

Lemma init_rejects cid (a : Args) (s : attrs) e :
  check_result (len (task_names a)) a = Raise e ->
  MMOE_MT.init cid a s = (Raise e, after_header a s) /\
  MMOE_MT_ATT.init cid a s = (Raise e, after_header a s).
Proof.
  intros E. split.
  - unfold MMOE_MT.init. apply bind_raise. now apply init_common_rejects.
  - unfold MMOE_MT_ATT.init. apply bind_raise. now apply init_common_rejects.
Qed.

(** C1, as stated, fails: one task and three experts are positive counts,
    the only task type is ['binary'], and both constructors raise the
    [ValueError] of the task-count check. *)
Lemma C1_positive_counts_rejected :
  let a := {| dnn_feature_columns := [SparseFeat "user" 10 4];
              num_domains := 3; num_experts := 3;
              expert_dnn_hidden_units := [256; 128];
              gate_dnn_hidden_units := [64]; tower_dnn_hidden_units := [64];
              task_types := ["binary"]; task_names := ["ctr"];
              domain_column := PyStr "user"; flag := PyStr "sota";
              domain_id_as_feature := false |} in
  0 < len (task_names a) /\ 0 < num_experts a /\
  Forall (fun t => legal_task_type t = true) (task_types a) /\
  forall cid s,
    fst (MMOE_MT.init cid a s) = Raise (ValueError "num_tasks must be greater than 1") /\
    fst (MMOE_MT_ATT.init cid a s) = Raise (ValueError "num_tasks must be greater than 1").
Proof.
  cbv zeta. split; [reflexivity|]. split; [reflexivity|].
  split; [repeat constructor|]. intros cid s.
  match goal with |- fst (_ _ ?a _) = _ /\ _ =>
    destruct (@init_rejects cid a s (ValueError "num_tasks must be greater than 1")
                eq_refl) as [E1 E2] end.
  now rewrite E1, E2.
Qed.

(** C1, amended: both constructors raise [ValueError] when the number of
    tasks or [num_experts] is at most 1 or when some task type is neither
    'binary' nor 'regression'; and when both counts exceed 1 and every
    task type is one of the two, the count checks and the task-type check
    pass: the validation either succeeds or stops at one of its two other
    checks. *)
Theorem C1_argument_validation cid (a : Args) (s : attrs) :
  (len (task_names a) <= 1 \/ num_experts a <= 1 \/
   Exists (fun t => legal_task_type t = false) (task_types a) ->
   is_ValueError (fst (MMOE_MT.init cid a s)) = true /\
   is_ValueError (fst (MMOE_MT_ATT.init cid a s)) = true) /\
  (1 < len (task_names a) -> 1 < num_experts a ->
   Forall (fun t => legal_task_type t = true) (task_types a) ->
   forall e, fst (check_arguments (len (task_names a)) a s) = Raise e ->
             ~ count_or_type_error e /\
             (e = ValueError "dnn_feature_columns is null!" \/
              e = ValueError "num_tasks must be equal to the length of task_types")).
Proof.
  split.
  - intros Hbad.
    destruct (check_result_cases (len (task_names a)) a) as [Hok | Herr].
    + exfalso. apply check_result_ok_iff in Hok as (Hn & He & _ & _ & Hall).
      destruct Hbad as [Hb | [Hb | Hb]]; [lia | lia |].
      apply Exists_exists in Hb as (t & Hin & Ht).
      rewrite Forall_forall in Hall. rewrite (Hall t Hin) in Ht. discriminate.
    + destruct (check_result (len (task_names a)) a) as [|e] eqn:E; [discriminate|].
      destruct (init_rejects cid a s e E) as [E1 E2]. now rewrite E1, E2.
  - intros Hn He Hall e. rewrite check_arguments_eq. simpl.
    unfold check_result.
    destruct (Z.leb_spec (len (task_names a)) 1); [lia|].
    destruct (Z.leb_spec (num_experts a) 1); [lia|].
    assert (find (fun t => negb (legal_task_type t)) (task_types a) = None) as ->.
    { destruct (find _ _) as [t|] eqn:Ef; [|reflexivity].
      apply find_some in Ef as [Hin Ht]. rewrite Forall_forall in Hall.
      rewrite (Hall t Hin) in Ht. discriminate. }
    unfold count_or_type_error.
    destruct (_ =? 0); [intros E; injection E as <-|].
    { split; [|now left]. intros [C | [C | [t C]]]; discriminate. }
    destruct (negb _); intros E; [injection E as <- | discriminate].
    split; [|now right]. intros [C | [C | [t C]]]; discriminate.
Qed.

(** C1 at concrete arguments: zero experts are rejected; the default
    counts and task types raise none of the three errors. *)
Lemma C1_argument_validation_witness :
  (is_ValueError (fst (MMOE_MT.init (fun _ => 8)
       {| dnn_feature_columns := [SparseFeat "user" 10 4];
          num_domains := 3; num_experts := 0;
          expert_dnn_hidden_units := [256; 128];
          gate_dnn_hidden_units := [64]; tower_dnn_hidden_units := [64];
          task_types := ["binary"; "binary"]; task_names := ["ctr"; "ctcvr"];
          domain_column := PyStr "user"; flag := PyStr "sota";
          domain_id_as_feature := false |} [])) = true /\
   is_ValueError (fst (MMOE_MT_ATT.init (fun _ => 8)
       {| dnn_feature_columns := [SparseFeat "user" 10 4];
          num_domains := 3; num_experts := 0;
          expert_dnn_hidden_units := [256; 128];
          gate_dnn_hidden_units := [64]; tower_dnn_hidden_units := [64];
          task_types := ["binary"; "binary"]; task_names := ["ctr"; "ctcvr"];
          domain_column := PyStr "user"; flag := PyStr "sota";
          domain_id_as_feature := false |} [])) = true) /\
  (forall e,
     fst (check_arguments 2 (default_args [] 3) []) = Raise e ->
     ~ count_or_type_error e /\
     (e = ValueError "dnn_feature_columns is null!" \/
      e = ValueError "num_tasks must be equal to the length of task_types")).
Proof.
  split.
  - apply (proj1 (C1_argument_validation (fun _ => 8) _ [])).
    right. left. simpl. lia.
  - apply (proj2 (C1_argument_validation (fun _ => 8) (default_args [] 3) [])).
    + reflexivity.
    + reflexivity.
    + repeat constructor.
Defined.

(** ** C8: the default [flag=None] *)

Lemma init_common_flag_None cid (a : Args) (s : attrs) :
  check_result (len (task_names a)) a = Ok tt ->
  flag a = PyNone ->
  init_common cid a s = (Raise none_not_iterable, after_settings cid a s).
Proof.
  intros Hchk Hflag.
  unfold init_common, bind, setattr, get, getattr, lift, getattr_of,
    after_settings, after_header.
  simpl. rewrite check_arguments_eq, Hchk. simpl. rewrite Hflag. reflexivity.
Qed.

Lemma init_ok_flag cid (a : Args) (s : attrs) :
  is_ok (fst (MMOE_MT.init cid a s)) = true \/
  is_ok (fst (MMOE_MT_ATT.init cid a s)) = true ->
  exists usetrans, py_in "usetrans" (flag a) = Ok usetrans.
Proof.
  intros [H | H].
  - destruct (MMOE_MT.init cid a s) as [[[]|e] self] eqn:E; [|discriminate].
    apply MMOE_MT_init_ok in E as (_ & _ & _ & b & _ & _ & Hb & _). now exists b.
  - destruct (MMOE_MT_ATT.init cid a s) as [[[]|e] self] eqn:E; [|discriminate].
    apply MMOE_MT_ATT_init_ok in E as (_ & _ & _ & b & _ & _ & Hb & _). now exists b.
Qed.

(** C8, as stated, fails: with [flag=None] and every other default but
    [num_experts=1], both constructors raise the [ValueError] of the
    expert-count check, not a [TypeError]. *)
Lemma C8_flag_None_ValueError :
  let a := {| dnn_feature_columns := [SparseFeat "user" 10 4];
              num_domains := 3; num_experts := 1;
              expert_dnn_hidden_units := [256; 128];
              gate_dnn_hidden_units := [64]; tower_dnn_hidden_units := [64];
              task_types := ["binary"; "binary"]; task_names := ["ctr"; "ctcvr"];
              domain_column := PyNone; flag := PyNone;
              domain_id_as_feature := false |} in
  flag a = PyNone /\
  forall cid s,
    fst (MMOE_MT.init cid a s) = Raise (ValueError "num_experts must be greater than 1") /\
    fst (MMOE_MT_ATT.init cid a s) = Raise (ValueError "num_experts must be greater than 1") /\
    is_TypeError (fst (MMOE_MT.init cid a s)) = false /\
    is_TypeError (fst (MMOE_MT_ATT.init cid a s)) = false.
Proof.
  cbv zeta. split; [reflexivity|]. intros cid s.
  match goal with |- fst (_ _ ?a _) = _ /\ _ =>
    destruct (init_rejects cid a s (ValueError "num_experts must be greater than 1")
                eq_refl) as [E1 E2] end.
  rewrite E1, E2. repeat split.
Qed.

(** C8, amended: with [flag=None] and arguments that pass the checks of
    lines 59-70, both constructors raise [TypeError] at the membership test
    of line 78, the object then holding the attributes set up to line 77
    and none of the layer attributes; and a constructor returns only for a
    [flag] on which ['usetrans' in flag] evaluates. *)
Theorem C8_flag_None_TypeError cid (a : Args) (s : attrs) :
  (flag a = PyNone ->
   1 < len (task_names a) -> 1 < num_experts a -> dnn_feature_columns a <> [] ->
   len (task_types a) = len (task_names a) ->
   Forall (fun t => legal_task_type t = true) (task_types a) ->
   MMOE_MT.init cid a s = (Raise none_not_iterable, after_settings cid a s) /\
   MMOE_MT_ATT.init cid a s = (Raise none_not_iterable, after_settings cid a s) /\
   forall k, In k layer_attributes ->
             lookup k (after_settings cid a s) = lookup k s) /\
  (is_ok (fst (MMOE_MT.init cid a s)) = true \/
   is_ok (fst (MMOE_MT_ATT.init cid a s)) = true ->
   exists usetrans, py_in "usetrans" (flag a) = Ok usetrans /\ flag a <> PyNone).
Proof.
  split.
  - intros Hflag Hn He Hc Hl Hall.
    assert (check_result (len (task_names a)) a = Ok tt) as Hchk
      by (apply check_result_ok_iff; auto).
    pose proof (init_common_flag_None cid a s Hchk Hflag) as E.
    split; [|split].
    + unfold MMOE_MT.init. now apply bind_raise.
    + unfold MMOE_MT_ATT.init. now apply bind_raise.
    + intros k Hk. unfold layer_attributes in Hk. simpl in Hk.
      repeat (destruct Hk as [<- | Hk]; [reflexivity|]). contradiction.
  - intros H. destruct (init_ok_flag cid a s H) as [b Hb]. exists b.
    split; [assumption|]. intros C. rewrite C in Hb. discriminate.
Qed.

(** C8 at the default arguments, and at arguments with a string flag. *)
Lemma C8_flag_None_TypeError_witness :
  (MMOE_MT.init (fun _ => 4) (default_args [SparseFeat "user" 10 4] 3) []
   = (Raise none_not_iterable,
      after_settings (fun _ => 4) (default_args [SparseFeat "user" 10 4] 3) []) /\
   MMOE_MT_ATT.init (fun _ => 4) (default_args [SparseFeat "user" 10 4] 3) []
   = (Raise none_not_iterable,
      after_settings (fun _ => 4) (default_args [SparseFeat "user" 10 4] 3) []) /\
   forall k, In k layer_attributes ->
     lookup k (after_settings (fun _ => 4) (default_args [SparseFeat "user" 10 4] 3) [])
     = lookup k []) /\
  (exists usetrans,
     py_in "usetrans" (PyStr "sota") = Ok usetrans /\ PyStr "sota" <> PyNone).
Proof.
  split.
  - apply (proj1 (C8_flag_None_TypeError (fun _ => 4)
                    (default_args [SparseFeat "user" 10 4] 3) [])).
    + reflexivity.
    + reflexivity.
    + reflexivity.
    + discriminate.
    + reflexivity.
    + repeat constructor.
  - apply (proj2 (C8_flag_None_TypeError (fun _ => 4)
       {| dnn_feature_columns := [SparseFeat "user" 10 4];
          num_domains := 3; num_experts := 3;
          expert_dnn_hidden_units := [256; 128];
          gate_dnn_hidden_units := [64]; tower_dnn_hidden_units := [64];
          task_types := ["binary"; "binary"]; task_names := ["ctr"; "ctcvr"];
          domain_column := PyStr "user"; flag := PyStr "sota";
          domain_id_as_feature := false |}
       [("embedding_size", AInt 4);
        ("embedding_dict", AEmbDict [("user", Embedding 10 4)])])).
    left. reflexivity.
Defined.

(** ** The log of a forward pass *)

Section Writer.

Context {T : Type}.
Let F' := M (list (event T)).

Lemma writer_ret {A} (a : A) : writer (ret a : F' A).
Proof. intros tr. unfold ret, value, events. simpl. now rewrite app_nil_r. Qed.

Lemma writer_raise {A} e : writer (raise e : F' A).
Proof. intros tr. unfold raise, value, events. simpl. now rewrite app_nil_r. Qed.

Lemma writer_lift {A} (r : result A) : writer (lift r : F' A).
Proof. intros tr. unfold lift, value, events. simpl. now rewrite app_nil_r. Qed.

Lemma writer_log (e : event T) : writer (log e).
Proof. intros tr. reflexivity. Qed.

Lemma writer_bind {A B} (c : F' A) (k : A -> F' B) :
  writer c -> (forall a, writer (k a)) -> writer (bind c k).
Proof.
  intros Hc Hk tr. unfold value, events, bind.
  rewrite (Hc tr), (Hc []). simpl.
  destruct (value c) as [a|e]; simpl.
  - rewrite (Hk a (tr ++ events c)), (Hk a (events c)). simpl.
    now rewrite app_assoc.
  - reflexivity.
Qed.

Lemma value_bind {A B} (c : F' A) (k : A -> F' B) :
  writer c -> (forall a, writer (k a)) ->
  value (bind c k) = rbind (value c) (fun a => value (k a)).
Proof.
  intros Hc Hk. unfold value at 1. unfold bind.
  rewrite (Hc []). simpl. destruct (value c) as [a|e]; simpl; [|reflexivity].
  now rewrite (Hk a (events c)).
Qed.

Lemma events_bind {A B} (c : F' A) (k : A -> F' B) :
  writer c -> (forall a, writer (k a)) ->
  events (bind c k) =
  events c ++ match value c with Ok a => events (k a) | Raise _ => [] end.
Proof.
  intros Hc Hk. unfold events at 1. unfold bind.
  rewrite (Hc []). simpl. destruct (value c) as [a|e]; simpl.
  - now rewrite (Hk a (events c)).
  - now rewrite app_nil_r.
Qed.

Lemma writer_mapM {A B} (f : A -> F' B) (xs : list A) :
  (forall x, writer (f x)) -> writer (mapM f xs).
Proof.
  intros Hf. induction xs as [|x xs IH]; simpl.
  - apply writer_ret.
  - apply writer_bind; [apply Hf|]. intros y.
    apply writer_bind; [apply IH|]. intros ys. apply writer_ret.
Qed.

Lemma writer_foldM {A B} (f : B -> A -> F' B) (xs : list A) (acc : B) :
  (forall b x, writer (f b x)) -> writer (foldM f acc xs).
Proof.
  intros Hf. revert acc. induction xs as [|x xs IH]; intros acc; simpl.
  - apply writer_ret.
  - apply writer_bind; [apply Hf|]. intros acc'. apply IH.
Qed.

Lemma writer_if {A} (b : bool) (c1 c2 : F' A) :
  writer c1 -> writer c2 -> writer (if b then c1 else c2).
Proof. now destruct b. Qed.

End Writer.

(** Every block of [forward] only appends to the log. *)
Ltac writer :=
  repeat first
    [ assumption
    | apply writer_ret | apply writer_raise | apply writer_lift | apply writer_log
    | match goal with Hw : forall x, writer _ |- _ => apply Hw end
    | apply writer_mapM; intro | apply writer_foldM; do 2 intro
    | apply writer_bind; [|intro]
    | apply writer_if
    | match goal with
      | |- writer (match ?x with _ => _ end) => destruct x
      | |- writer (let '(_, _) := ?x in _) => destruct x
      end
    | progress unfold self_get, self_module, call_module, call_at, run_layers,
        forward_dnn_input, forward_expert_outs, forward_gate, forward_mmoe_outs,
        domain_column_index, forward_domain_emb,
        MMOE_MT.forward_lhuc, MMOE_MT.forward_tower, MMOE_MT.forward,
        MMOE_MT_ATT.forward_att, MMOE_MT_ATT.forward_tower, MMOE_MT_ATT.forward ].

Section ForwardLog.

Context {T : Type} `{Torch T}.

Lemma writer_self_get {A} self a (cast : attr -> result A) :
  writer (self_get (T:=T) self a cast).
Proof. writer. Qed.

Lemma writer_call_at self a i (inputs : list T) : writer (call_at self a i inputs).
Proof. writer. Qed.

Lemma writer_run_layers p layers (x : T) : writer (run_layers p layers x).
Proof. writer. Qed.

Lemma writer_forward_dnn_input self (X : T) : writer (forward_dnn_input self X).
Proof. writer. Qed.

Lemma writer_forward_expert_outs self (x : T) : writer (forward_expert_outs self x).
Proof. writer. Qed.

Lemma writer_forward_gate self (x eo : T) i : writer (forward_gate self x eo i).
Proof. writer. Qed.

Lemma writer_forward_mmoe_outs self (x eo : T) : writer (forward_mmoe_outs self x eo).
Proof. writer. Qed.

Lemma writer_forward_domain_emb self (X : T) : writer (forward_domain_emb self X).
Proof. writer. Qed.

Lemma writer_MT_forward self (X : T) : writer (MMOE_MT.forward self X).
Proof. writer. Qed.

Lemma writer_ATT_forward self (X : T) : writer (MMOE_MT_ATT.forward self X).
Proof. writer. Qed.

End ForwardLog.

(** ** C10: the domain column stays a feature *)

Section DomainColumn.

Context {T : Type} `{Torch T}.

Lemma events_self_get {A} self a (cast : attr -> result A) :
  events (self_get (T:=T) self a cast) = [].
Proof. reflexivity. Qed.

Lemma value_self_get {A} self a (cast : attr -> result A) :
  value (self_get (T:=T) self a cast) = rbind (getattr_of self a) cast.
Proof. reflexivity. Qed.

(** [forward] first asks the base class to embed [self.dnn_feature_columns]. *)
Lemma forward_dnn_input_asks self (X : T) cols dict :
  lookup "dnn_feature_columns" self = Some (AFeats cols) ->
  lookup "embedding_dict" self = Some (AEmbDict dict) ->
  exists rest, events (forward_dnn_input self X) = InputFromFeatureColumns cols :: rest.
Proof.
  intros Hc Hd. unfold forward_dnn_input.
  rewrite events_bind; [| writer | intros; writer].
  rewrite events_self_get, value_self_get. unfold getattr_of. rewrite Hc. simpl.
  rewrite events_bind; [| writer | intros; writer].
  rewrite events_self_get, value_self_get. unfold getattr_of. rewrite Hd. simpl.
  rewrite events_bind; [| writer | intros; writer].
  simpl. eexists. reflexivity.
Qed.

Lemma events_forward_prefix {A B} (c : F (T:=T) A) (k : A -> F B) ev rest :
  writer c -> (forall a, writer (k a)) ->
  events c = ev :: rest ->
  exists rest', events (bind c k) = ev :: rest'.
Proof.
  intros Hc Hk E. rewrite events_bind by assumption. rewrite E. simpl.
  eexists. reflexivity.
Qed.

End DomainColumn.

Lemma lookup_cons_ne k k' v (d : attrs) :
  String.eqb k k' = false -> lookup k ((k', v) :: d) = lookup k d.
Proof. intros E. simpl. now rewrite E. Qed.

Lemma lookup_after_layers cid (a : Args) usetrans e (s : attrs) k :
  ~ In k (layer_attributes ++
          ["tower_dnn_hidden_units"; "gate_dnn_hidden_units"; "expert_dnn_hidden_units";
           "input_dim"; "task_names"; "num_experts"; "flag"; "domain_column";
           "num_tasks"]) ->
  lookup k (after_layers cid a usetrans e s) = lookup k s.
Proof.
  intros Hk. unfold after_layers, after_settings, after_header, opt_attr.
  cbv zeta. simpl in Hk.
  assert (forall k', In k' (layer_attributes ++
          ["tower_dnn_hidden_units"; "gate_dnn_hidden_units"; "expert_dnn_hidden_units";
           "input_dim"; "task_names"; "num_experts"; "flag"; "domain_column";
           "num_tasks"]) -> String.eqb k k' = false) as Hne.
  { intros k' Hin. apply String.eqb_neq. intros ->. now apply Hk. }
  destruct (0 <? len (tower_dnn_hidden_units a)),
           (0 <? len (gate_dnn_hidden_units a)), usetrans; simpl;
    repeat (rewrite Hne by (simpl; tauto)); reflexivity.
Qed.

(** ** C7: the experts are shared *)

Section Quiet.

Context {T : Type}.

Lemma quiet_ret {A} (a : A) : quiet (T:=T) (ret a).
Proof. split; [apply writer_ret | reflexivity]. Qed.

Lemma quiet_raise {A} e : quiet (raise e : M (list (event T)) A).
Proof. split; [apply writer_raise | reflexivity]. Qed.

Lemma quiet_lift {A} (r : result A) : quiet (T:=T) (lift r).
Proof. split; [apply writer_lift | reflexivity]. Qed.

Lemma quiet_log (e : event T) : is_expert_call e = false -> quiet (log e).
Proof.
  intros E. split; [apply writer_log|].
  unfold expert_calls, events, log. simpl. now rewrite E.
Qed.

Lemma quiet_bind {A B} (c : M (list (event T)) A) (k : A -> M (list (event T)) B) :
  quiet c -> (forall a, quiet (k a)) -> quiet (bind c k).
Proof.
  intros [Wc Qc] Hk. split.
  - apply writer_bind; [assumption|]. intros a. apply Hk.
  - rewrite events_bind; [|assumption | intros a; apply Hk].
    unfold expert_calls in *. rewrite filter_app, Qc. simpl.
    destruct (value c) as [a|e]; [apply Hk | reflexivity].
Qed.

Lemma quiet_mapM {A B} (f : A -> M (list (event T)) B) (xs : list A) :
  (forall x, quiet (f x)) -> quiet (mapM f xs).
Proof.
  intros Hf. induction xs as [|x xs IH]; simpl.
  - apply quiet_ret.
  - apply quiet_bind; [apply Hf|]. intros y.
    apply quiet_bind; [apply IH|]. intros ys. apply quiet_ret.
Qed.

Lemma quiet_foldM {A B} (f : B -> A -> M (list (event T)) B) (xs : list A) (acc : B) :
  (forall b x, quiet (f b x)) -> quiet (foldM f acc xs).
Proof.
  intros Hf. revert acc. induction xs as [|x xs IH]; intros acc; simpl.
  - apply quiet_ret.
  - apply quiet_bind; [apply Hf|]. intros acc'. apply IH.
Qed.

Lemma quiet_if {A} (b : bool) (c1 c2 : M (list (event T)) A) :
  quiet c1 -> quiet c2 -> quiet (if b then c1 else c2).
Proof. now destruct b. Qed.

(** A list comprehension that returned ran every body, in order. *)
Lemma mapM_ok {A B} (f : A -> M (list (event T)) B) (xs : list A) ys :
  (forall x, writer (f x)) ->
  value (mapM f xs) = Ok ys ->
  Forall2 (fun x y => value (f x) = Ok y) xs ys /\
  events (mapM f xs) = flat_map (fun x => events (f x)) xs.
Proof.
  intros Hf. revert ys. induction xs as [|x xs IH]; simpl; intros ys E.
  - injection E as <-. split; [constructor | reflexivity].
  - rewrite value_bind in E; [|apply Hf | intro; writer].
    apply rbind_ok_inv in E as (y & Ey & E).
    rewrite value_bind in E; [|now apply writer_mapM | intro; writer].
    apply rbind_ok_inv in E as (ys' & Eys & E). injection E as <-.
    destruct (IH _ Eys) as [IH1 IH2]. split; [now constructor|].
    rewrite events_bind; [|apply Hf | intro; writer].
    rewrite Ey. f_equal.
    rewrite events_bind; [|now apply writer_mapM | intro; writer].
    rewrite Eys, IH2. unfold events at 2. simpl. now rewrite app_nil_r.
Qed.

End Quiet.

Ltac quiet :=
  repeat first
    [ assumption
    | apply quiet_ret | apply quiet_raise | apply quiet_lift
    | apply quiet_log; reflexivity
    | apply quiet_mapM; intro | apply quiet_foldM; do 2 intro
    | apply quiet_bind; [|intro]
    | apply quiet_if
    | match goal with
      | |- quiet (match ?x with _ => _ end) => destruct x
      | |- quiet (let '(_, _) := ?x in _) => destruct x
      end
    | progress unfold self_get, self_module, call_module, call_at, run_layers,
        forward_dnn_input, forward_gate, forward_mmoe_outs,
        domain_column_index, forward_domain_emb,
        MMOE_MT.forward_lhuc, MMOE_MT.forward_tower,
        MMOE_MT_ATT.forward_att, MMOE_MT_ATT.forward_tower ].

Section Experts.

Context {T : Type} `{Torch T}.

Lemma quiet_forward_dnn_input self (X : T) : quiet (forward_dnn_input self X).
Proof. quiet. Qed.

Lemma quiet_forward_mmoe_outs self (x eo : T) : quiet (forward_mmoe_outs self x eo).
Proof. quiet. Qed.

Lemma quiet_forward_domain_emb self (X : T) : quiet (forward_domain_emb self X).
Proof. quiet. Qed.

Lemma quiet_MT_forward_lhuc self (x : T) : quiet (MMOE_MT.forward_lhuc self x).
Proof. quiet. Qed.

Lemma quiet_MT_forward_tower self (ms : list T) (l : T) i :
  quiet (MMOE_MT.forward_tower self ms l i).
Proof. quiet. Qed.

Lemma quiet_ATT_forward_tower self (ms : list T) (d : T) i :
  quiet (MMOE_MT_ATT.forward_tower self ms d i).
Proof. quiet. Qed.

End Experts.

Section ExpertsShared.

Context {T : Type} `{Torch T}.

Lemma self_get_ok {A} self a (cast : attr -> result A) x :
  value (self_get (T:=T) self a cast) = Ok x ->
  exists v, lookup a self = Some v /\ cast v = Ok x.
Proof.
  rewrite value_self_get. unfold getattr_of.
  destruct (lookup a self) as [v|]; simpl; [|discriminate]. intros E. now exists v.
Qed.

Lemma as_int_ok v z : as_int v = Ok z -> v = AInt z.
Proof. destruct v; simpl; intros E; inversion E. reflexivity. Qed.

Lemma as_modules_ok v ms : as_modules v = Ok ms -> v = AModule (ModuleList ms).
Proof.
  destruct v as [| | | | | | |m]; simpl; try discriminate.
  destruct m; try discriminate. intros E. now inversion E.
Qed.

Lemma item_ok {A} (xs : list A) i x : item xs i = Ok x -> nth_error xs i = Some x.
Proof. unfold item. destruct (nth_error xs i); intros E; now inversion E. Qed.

(** One module call that returned. *)
Lemma call_at_ok self a i (inputs : list T) out :
  value (call_at self a i inputs) = Ok out ->
  exists ms m, lookup a self = Some (AModule (ModuleList ms)) /\
               nth_error ms i = Some m /\
               call (a, [i]) m inputs = Ok out /\
               events (call_at self a i inputs) = [ModuleCall (a, [i]) inputs].
Proof.
  unfold call_at. intros E.
  rewrite value_bind in E; [| writer | intro; writer].
  apply rbind_ok_inv in E as (m & Em & E).
  pose proof Em as Em'. unfold self_module in Em.
  rewrite value_bind in Em; [| writer | intro; writer].
  apply rbind_ok_inv in Em as (ms & Ems & Em).
  apply self_get_ok in Ems as (v & Hv & Ems). apply as_modules_ok in Ems as ->.
  apply item_ok in Em.
  exists ms, m. repeat split; try assumption.
  rewrite events_bind; [| writer | intro; writer].
  rewrite Em'.
  assert (events (self_module (T:=T) self a i) = []) as ->; [|reflexivity].
  unfold self_module, events, bind, self_get, lift.
  destruct (rbind (getattr_of self a) as_modules); reflexivity.
Qed.

Lemma expert_loop_ok self (dnn_input : T) expert_outs :
  value (forward_expert_outs self dnn_input) = Ok expert_outs ->
  exists E outs,
    lookup "num_experts" self = Some (AInt E) /\
    events (forward_expert_outs self dnn_input)
    = map (fun j => ModuleCall ("expert_dnn", [j]) [dnn_input]) (range E) /\
    Forall2 (fun j out =>
               exists experts m,
                 lookup "expert_dnn" self = Some (AModule (ModuleList experts)) /\
                 nth_error experts j = Some m /\
                 call ("expert_dnn", [j]) m [dnn_input] = Ok out)
            (range E) outs /\
    torch_stack outs 1 = Ok expert_outs.
Proof.
  unfold forward_expert_outs. intros E.
  rewrite value_bind in E; [| writer | intro; writer].
  apply rbind_ok_inv in E as (n & En & E).
  pose proof En as En'.
  apply self_get_ok in En as (v & Hn & En). apply as_int_ok in En as ->.
  rewrite value_bind in E; [| writer | intro; writer].
  apply rbind_ok_inv in E as (outs & Eouts & E).
  pose proof Eouts as Eouts'.
  apply mapM_ok in Eouts as [Hall Hev]; [| intro; writer].
  exists n, outs. split; [assumption|]. split; [|split; [|exact E]].
  - rewrite events_bind; [| writer | intro; writer].
    rewrite events_self_get, En'. simpl.
    rewrite events_bind; [| writer | intro; writer].
    rewrite Eouts', Hev. unfold events at 2. simpl. rewrite app_nil_r.
    clear - Hall. induction Hall as [|j out js outs' Hj _ IH]; simpl; [reflexivity|].
    apply call_at_ok in Hj as (ms & m & _ & _ & _ & ->). simpl. now rewrite IH.
  - clear - Hall. induction Hall as [|j out js outs' Hj _ IH]; constructor; [|exact IH].
    apply call_at_ok in Hj as (ms & m & Hl & Hm & Hc & _). now exists ms, m.
Qed.

Lemma forward_prefix_shared {B} self (X : T)
    (k : T -> T -> list T -> F (T:=T) B) y :
  (forall d eo ms, quiet (k d eo ms)) ->
  let fwd := (dnn_input <- forward_dnn_input self X ;;
              expert_outs <- forward_expert_outs self dnn_input ;;
              mmoe_outs <- forward_mmoe_outs self dnn_input expert_outs ;;
              k dnn_input expert_outs mmoe_outs) in
  value fwd = Ok y -> experts_shared self X (events fwd).
Proof.
  intros Hk fwd E. unfold fwd in *. clear fwd.
  assert (forall d eo ms, writer (k d eo ms)) as Wk by (intros; apply Hk).
  assert (forall d eo, writer (mmoe_outs <- forward_mmoe_outs self d eo ;; k d eo mmoe_outs))
    as W3 by (intros; writer; apply Wk).
  assert (forall d, writer (expert_outs <- forward_expert_outs self d ;;
                            mmoe_outs <- forward_mmoe_outs self d expert_outs ;;
                            k d expert_outs mmoe_outs))
    as W2 by (intros; apply writer_bind; [writer | intro; apply W3]).
  rewrite events_bind; [| writer | apply W2].
  rewrite value_bind in E; [| writer | apply W2].
  apply rbind_ok_inv in E as (dnn_input & Ed & E). rewrite Ed.
  rewrite events_bind; [| writer | intro; apply W3].
  rewrite value_bind in E; [| writer | intro; apply W3].
  apply rbind_ok_inv in E as (expert_outs & Ee & E). rewrite Ee.
  rewrite events_bind; [| writer | intro; apply Wk].
  rewrite value_bind in E; [| writer | intro; apply Wk].
  apply rbind_ok_inv in E as (mmoe_outs & Em & E). rewrite Em.
  destruct (expert_loop_ok _ _ _ Ee) as (n & outs & Hn & Hlog & Houts & Hstack).
  pose proof Em as Em'. unfold forward_mmoe_outs in Em'.
  rewrite value_bind in Em'; [| writer | intro; writer].
  apply rbind_ok_inv in Em' as (nt & Ent & Em').
  apply self_get_ok in Ent as (v & Hnt & Ent). apply as_int_ok in Ent as ->.
  apply mapM_ok in Em' as [Hgates _]; [| intro; writer].
  exists n, dnn_input, outs, expert_outs, nt, mmoe_outs.
  repeat (split; [assumption|]). split; [|repeat (split; [assumption|]); assumption].
  unfold expert_calls. rewrite !filter_app.
  destruct (quiet_forward_dnn_input self X) as [_ Q1].
  destruct (quiet_forward_mmoe_outs self dnn_input expert_outs) as [_ Q3].
  destruct (Hk dnn_input expert_outs mmoe_outs) as [_ Q4].
  unfold expert_calls in Q1, Q3, Q4. rewrite Q1, Q3, Q4, Hlog. simpl.
  rewrite app_nil_r. clear. induction (range n) as [|j js IH]; simpl; [reflexivity|].
  now rewrite IH.
Qed.

End ExpertsShared.

(** C7.  In a forward pass of either model that returns, the log holds
    exactly one call of each expert [self.expert_dnn[j]], [j <
    num_experts], made in the expert loop on [dnn_input] and on nothing
    else; the outputs are stacked into one tensor, and the gate of every
    task multiplies its weights with that same tensor. *)
Theorem C7_experts_shared {T : Type} `{Torch T} (self : attrs) (X : T) :
  (forall y, value (MMOE_MT.forward self X) = Ok y ->
             experts_shared self X (events (MMOE_MT.forward self X))) /\
  (forall y, value (MMOE_MT_ATT.forward self X) = Ok y ->
             experts_shared self X (events (MMOE_MT_ATT.forward self X))).
Proof.
  split; intros y E.
  - unfold MMOE_MT.forward in *.
    apply (forward_prefix_shared self X
             (fun _ _ mmoe_outs =>
                domain_emb <- forward_domain_emb self X ;;
                lhuc_output <- MMOE_MT.forward_lhuc self domain_emb ;;
                num_tasks <- self_get self "num_tasks" as_int ;;
                task_outs <- mapM (MMOE_MT.forward_tower self mmoe_outs lhuc_output)
                                  (range num_tasks) ;;
                lift (torch_cat task_outs (-1))) y); [|exact E].
    intros. quiet.
  - unfold MMOE_MT_ATT.forward in *.
    apply (forward_prefix_shared self X
             (fun _ _ mmoe_outs =>
                domain_emb <- forward_domain_emb self X ;;
                num_tasks <- self_get self "num_tasks" as_int ;;
                task_outs <- mapM (MMOE_MT_ATT.forward_tower self mmoe_outs domain_emb)
                                  (range num_tasks) ;;
                lift (torch_cat task_outs (-1))) y); [|exact E].
    intros. quiet.
Qed.

(** C7 on the concrete model, for a batch of four rows. *)
Lemma C7_experts_shared_witness :
  experts_shared (H:=Demo.shapes) (Demo.mmoe_mt [64] "sota") [4; 3]%nat
    (events (MMOE_MT.forward (H:=Demo.shapes) (Demo.mmoe_mt [64] "sota") [4; 3]%nat)) /\
  experts_shared (H:=Demo.shapes) (Demo.mmoe_mt_att [64] "sota") [4; 3]%nat
    (events (MMOE_MT_ATT.forward (H:=Demo.shapes) (Demo.mmoe_mt_att [64] "sota") [4; 3]%nat)).
Proof.
  split.
  - apply (proj1 (@C7_experts_shared _ Demo.shapes (Demo.mmoe_mt [64] "sota") [4; 3]%nat)
             [4; 2]%nat).
    reflexivity.
  - apply (proj2 (@C7_experts_shared _ Demo.shapes (Demo.mmoe_mt_att [64] "sota") [4; 3]%nat)
             [4; 2]%nat).
    reflexivity.
Defined.

(** ** C6: self-attention over the feature embeddings, by the flag *)

Lemma prefix_app (n h : string) :
  String.prefix n h = true <-> exists post, h = (n ++ post)%string.
Proof.
  revert h. induction n as [|c n IH]; intros [|c' h]; simpl.
  - split; [intros _; now exists "" | reflexivity].
  - split; [intros _; now exists (String c' h) | reflexivity].
  - split; [discriminate | intros [post E]; discriminate].
  - destruct (ascii_dec c c') as [->|Hne].
    + rewrite IH. split; intros [post E]; exists post; [now rewrite E | now inversion E].
    + split; [discriminate|]. intros [post E]. inversion E. congruence.
Qed.

Lemma str_contains_nil (needle : string) :
  str_contains needle "" = String.prefix needle "" || false.
Proof. reflexivity. Qed.

Lemma str_contains_cons (needle : string) c (hay : string) :
  str_contains needle (String c hay)
  = String.prefix needle (String c hay) || str_contains needle hay.
Proof. reflexivity. Qed.

(** [str_contains needle hay] says that [needle] occurs in [hay]. *)
Lemma str_contains_occurs (needle hay : string) :
  str_contains needle hay = true <->
  exists pre post, hay = (pre ++ needle ++ post)%string.
Proof.
  induction hay as [|c hay IH].
  - rewrite str_contains_nil, orb_false_r, prefix_app. split.
    + intros [post E]. now exists "", post.
    + intros (pre & post & E). destruct pre; [now exists post | discriminate].
  - rewrite str_contains_cons, orb_true_iff, IH, prefix_app. split.
    + intros [[post E] | (pre & post & E)].
      * now exists "", post.
      * exists (String c pre), post. simpl. now rewrite E.
    + intros (pre & post & E). destruct pre as [|c' pre].
      * left. now exists post.
      * right. exists pre, post. simpl in E. now inversion E.
Qed.

Lemma init_constructed cid (a : Args) (s self : attrs) :
  MMOE_MT.init cid a s = (Ok tt, self) \/ MMOE_MT_ATT.init cid a s = (Ok tt, self) ->
  check_result (len (task_names a)) a = Ok tt /\
  expert_dnn_hidden_units a <> [] /\
  0 <= num_domains a + 1 /\
  exists usetrans e_dim e_size,
    py_in "usetrans" (flag a) = Ok usetrans /\
    (usetrans = true -> lookup "embedding_dim" s = Some (AInt e_dim)) /\
    lookup "embedding_size" s = Some (AInt e_size) /\
    constructed cid a usetrans e_dim e_size s self.
Proof.
  intros [E | E];
    [apply MMOE_MT_init_ok in E | apply MMOE_MT_ATT_init_ok in E];
    destruct E as (H1 & H2 & H3 & b & e1 & e2 & H4 & H5 & H6 & H7);
    repeat (split; [assumption|]); exists b, e1, e2;
    repeat (split; [assumption|]); [now left | now right].
Qed.

(** Reading back what a constructor stored. *)
Ltac built_lookup :=
  intros [-> | ->];
  unfold MMOE_MT_built, MMOE_MT_ATT_built, after_domain, after_layers,
    after_settings, after_header, opt_attr; cbv zeta;
  repeat match goal with
         | |- context [if ?b then _ else _] => destruct b
         end;
  first [reflexivity | discriminate].

Section BuiltLookups.

Context {cid : list FeatureColumn -> Z} {a : Args} {usetrans : bool}
        {e_dim e_size : Z} {s self : attrs}.
Hypothesis Hself : constructed cid a usetrans e_dim e_size s self.

Lemma built_flag : lookup "flag" self = Some (APy (flag a)).
Proof. revert Hself. built_lookup. Qed.

Lemma built_num_tasks : lookup "num_tasks" self = Some (AInt (len (task_names a))).
Proof. revert Hself. built_lookup. Qed.

Lemma built_num_experts : lookup "num_experts" self = Some (AInt (num_experts a)).
Proof. revert Hself. built_lookup. Qed.

Lemma built_domain_column : lookup "domain_column" self = Some (APy (domain_column a)).
Proof. revert Hself. built_lookup. Qed.

Lemma built_gate_units :
  lookup "gate_dnn_hidden_units" self = Some (AInts (gate_dnn_hidden_units a)).
Proof. revert Hself. built_lookup. Qed.

Lemma built_tower_units :
  lookup "tower_dnn_hidden_units" self = Some (AInts (tower_dnn_hidden_units a)).
Proof. revert Hself. built_lookup. Qed.

Lemma built_domain_embeddings :
  lookup "domain_embeddings" self
  = Some (AModule (Embedding (num_domains a + 1) e_size)).
Proof. revert Hself. built_lookup. Qed.

Lemma built_int_layers :
  usetrans = true ->
  lookup "int_layers" self
  = Some (AModule (ModuleList (repeat (SelfAttention_Layer e_dim 4 true) 3))).
Proof. intros ->. revert Hself. built_lookup. Qed.

Lemma built_expert_dnn :
  lookup "expert_dnn" self
  = Some (AModule (ModuleList
       (repeat (DNN (cid (dnn_feature_columns a)) (expert_dnn_hidden_units a))
               (Z.to_nat (num_experts a))))).
Proof. revert Hself. built_lookup. Qed.

Lemma built_gate_dnn :
  (0 <? len (gate_dnn_hidden_units a)) = true ->
  lookup "gate_dnn" self
  = Some (AModule (ModuleList
       (repeat (DNN (cid (dnn_feature_columns a)) (gate_dnn_hidden_units a))
               (Z.to_nat (len (task_names a)))))).
Proof. intros Hg. revert Hself. built_lookup. Qed.

End BuiltLookups.

Lemma built_frame {cid} {a : Args} {usetrans e_dim e_size} {s self : attrs} k :
  constructed cid a usetrans e_dim e_size s self ->
  ~ In k assigned_attributes ->
  lookup k self = lookup k s.
Proof.
  intros Hself Hk.
  assert (forall k', In k' assigned_attributes -> String.eqb k k' = false) as Hne.
  { intros k' Hin. apply String.eqb_neq. intros ->. now apply Hk. }
  unfold assigned_attributes in Hne. simpl in Hne.
  destruct Hself as [-> | ->]; unfold MMOE_MT_built, MMOE_MT_ATT_built, after_domain;
    rewrite !lookup_cons_ne by (apply Hne; tauto);
    apply lookup_after_layers; intros C; apply Hk; unfold assigned_attributes;
    simpl in *; tauto.
Qed.

Section DnnInput.

Context {T : Type} `{Torch T}.

Lemma forward_dnn_input_value self (X : T) cols dict sparse dense fl usetrans :
  lookup "dnn_feature_columns" self = Some (AFeats cols) ->
  lookup "embedding_dict" self = Some (AEmbDict dict) ->
  input_from_feature_columns X cols dict = Ok (sparse, dense) ->
  lookup "flag" self = Some (APy fl) ->
  py_in "usetrans" fl = Ok usetrans ->
  (usetrans = false ->
   value (forward_dnn_input self X) = combined_dnn_input sparse dense) /\
  (forall e, usetrans = true ->
     lookup "int_layers" self
     = Some (AModule (ModuleList (repeat (SelfAttention_Layer e 4 true) 3))) ->
     value (forward_dnn_input self X) = self_attention_input e sparse dense).
Proof.
  intros Hc Hd Hin Hf Hu. split.
  - intros ->. unfold value, forward_dnn_input, bind, self_get, lift, log, getattr_of.
    rewrite Hc, Hd. simpl. rewrite Hin, Hf. simpl. rewrite Hu. reflexivity.
  - intros e -> Hl.
    unfold value, forward_dnn_input, bind, self_get, lift, log, getattr_of.
    rewrite Hc, Hd. simpl. rewrite Hin, Hf. simpl. rewrite Hu, Hl.
    unfold self_attention_input, run_layers.
    repeat (unfold call_module, bind, log, lift, ret; simpl).
    destruct (concat_fun sparse 1) as [x0|]; simpl; [|reflexivity].
    destruct (call ("int_layers", [0%nat]) _ [x0]) as [x1|]; simpl; [|reflexivity].
    destruct (call ("int_layers", [1%nat]) _ [x1]) as [x2|]; simpl; [|reflexivity].
    destruct (call ("int_layers", [2%nat]) _ [x2]) as [x3|]; simpl; [|reflexivity].
    destruct (torch_flatten x3 1) as [att_output|]; simpl; [|reflexivity].
    destruct dense as [|d dense]; [reflexivity|].
    replace (0 <? len (d :: dense)) with true
      by (symmetry; apply Z.ltb_lt; unfold len; simpl; lia).
    destruct (concat_fun (d :: dense) 1); reflexivity.
Qed.

End DnnInput.

(** C6.  For an object built by either constructor, what [forward] feeds
    to the experts and gates is the self-attention path exactly when
    ['usetrans' in flag] holds (for a string flag: when 'usetrans' occurs
    in it), and the toolkit's [combined_dnn_input] of the sparse
    embeddings and dense values otherwise. *)
Theorem C6_usetrans_selects_dnn_input {T : Type} `{Torch T}
    cid (a : Args) (s self : attrs) (X : T) cols dict sparse dense usetrans :
  MMOE_MT.init cid a s = (Ok tt, self) \/ MMOE_MT_ATT.init cid a s = (Ok tt, self) ->
  lookup "dnn_feature_columns" s = Some (AFeats cols) ->
  lookup "embedding_dict" s = Some (AEmbDict dict) ->
  input_from_feature_columns X cols dict = Ok (sparse, dense) ->
  py_in "usetrans" (flag a) = Ok usetrans ->
  (forall fl, flag a = PyStr fl ->
     (usetrans = true <-> exists pre post, fl = (pre ++ "usetrans" ++ post)%string)) /\
  (usetrans = true ->
   exists e, lookup "embedding_dim" s = Some (AInt e) /\
             value (forward_dnn_input self X) = self_attention_input e sparse dense) /\
  (usetrans = false ->
   value (forward_dnn_input self X) = combined_dnn_input sparse dense).
Proof.
  intros Hinit Hc Hd Hin Hu.
  apply init_constructed in Hinit
    as (_ & _ & _ & b & e_dim & e_size & Hb & Hdim & _ & Hself).
  rewrite Hu in Hb. injection Hb as <-.
  assert (lookup "dnn_feature_columns" self = Some (AFeats cols)) as Hc'.
  { rewrite (built_frame "dnn_feature_columns" Hself); [assumption|].
    unfold assigned_attributes, layer_attributes. simpl. intuition discriminate. }
  assert (lookup "embedding_dict" self = Some (AEmbDict dict)) as Hd'.
  { rewrite (built_frame "embedding_dict" Hself); [assumption|].
    unfold assigned_attributes, layer_attributes. simpl. intuition discriminate. }
  destruct (forward_dnn_input_value self X cols dict sparse dense (flag a) usetrans
              Hc' Hd' Hin (built_flag Hself) Hu) as [Hcomb Hatt].
  split; [|split].
  - intros fl Hfl. rewrite Hfl in Hu. simpl in Hu. injection Hu as <-.
    apply str_contains_occurs.
  - intros ->. exists e_dim. split; [now apply Hdim|].
    apply Hatt; [reflexivity|]. now apply (built_int_layers Hself).
  - exact Hcomb.
Qed.

(** C6 on the concrete model, once with the flag 'sota_usetrans' and once
    with the flag 'sota'. *)
Lemma C6_usetrans_selects_dnn_input_witness :
  (value (forward_dnn_input (H:=Demo.shapes) (Demo.mmoe_mt [64] "sota_usetrans") [4; 3]%nat)
   = Ok [4; 9]%nat) /\
  (value (forward_dnn_input (H:=Demo.shapes) (Demo.mmoe_mt_att [64] "sota") [4; 3]%nat)
   = Ok [4; 9]%nat).
Proof.
  split.
  - destruct (@C6_usetrans_selects_dnn_input _ Demo.shapes Demo.compute_input_dim
                (Demo.args [64] "sota_usetrans") Demo.base
                (Demo.mmoe_mt [64] "sota_usetrans") [4; 3]%nat
                Demo.cols Demo.embedding_dict
                [[4; 1; 4]; [4; 1; 4]]%nat [[4; 1]]%nat true
                (or_introl eq_refl) eq_refl eq_refl eq_refl eq_refl)
      as (_ & Hatt & _).
    destruct (Hatt eq_refl) as (e & He & Hv). injection He as <-.
    rewrite Hv. reflexivity.
  - destruct (@C6_usetrans_selects_dnn_input _ Demo.shapes Demo.compute_input_dim
                (Demo.args [64] "sota") Demo.base
                (Demo.mmoe_mt_att [64] "sota") [4; 3]%nat
                Demo.cols Demo.embedding_dict
                [[4; 1; 4]; [4; 1; 4]]%nat [[4; 1]]%nat false
                (or_intror eq_refl) eq_refl eq_refl eq_refl eq_refl)
      as (_ & _ & Hcomb).
    rewrite (Hcomb eq_refl). reflexivity.
Defined.

(** ** C10: the domain column stays a feature, continued *)

Section ForwardValue.

Context {T : Type} `{Torch T}.

(** [MMOE_MT.forward], stage by stage: the input of the experts and
    gates, the experts, the mixtures, the domain embedding of the batch,
    the LHUC output, the tower of every task, and the concatenation. *)
Lemma value_MT_forward cid (a : Args) usetrans e_dim e_size (s self : attrs) (X : T) :
  constructed cid a usetrans e_dim e_size s self ->
  value (MMOE_MT.forward self X)
  = rbind (value (forward_dnn_input self X)) (fun dnn_input =>
    rbind (value (forward_expert_outs self dnn_input)) (fun expert_outs =>
    rbind (value (forward_mmoe_outs self dnn_input expert_outs)) (fun mmoe_outs =>
    rbind (value (forward_domain_emb self X)) (fun domain_emb =>
    rbind (value (MMOE_MT.forward_lhuc self domain_emb)) (fun lhuc_output =>
    rbind (value (mapM (MMOE_MT.forward_tower self mmoe_outs lhuc_output)
                       (range (len (task_names a))))) (fun task_outs =>
    torch_cat task_outs (-1))))))).
Proof.
  intros Hself. unfold MMOE_MT.forward.
  rewrite value_bind; [| writer | intro; writer].
  destruct (value (forward_dnn_input _ X)) as [dnn_input|]; [|reflexivity].
  cbn [rbind]. rewrite value_bind; [| writer | intro; writer].
  destruct (value (forward_expert_outs _ dnn_input)) as [expert_outs|]; [|reflexivity].
  cbn [rbind]. rewrite value_bind; [| writer | intro; writer].
  destruct (value (forward_mmoe_outs _ dnn_input expert_outs)) as [mmoe_outs|];
    [|reflexivity].
  cbn [rbind]. rewrite value_bind; [| writer | intro; writer].
  destruct (value (forward_domain_emb _ X)) as [domain_emb|]; [|reflexivity].
  cbn [rbind]. rewrite value_bind; [| writer | intro; writer].
  destruct (value (MMOE_MT.forward_lhuc _ domain_emb)) as [lhuc_output|];
    [|reflexivity].
  cbn [rbind]. rewrite value_bind; [| writer | intro; writer].
  rewrite value_self_get. unfold getattr_of. rewrite (built_num_tasks Hself).
  cbn [rbind as_int]. rewrite value_bind; [| writer | intro; writer].
  reflexivity.
Qed.

End ForwardValue.

(** C10.  With [domain_id_as_feature=False], a constructor that returns
    (i) has obtained from [filter_feature_columns] the columns whose name
    is not in [domain_column], in their order, a value it binds to a local
    name only; (ii) leaves [self.dnn_feature_columns] as the base class
    set it; (iii) [forward] hands exactly that attribute, the domain
    column included, to [input_from_feature_columns]; (iv) what the
    experts and gates receive is computed from the embeddings and values
    that call returns for all of these columns, by the self-attention path
    or by [combined_dnn_input]; and (v) [forward] goes on from that input
    to the experts, the mixtures and the towers, using the domain column a
    second time for the domain embedding. *)
Theorem C10_domain_column_still_a_feature {T : Type} `{Torch T}
    cid (a : Args) (s self : attrs) dict (X : T) :
  domain_id_as_feature a = false ->
  MMOE_MT.init cid a s = (Ok tt, self) ->
  lookup "dnn_feature_columns" s = Some (AFeats (dnn_feature_columns a)) ->
  lookup "embedding_dict" s = Some (AEmbDict dict) ->
  (exists kept,
     filter_feature_columns (dnn_feature_columns a) (domain_column a) = Ok kept /\
     kept = filter (fun feat => negb (named_in (domain_column a) feat))
                   (dnn_feature_columns a) /\
     forall feat, named_in (domain_column a) feat = true -> ~ In feat kept) /\
  lookup "dnn_feature_columns" self = lookup "dnn_feature_columns" s /\
  (exists rest,
     events (MMOE_MT.forward self X)
     = InputFromFeatureColumns (dnn_feature_columns a) :: rest) /\
  (exists usetrans e_dim,
     py_in "usetrans" (flag a) = Ok usetrans /\
     (usetrans = true -> lookup "embedding_dim" s = Some (AInt e_dim)) /\
     value (forward_dnn_input self X)
     = rbind (input_from_feature_columns X (dnn_feature_columns a) dict)
             (fun lists =>
                if usetrans
                then self_attention_input e_dim (fst lists) (snd lists)
                else combined_dnn_input (fst lists) (snd lists))) /\
  value (MMOE_MT.forward self X)
  = rbind (value (forward_dnn_input self X)) (fun dnn_input =>
    rbind (value (forward_expert_outs self dnn_input)) (fun expert_outs =>
    rbind (value (forward_mmoe_outs self dnn_input expert_outs)) (fun mmoe_outs =>
    rbind (value (forward_domain_emb self X)) (fun domain_emb =>
    rbind (value (MMOE_MT.forward_lhuc self domain_emb)) (fun lhuc_output =>
    rbind (value (mapM (MMOE_MT.forward_tower self mmoe_outs lhuc_output)
                       (range (len (task_names a))))) (fun task_outs =>
    torch_cat task_outs (-1))))))).
Proof.
  intros Hdom Hinit Hcols Hdict.
  assert (domain_column a <> PyNone) as Hc.
  { unfold MMOE_MT.init in Hinit.
    step_as Hinit u Ec. destruct u. apply init_common_ok in Ec as (Hchk & _).
    apply check_result_ok_iff in Hchk as (_ & _ & Hne & _).
    step_as Hinit e Ed. unfold init_domain in Ed. rewrite Hdom in Ed.
    step_as Ed loc El. step_as El kept Ek.
    intros C. rewrite C in Ek.
    pose proof (filter_feature_columns_None _ Hne) as Ht. rewrite Ek in Ht. discriminate. }
  apply MMOE_MT_init_ok in Hinit
    as (_ & _ & _ & usetrans & e_dim & e_size & Hflag & Hdim & _ & ->).
  assert (constructed cid a usetrans e_dim e_size s
            (MMOE_MT_built cid a usetrans e_dim e_size s)) as Hself by now left.
  assert (forall k, k = "dnn_feature_columns" \/ k = "embedding_dict" ->
            lookup k (MMOE_MT_built cid a usetrans e_dim e_size s) = lookup k s)
    as Hframe.
  { intros k Hk. unfold MMOE_MT_built, after_domain.
    destruct Hk as [-> | ->]; rewrite !lookup_cons_ne by reflexivity;
      apply lookup_after_layers; simpl; intuition discriminate. }
  assert (lookup "dnn_feature_columns" (MMOE_MT_built cid a usetrans e_dim e_size s)
          = Some (AFeats (dnn_feature_columns a))) as Hcols'
    by (rewrite Hframe by (now left); assumption).
  assert (lookup "embedding_dict" (MMOE_MT_built cid a usetrans e_dim e_size s)
          = Some (AEmbDict dict)) as Hdict'
    by (rewrite Hframe by (now right); assumption).
  split; [|split; [|split; [|split]]].
  - eexists. split; [now apply filter_feature_columns_filter|]. split; [reflexivity|].
    intros feat Hin C. apply filter_In in C as [_ C]. rewrite Hin in C. discriminate.
  - apply Hframe. now left.
  - destruct (@forward_dnn_input_asks T _ (MMOE_MT_built cid a usetrans e_dim e_size s)
                X (dnn_feature_columns a) dict Hcols' Hdict') as [rest Hrest].
    unfold MMOE_MT.forward.
    eapply events_forward_prefix; [writer | intros; writer | exact Hrest].
  - exists usetrans, e_dim. split; [assumption|]. split; [assumption|].
    destruct (input_from_feature_columns X (dnn_feature_columns a) dict)
      as [[sparse dense]|err] eqn:Hin.
    + destruct (forward_dnn_input_value _ X _ dict sparse dense (flag a) usetrans
                  Hcols' Hdict' Hin (built_flag Hself) Hflag) as [Hcomb Hatt].
      cbn [rbind fst snd]. destruct usetrans.
      * apply Hatt; [reflexivity|]. now apply (built_int_layers Hself).
      * now apply Hcomb.
    + cbn [rbind].
      unfold value, forward_dnn_input, bind, self_get, lift, log, getattr_of.
      rewrite Hcols', Hdict'. simpl. now rewrite Hin.
  - exact (value_MT_forward cid a usetrans e_dim e_size s _ X Hself).
Qed.

Lemma C10_domain_column_still_a_feature_witness :
  (exists kept,
     filter_feature_columns Demo.cols (PyStr "301") = Ok kept /\
     kept = filter (fun feat => negb (named_in (PyStr "301") feat)) Demo.cols /\
     forall feat, named_in (PyStr "301") feat = true -> ~ In feat kept) /\
  lookup "dnn_feature_columns" (Demo.mmoe_mt [64] "sota")
  = lookup "dnn_feature_columns" Demo.base /\
  (exists rest,
     events (MMOE_MT.forward (H:=Demo.shapes) (Demo.mmoe_mt [64] "sota") [4; 3]%nat)
     = InputFromFeatureColumns Demo.cols :: rest) /\
  (exists usetrans e_dim,
     py_in "usetrans" (PyStr "sota") = Ok usetrans /\
     (usetrans = true -> lookup "embedding_dim" Demo.base = Some (AInt e_dim)) /\
     value (forward_dnn_input (H:=Demo.shapes) (Demo.mmoe_mt [64] "sota") [4; 3]%nat)
     = rbind (input_from_feature_columns (Torch:=Demo.shapes) [4; 3]%nat Demo.cols
                Demo.embedding_dict)
             (fun lists =>
                if usetrans
                then self_attention_input (H:=Demo.shapes) e_dim (fst lists) (snd lists)
                else combined_dnn_input (Torch:=Demo.shapes) (fst lists) (snd lists))) /\
  value (MMOE_MT.forward (H:=Demo.shapes) (Demo.mmoe_mt [64] "sota") [4; 3]%nat)
  = rbind (value (forward_dnn_input (H:=Demo.shapes) (Demo.mmoe_mt [64] "sota")
                    [4; 3]%nat)) (fun dnn_input =>
    rbind (value (forward_expert_outs (H:=Demo.shapes) (Demo.mmoe_mt [64] "sota")
                    dnn_input)) (fun expert_outs =>
    rbind (value (forward_mmoe_outs (H:=Demo.shapes) (Demo.mmoe_mt [64] "sota")
                    dnn_input expert_outs)) (fun mmoe_outs =>
    rbind (value (forward_domain_emb (H:=Demo.shapes) (Demo.mmoe_mt [64] "sota")
                    [4; 3]%nat)) (fun domain_emb =>
    rbind (value (MMOE_MT.forward_lhuc (H:=Demo.shapes) (Demo.mmoe_mt [64] "sota")
                    domain_emb)) (fun lhuc_output =>
    rbind (value (mapM (MMOE_MT.forward_tower (H:=Demo.shapes)
                          (Demo.mmoe_mt [64] "sota") mmoe_outs lhuc_output)
                       (range 2))) (fun task_outs =>
    torch_cat (Torch:=Demo.shapes) task_outs (-1))))))).
Proof.
  apply (@C10_domain_column_still_a_feature _ Demo.shapes Demo.compute_input_dim
           (Demo.args [64] "sota") Demo.base (Demo.mmoe_mt [64] "sota")
           Demo.embedding_dict [4; 3]%nat);
    reflexivity.
Defined.

(** ** C5: the rescaling factor of [MMOE_MT_ATT] *)

Lemma nth_error_repeat {A} (x : A) (n i : nat) :
  (i < n)%nat -> nth_error (repeat x n) i = Some x.
Proof.
  revert i. induction n as [|n IH]; intros i Hi; [lia|].
  destruct i as [|i]; simpl; [reflexivity|]. apply IH. lia.
Qed.

Section BuiltAtt.

Context {cid : list FeatureColumn -> Z} {a : Args} {usetrans : bool}
        {e_dim e_size : Z} {s : attrs}.
Let self := MMOE_MT_ATT_built cid a usetrans e_dim e_size s.

Lemma att_target_attention :
  lookup "target_attention" self
  = Some (AModule (ModuleList (repeat (Attention_Layer e_size 4 true)
                                      (Z.to_nat (len (task_names a)))))).
Proof. reflexivity. Qed.

Lemma att_lhuc :
  lookup "lhuc" self
  = Some (AModule (ModuleList (repeat (ModuleList (lhuc_layers e_size))
                                      (Z.to_nat (len (task_names a)))))).
Proof. reflexivity. Qed.

End BuiltAtt.

Section BuiltTowers.

Context {cid : list FeatureColumn -> Z} {a : Args} {usetrans : bool}
        {e_dim e_size : Z} {s self : attrs}.
Hypothesis Hself : constructed cid a usetrans e_dim e_size s self.

Lemma built_tower_dnn :
  (0 <? len (tower_dnn_hidden_units a)) = true ->
  lookup "tower_dnn" self
  = Some (AModule (ModuleList
       (repeat (DNN (last_unit (expert_dnn_hidden_units a)) (tower_dnn_hidden_units a))
               (Z.to_nat (len (task_names a)))))).
Proof. intros Ht. revert Hself. built_lookup. Qed.

Lemma built_tower_dnn_final_layer :
  lookup "tower_dnn_final_layer" self
  = Some (AModule (ModuleList
       (repeat (Linear (if 0 <? len (tower_dnn_hidden_units a)
                        then last_unit (tower_dnn_hidden_units a)
                        else last_unit (expert_dnn_hidden_units a)) 1)
               (Z.to_nat (len (task_names a)))))).
Proof. revert Hself. built_lookup. Qed.

Lemma built_gate_dnn_final_layer :
  lookup "gate_dnn_final_layer" self
  = Some (AModule (ModuleList
       (repeat (Linear (if 0 <? len (gate_dnn_hidden_units a)
                        then last_unit (gate_dnn_hidden_units a)
                        else cid (dnn_feature_columns a)) (num_experts a))
               (Z.to_nat (len (task_names a)))))).
Proof. revert Hself. built_lookup. Qed.

Lemma built_out :
  lookup "out" self = Some (AModule (ModuleList (map PredictionLayer (task_types a)))).
Proof. revert Hself. built_lookup. Qed.

End BuiltTowers.

Section Rescaling.

Context {T : Type} `{Torch T}.

Lemma value_call_at self a i (inputs : list T) ms m :
  lookup a self = Some (AModule (ModuleList ms)) ->
  nth_error ms i = Some m ->
  value (call_at self a i inputs) = call (a, [i]) m inputs.
Proof.
  intros Hl Hm. unfold value, call_at, self_module, call_module, bind, self_get,
    lift, log, getattr_of, item.
  rewrite Hl. simpl. rewrite Hm. reflexivity.
Qed.

Lemma value_run_lhuc (i : nat) (e : Z) (att : T) :
  value (run_layers ("lhuc", [i]) (lhuc_layers e) att)
  = rbind (call ("lhuc", [i; 0%nat]) (Linear e 128) [att]) (fun h1 =>
    rbind (call ("lhuc", [i; 1%nat]) ReLU [h1]) (fun h2 =>
    rbind (call ("lhuc", [i; 2%nat]) (Linear 128 64) [h2]) (fun h3 =>
    call ("lhuc", [i; 3%nat]) Sigmoid [h3]))).
Proof.
  unfold value, run_layers, lhuc_layers.
  repeat (unfold call_module, bind, log, lift, ret; simpl).
  destruct (call ("lhuc", [i; 0%nat]) _ [att]) as [h1|]; simpl; [|reflexivity].
  destruct (call ("lhuc", [i; 1%nat]) _ [h1]) as [h2|]; simpl; [|reflexivity].
  destruct (call ("lhuc", [i; 2%nat]) _ [h2]) as [h3|]; simpl; [|reflexivity].
  destruct (call ("lhuc", [i; 3%nat]) _ [h3]) as [h4|]; reflexivity.
Qed.

End Rescaling.



(** ** C2: the shape of the output *)

(** C2 at a batch of one row.  The hyper-parameters are the defaults but
    for an empty [tower_dnn_hidden_units] (which the docstring allows);
    both constructors accept them.  On a batch of shape [(4, 3)] both
    models return a tensor of shape [(4, 2)]; on a batch of shape
    [(1, 3)] they return a tensor of shape [(2,)], not [(1, 2)]:
    [squeeze()] at line 175 (176) drops the batch dimension along with
    the dimension it is meant to drop, the final linear layer of each
    tower then yields shape [(1,)], and [torch.cat] joins the two along
    their only dimension. *)
Theorem C2_batch_of_one_loses_batch_dimension :
  fst (MMOE_MT.init Demo.compute_input_dim (Demo.args [] "sota") Demo.base) = Ok tt /\
  fst (MMOE_MT_ATT.init Demo.compute_input_dim (Demo.args [] "sota") Demo.base) = Ok tt /\
  value (MMOE_MT.forward (H:=Demo.shapes) (Demo.mmoe_mt [] "sota") [4; 3]%nat)
  = Ok [4; 2]%nat /\
  value (MMOE_MT_ATT.forward (H:=Demo.shapes) (Demo.mmoe_mt_att [] "sota") [4; 3]%nat)
  = Ok [4; 2]%nat /\
  value (MMOE_MT.forward (H:=Demo.shapes) (Demo.mmoe_mt [] "sota") [1; 3]%nat)
  = Ok [2]%nat /\
  value (MMOE_MT_ATT.forward (H:=Demo.shapes) (Demo.mmoe_mt_att [] "sota") [1; 3]%nat)
  = Ok [2]%nat /\
  value (forward_mmoe_outs (H:=Demo.shapes) (Demo.mmoe_mt [] "sota")
           [1; 9]%nat [1; 3; 128]%nat)
  = Ok [[128]; [128]]%nat.
Proof. repeat split; reflexivity. Qed.

(** ** C3: the range of the LHUC factors *)

Section LhucGeneric.

Context {T : Type} `{Torch T}.

(** The domain adaptation block of [MMOE_MT], layer by layer. *)
Lemma value_forward_lhuc self (e : Z) (domain_emb : T) :
  lookup "lhuc" self = Some (AModule (ModuleList (lhuc_layers e))) ->
  value (MMOE_MT.forward_lhuc self domain_emb)
  = rbind (call ("lhuc", [0%nat]) (Linear e 128) [domain_emb]) (fun h1 =>
    rbind (call ("lhuc", [1%nat]) ReLU [h1]) (fun h2 =>
    rbind (call ("lhuc", [2%nat]) (Linear 128 64) [h2]) (fun h3 =>
    rbind (call ("lhuc", [3%nat]) Sigmoid [h3]) (fun lhuc_output =>
    mul_int lhuc_output 2)))).
Proof.
  intros Hl. unfold value, MMOE_MT.forward_lhuc, self_get, getattr_of, run_layers.
  unfold bind at 1. unfold lift at 1. rewrite Hl. simpl.
  repeat (unfold call_module, bind, log, lift, ret; simpl).
  destruct (call ("lhuc", [0%nat]) _ [domain_emb]) as [h1|]; simpl; [|reflexivity].
  destruct (call ("lhuc", [1%nat]) _ [h1]) as [h2|]; simpl; [|reflexivity].
  destruct (call ("lhuc", [2%nat]) _ [h2]) as [h3|]; simpl; [|reflexivity].
  destruct (call ("lhuc", [3%nat]) _ [h3]) as [h4|]; reflexivity.
Qed.

End LhucGeneric.

Section LhucReal.

Import RealSem.
Local Open Scope R_scope.



Lemma entries_tmap (f : R -> R) (t : tensor) :
  entries (tmap f t) = map f (entries t).
Proof.
  destruct t as [x|v|m|c]; simpl; try reflexivity.
  - now rewrite concat_map.
  - now rewrite !concat_map.
Qed.

Variable weight : mpath -> list (list R).
Variable external : mpath -> nn_Module -> list tensor -> result tensor.

(** What [forward_lhuc] returns is twice a sigmoid, entry by entry. *)
Lemma forward_lhuc_doubles_sigmoid self (e : Z) (domain_emb lhuc_output : tensor) :
  lookup "lhuc" self = Some (AModule (ModuleList (lhuc_layers e))) ->
  value (MMOE_MT.forward_lhuc (H:=torch_real weight external) self domain_emb)
  = Ok lhuc_output ->
  exists h3, entries lhuc_output = map (fun x => sigmoid x * 2) (entries h3).
Proof.
  intros Hl E. rewrite (value_forward_lhuc _ _ _ Hl) in E.
  apply rbind_ok_inv in E as (h1 & _ & E).
  apply rbind_ok_inv in E as (h2 & _ & E).
  apply rbind_ok_inv in E as (h3 & _ & E).
  apply rbind_ok_inv in E as (h4 & E4 & E).
  simpl in E4, E. injection E4 as <-. unfold mul_int_t in E. injection E as <-.
  exists h3. rewrite !entries_tmap, map_map. reflexivity.
Qed.

End LhucReal.

Section Rescale.

Import RealSem.
Local Open Scope R_scope.



Lemma stretch_same {A} (d : A) (l : list A) : stretch d l (List.length l) = l.
Proof. unfold stretch. now rewrite Nat.eqb_refl. Qed.




End Rescale.

Section TowerGeneric.

Context {T : Type} `{Torch T}.

(** The tower of task [i] in [MMOE_MT], call by call. *)
Lemma value_MT_forward_tower cid (a : Args) usetrans e_dim e_size (s self : attrs)
    (mmoe_outs : list T) (mmoe_out lhuc_output : T) (i : nat) type_i :
  constructed cid a usetrans e_dim e_size s self ->
  (i < List.length (task_names a))%nat ->
  nth_error mmoe_outs i = Some mmoe_out ->
  nth_error (task_types a) i = Some type_i ->
  value (MMOE_MT.forward_tower self mmoe_outs lhuc_output i)
  = rbind (if 0 <? len (tower_dnn_hidden_units a) then
             rbind (call ("tower_dnn", [i])
                      (DNN (last_unit (expert_dnn_hidden_units a))
                           (tower_dnn_hidden_units a)) [mmoe_out]) (fun tower_dnn_out =>
             rbind (mul tower_dnn_out lhuc_output) (fun rescaled =>
             call ("tower_dnn_final_layer", [i])
               (Linear (last_unit (tower_dnn_hidden_units a)) 1) [rescaled]))
           else
             call ("tower_dnn_final_layer", [i])
               (Linear (last_unit (expert_dnn_hidden_units a)) 1) [mmoe_out])
          (fun logit => call ("out", [i]) (PredictionLayer type_i) [logit]).
Proof.
  intros Hself Hi Hm Hty.
  assert (i < Z.to_nat (len (task_names a)))%nat as Hi' by (unfold len; lia).
  unfold MMOE_MT.forward_tower.
  rewrite value_bind; [| writer | intro; writer].
  rewrite value_self_get. unfold getattr_of. rewrite (built_tower_units Hself).
  cbn [rbind as_ints].
  rewrite value_bind; [| writer | intro; writer].
  unfold value at 1, lift, item. cbn [fst]. rewrite Hm. cbn [rbind].
  rewrite value_bind; [| writer | intro; writer].
  pose proof (built_tower_dnn_final_layer Hself) as Hfinal.
  assert (forall logit, value (call_at self "out" i [logit])
                        = call ("out", [i]) (PredictionLayer type_i) [logit]) as Hout.
  { intros logit. apply (value_call_at _ _ _ _ _ _ (built_out Hself)).
    now rewrite nth_error_map, Hty. }
  destruct (0 <? len (tower_dnn_hidden_units a)) eqn:Ht.
  - rewrite value_bind; [| writer | intro; writer].
    rewrite (value_call_at _ _ _ _ _ _ (built_tower_dnn Hself Ht)
               (nth_error_repeat _ _ _ Hi')).
    destruct (call ("tower_dnn", [i]) _ [mmoe_out]) as [t|]; cbn [rbind]; [|reflexivity].
    rewrite value_bind; [| writer | intro; writer].
    unfold value at 1, lift. cbn [fst].
    destruct (mul t lhuc_output) as [t'|]; cbn [rbind]; [|reflexivity].
    rewrite (value_call_at _ _ _ _ _ _ Hfinal (nth_error_repeat _ _ _ Hi')).
    destruct (call ("tower_dnn_final_layer", [i]) _ [t']); cbn [rbind]; [|reflexivity].
    apply Hout.
  - rewrite (value_call_at _ _ _ _ _ _ Hfinal (nth_error_repeat _ _ _ Hi')).
    destruct (call ("tower_dnn_final_layer", [i]) _ [mmoe_out]); cbn [rbind];
      [|reflexivity].
    apply Hout.
Qed.

End TowerGeneric.

Section LhucFactors.

Import RealSem.
Local Open Scope R_scope.

Lemma dot_zeros (x : list R) (k : nat) : dot x (repeat 0 k) = 0.
Proof.
  unfold dot. revert k. induction x as [|a x IH]; intros [|k]; simpl; try reflexivity.
  rewrite IH. lra.
Qed.

Lemma linear_row_zeros (n k : nat) (x : list R) :
  linear_row (DemoReal.zeros n k) x = repeat 0 n.
Proof.
  unfold linear_row, DemoReal.zeros. rewrite map_repeat. now rewrite dot_zeros.
Qed.










End LhucFactors.

(** ** C4: the gates weigh the experts *)

Section GateGeneric.

Context {T : Type} `{Torch T}.

Lemma value_forward_gate cid (a : Args) usetrans e_dim e_size (s self : attrs)
    (dnn_input expert_outs : T) (i : nat) :
  constructed cid a usetrans e_dim e_size s self ->
  (i < List.length (task_names a))%nat ->
  value (forward_gate self dnn_input expert_outs i)
  = rbind (gate_logits cid a i dnn_input) (fun gate_dnn_out =>
    rbind (rbind (softmax gate_dnn_out 1) (fun w => unsqueeze w 1)) (fun weights =>
    rbind (torch_matmul weights expert_outs) squeeze)).
Proof.
  intros Hself Hi.
  assert (i < Z.to_nat (len (task_names a)))%nat as Hi' by (unfold len; lia).
  unfold forward_gate, gate_logits.
  rewrite value_bind; [| writer | intro; writer].
  rewrite value_self_get. unfold getattr_of. rewrite (built_gate_units Hself). simpl.
  rewrite value_bind; [| writer | intro; writer].
  pose proof (built_gate_dnn_final_layer Hself) as Hfinal.
  assert (rbind
            (value (if 0 <? len (gate_dnn_hidden_units a)
                    then gate_dnn_out <- call_at self "gate_dnn" i [dnn_input] ;;
                         call_at self "gate_dnn_final_layer" i [gate_dnn_out]
                    else call_at self "gate_dnn_final_layer" i [dnn_input]))
            (fun g => Ok g)
          = rbind (if 0 <? len (gate_dnn_hidden_units a)
                   then rbind (call ("gate_dnn", [i])
                                 (DNN (cid (dnn_feature_columns a)) (gate_dnn_hidden_units a))
                                 [dnn_input]) (fun gate_dnn_out =>
                        call ("gate_dnn_final_layer", [i])
                          (Linear (last_unit (gate_dnn_hidden_units a)) (num_experts a))
                          [gate_dnn_out])
                   else call ("gate_dnn_final_layer", [i])
                          (Linear (cid (dnn_feature_columns a)) (num_experts a)) [dnn_input])
                  (fun g => Ok g)) as Hlogits.
  { destruct (0 <? len (gate_dnn_hidden_units a)) eqn:Hg.
    - rewrite value_bind; [| writer | intro; writer].
      rewrite (value_call_at _ _ _ _ _ _ (built_gate_dnn Hself Hg)
                 (nth_error_repeat _ _ _ Hi')).
      destruct (call ("gate_dnn", [i]) _ [dnn_input]) as [g|]; simpl; [|reflexivity].
      now rewrite (value_call_at _ _ _ _ _ _ Hfinal (nth_error_repeat _ _ _ Hi')).
    - now rewrite (value_call_at _ _ _ _ _ _ Hfinal (nth_error_repeat _ _ _ Hi')). }
  match type of Hlogits with
  | rbind ?x _ = rbind ?y _ =>
      assert (x = y) as -> by (destruct x, y; simpl in Hlogits; congruence)
  end.
  match goal with
  | |- rbind ?x _ = _ => destruct x as [g|]; simpl; [|reflexivity]
  end.
  rewrite value_bind; [| writer | intro; writer].
  unfold value at 1, lift. simpl.
  destruct (rbind (softmax g 1) (fun w => unsqueeze w 1)) as [weights|]; simpl;
    [|reflexivity].
  rewrite value_bind; [| writer | intro; writer].
  unfold value at 1, lift. simpl.
  destruct (torch_matmul weights expert_outs); reflexivity.
Qed.

End GateGeneric.

Section GateReal.

Import RealSem.
Local Open Scope R_scope.

(** *** Softmax is a distribution *)

Lemma sum_exp_pos (v : list R) : v <> [] -> 0 < sum (map exp v).
Proof.
  destruct v as [|x v]; [congruence|]. intros _. simpl.
  assert (0 <= sum (map exp v)) as Hv.
  { induction v as [|y v IH]; simpl; [lra|]. pose proof (exp_pos y). lra. }
  pose proof (exp_pos x). lra.
Qed.

Lemma sum_map_div (v : list R) (z : R) :
  sum (map (fun x => x / z) v) = sum v / z.
Proof.
  induction v as [|x v IH]; simpl; [unfold Rdiv; lra|]. rewrite IH. unfold Rdiv. lra.
Qed.

Lemma softmax_row_positive (v : list R) :
  v <> [] -> Forall (fun w => 0 < w) (softmax_row v).
Proof.
  intros Hv. unfold softmax_row. apply Forall_forall. intros w Hin.
  apply in_map_iff in Hin as (x & <- & _).
  apply Rdiv_lt_0_compat; [apply exp_pos | now apply sum_exp_pos].
Qed.

Lemma softmax_row_sum (v : list R) : v <> [] -> sum (softmax_row v) = 1.
Proof.
  intros Hv. unfold softmax_row.
  rewrite <- (map_map exp (fun y => y / sum (map exp v))), sum_map_div.
  pose proof (sum_exp_pos v Hv). unfold Rdiv. apply Rinv_r. lra.
Qed.

Lemma softmax_row_length (v : list R) : List.length (softmax_row v) = List.length v.
Proof. unfold softmax_row. apply length_map. Qed.

(** *** A row of weights times the expert outputs is their weighted sum *)

Lemma map2_map_seq {A B C} (f : A -> B -> C) (g : nat -> A) (h : nat -> B) (l : list nat) :
  map2 f (map g l) (map h l) = map (fun j => f (g j) (h j)) l.
Proof. induction l as [|j l IH]; simpl; [reflexivity | now rewrite IH]. Qed.

Lemma map_nth_seq (d : R) (v : list R) :
  map (fun j => nth j v d) (seq 0 (List.length v)) = v.
Proof.
  induction v as [|x v IH]; simpl; [reflexivity|].
  rewrite <- seq_shift, map_map. now rewrite IH.
Qed.

Lemma map_const_seq (x : R) (n s : nat) : map (fun _ => x) (seq s n) = repeat x n.
Proof. revert s. induction n as [|n IH]; intros s; simpl; [reflexivity | now rewrite IH]. Qed.

Lemma dot_nil_r (u : list R) : dot u [] = 0.
Proof. unfold dot. now destruct u. Qed.

Lemma dot_cons (x y : R) (u v : list R) : dot (x :: u) (y :: v) = x * y + dot u v.
Proof. reflexivity. Qed.

Lemma columns_weighted_sum (D : nat) (w : list R) (experts : list (list R)) :
  Forall (fun e => List.length e = D) experts ->
  map (fun j => dot w (column 0 j experts)) (seq 0 D) = weighted_sum D w experts.
Proof.
  intros Hall. revert w. induction Hall as [|e experts He _ IH]; intros w.
  - simpl. destruct w; simpl.
    + apply map_const_seq.
    + rewrite <- (map_const_seq 0 D 0%nat). apply map_ext. intros j. apply dot_nil_r.
  - destruct w as [|wj w]; simpl.
    + rewrite <- (map_const_seq 0 D 0%nat). apply map_ext. reflexivity.
    + rewrite <- IH, <- (map_nth_seq 0 e) at 1. rewrite He, map_map, map2_map_seq.
      apply map_ext. intros j. apply dot_cons.
Qed.

Lemma vecmat_weighted_sum (D : nat) (w : list R) (experts : list (list R)) :
  experts <> [] -> Forall (fun e => List.length e = D) experts ->
  vecmat w experts = weighted_sum D w experts.
Proof.
  intros Hne Hall. unfold vecmat.
  assert (ncols experts = D) as ->.
  { unfold ncols. destruct experts as [|e experts]; [congruence|].
    now apply Forall_inv in Hall. }
  now apply columns_weighted_sum.
Qed.

End GateReal.

Section Squeeze.

Import RealSem.
Local Open Scope R_scope.

Lemma concat_map_concat {A} (c : list (list (list A))) :
  concat (map (@concat A) c) = concat (concat c).
Proof.
  induction c as [|m c IH]; simpl; [reflexivity|]. now rewrite concat_app, IH.
Qed.

(** [squeeze()] keeps the entries and their order. *)
Lemma entries_squeeze (t t' : tensor) :
  squeeze_t t = Ok t' -> entries t' = entries t.
Proof.
  unfold squeeze_t, checked, ShapeSem.squeeze_shape, rbind.
  destruct t as [x|v|m|c]; unfold shape_of.
  - intros E. now injection E as <-.
  - destruct v as [|x [|y v]]; cbn; intros E; now injection E as <-.
  - destruct m as [|r [|r2 m]]; [| destruct r as [|x [|y r]] | destruct r as [|x [|y r]]];
      cbn; intros E; injection E as <-; cbn; rewrite ?app_nil_r; reflexivity.
  - destruct c as [|m [|m2 c]];
      [| destruct m as [|r [|r2 m]]; [| destruct r as [|x [|y r]] | destruct r as [|x [|y r]]]
       | destruct m as [|r [|r2 m]]; [| destruct r as [|x [|y r]] | destruct r as [|x [|y r]]]];
      cbn -[concat]; intros E; injection E as <-; cbn [entries].
  all: try reflexivity.
  all: try apply concat_map_concat.
  all: try (cbn; rewrite ?app_nil_r; reflexivity).
  all: rewrite <- concat_map_concat; cbn; rewrite ?app_nil_r; reflexivity.
Qed.

End Squeeze.

Section GateMixture.

Import RealSem.
Local Open Scope R_scope.

Lemma stretch_eq {A} (d : A) (l : list A) (n : nat) :
  List.length l = n -> stretch d l n = l.
Proof. intros <-. apply stretch_same. Qed.

Lemma map2_mm_rows (W : list (list R)) (EO : list (list (list R))) :
  map2 mm (map (fun row => [row]) W) EO
  = map2 (fun w experts => [vecmat w experts]) W EO.
Proof.
  revert EO. induction W as [|w W IH]; intros [|eo EO]; simpl; try reflexivity.
  now rewrite IH.
Qed.

Lemma map2_map_l {A A' B C} (f : A' -> B -> C) (g : A -> A') (l : list A) (l' : list B) :
  map2 f (map g l) l' = map2 (fun x y => f (g x) y) l l'.
Proof.
  revert l'. induction l as [|x l IH]; intros [|y l']; simpl; try reflexivity.
  now rewrite IH.
Qed.

Lemma concat_map2_singleton {A B} (f : A -> B -> list R) (l : list A) (l' : list B) :
  concat (concat (map2 (fun x y => [f x y]) l l')) = concat (map2 f l l').
Proof.
  revert l'. induction l as [|x l IH]; intros [|y l']; simpl; try reflexivity.
  now rewrite IH.
Qed.

(** Lines 174 (175): [softmax(1)], [unsqueeze(1)] and [matmul] on the
    logits [G] of shape [(b, E)] and the expert outputs [EO] of shape
    [(b, E, D)] give, for every row of the batch, the row of gate weights
    times the matrix of expert outputs. *)
Lemma gate_mul_expert (G : list (list R)) (EO : list (list (list R))) (E : nat) :
  G <> [] -> List.length (hd [] G) = E ->
  List.length EO = List.length G -> List.length (hd [] EO) = E ->
  rbind (rbind (softmax_t (T2 G) 1) (fun w => unsqueeze_t w 1))
        (fun weights => matmul weights (T3 EO))
  = Ok (T3 (map2 (fun g experts => [vecmat (softmax_row g) experts]) G EO)).
Proof.
  intros HG HE Hb HEO.
  destruct G as [|g G]; [congruence|]. destruct EO as [|eo EO]; [discriminate|].
  cbn [hd] in HE, HEO. simpl in Hb. injection Hb as Hb.
  unfold softmax_t, checked. cbn [shape_of ShapeSem.softmax_shape]. simpl rbind.
  unfold unsqueeze_t, checked. cbn [shape_of ShapeSem.unsqueeze_shape]. simpl rbind.
  unfold matmul, checked, shape_of. cbn [map hd List.length].
  rewrite softmax_row_length, !length_map, HE, HEO, Hb.
  unfold ShapeSem.matmul. cbn [rev app]. rewrite Nat.eqb_refl.
  cbn [ShapeSem.broadcast_rev rbind]. rewrite Nat.eqb_refl. cbn [rbind rev app hd].
  rewrite !stretch_eq by (simpl; now rewrite ?length_map, ?Hb).
  f_equal. f_equal.
  change ([softmax_row g] :: map (fun row => [row]) (map softmax_row G))
    with (map (fun row => [row]) (map softmax_row (g :: G))).
  rewrite map2_mm_rows, map2_map_l. reflexivity.
Qed.

End GateMixture.

Section GateWeights.

Import RealSem.
Local Open Scope R_scope.

Lemma rbind_assoc {A B C} (r : result A) (f : A -> result B) (g : B -> result C) :
  rbind (rbind r f) g = rbind r (fun x => rbind (f x) g).
Proof. now destruct r. Qed.

Lemma squeeze_t_total (t : tensor) : exists t', squeeze_t t = Ok t'.
Proof.
  unfold squeeze_t, checked, ShapeSem.squeeze_shape, rbind.
  destruct (filter _ _) as [|? [|? [|? ?]]]; destruct t;
    try destruct (_ =? _)%nat; eexists; reflexivity.
Qed.



End GateWeights.

Section GateWitness.

Import RealSem.
Local Open Scope R_scope.

(** A linear layer with zero weights on a batch. *)
Lemma linear_zeros_rows (i o : Z) (n k : nat) (rows : list (list R)) :
  rows <> [] -> Z.of_nat (List.length (hd [] rows)) = i ->
  linear i o (DemoReal.zeros n k) (T2 rows) = Ok (T2 (map (fun _ => repeat 0 n) rows)).
Proof.
  intros Hne Hi. destruct rows as [|row rows]; [congruence|].
  unfold linear, checked, shape_of, ShapeSem.linear_shape. cbn [hd rev app List.length].
  cbn [hd] in Hi. rewrite Hi, Z.eqb_refl. cbn [rbind]. do 2 f_equal.
  apply map_ext. intros x. apply linear_row_zeros.
Qed.

(** With zero weights, the gate logits of the concrete model are zero. *)
Lemma demo_gate_logits (i : nat) (rows : list (list R)) :
  rows <> [] -> List.length (hd [] rows) = 9%nat ->
  gate_logits (H:=DemoReal.reals) Demo.compute_input_dim (Demo.args [64%Z] "sota") i
              (T2 rows)
  = Ok (T2 (map (fun _ => [0; 0; 0]) rows)).
Proof.
  intros Hne Hlen. unfold gate_logits.
  change (0 <? len (gate_dnn_hidden_units (Demo.args [64%Z] "sota")))%Z with true.
  cbv iota.
  change (call (Torch:=DemoReal.reals) ("gate_dnn", [i])
            (DNN (Demo.compute_input_dim (dnn_feature_columns (Demo.args [64%Z] "sota")))
                 (gate_dnn_hidden_units (Demo.args [64%Z] "sota"))) [T2 rows])
    with (linear 9 64 (DemoReal.zeros 64 9) (T2 rows)).
  rewrite linear_zeros_rows by (try assumption; now rewrite Hlen). cbn [rbind].
  change (call (Torch:=DemoReal.reals) ("gate_dnn_final_layer", [i])
            (Linear (last_unit (gate_dnn_hidden_units (Demo.args [64%Z] "sota")))
                    (num_experts (Demo.args [64%Z] "sota")))
            [T2 (map (fun _ => repeat 0 64) rows)])
    with (linear 64 3 (DemoReal.zeros 3 64) (T2 (map (fun _ => repeat 0 64) rows))).
  rewrite linear_zeros_rows.
  - now rewrite map_map.
  - destruct rows; [congruence | discriminate].
  - destruct rows; [congruence | reflexivity].
Qed.


End GateWitness.

(** ** C9: the bounds of the domain embedding table *)

Section DomainIds.

Import RealSem.
Local Open Scope R_scope.

Lemma Rtrunc_IZR (k : Z) : Rtrunc (IZR k) = k.
Proof.
  unfold Rtrunc. destruct (Rle_dec 0 (IZR k)) as [_|_].
  - symmetry. apply Int_part_spec. lra.
  - rewrite <- opp_IZR. rewrite <- (Int_part_spec (IZR (- k)) (- k)) by lra. lia.
Qed.

Lemma Rtrunc_half_neg : Rtrunc (- (1 / 2)) = 0%Z.
Proof.
  unfold Rtrunc. destruct (Rle_dec 0 (- (1 / 2))) as [H|_]; [lra|].
  rewrite <- (Int_part_spec (- - (1 / 2)) 0) by (simpl; lra). reflexivity.
Qed.

Lemma mapR_ok_iff {A B} (f : A -> result B) (l : list A) :
  is_ok (mapR f l) = true <-> Forall (fun x => is_ok (f x) = true) l.
Proof.
  induction l as [|x l IH]; simpl; [split; [constructor | reflexivity]|].
  destruct (f x) as [y|e] eqn:Ex; simpl.
  - destruct (mapR f l) as [ys|e]; simpl.
    + split; [|reflexivity]. intros _. constructor; [now rewrite Ex | now apply IH].
    + split; [discriminate|]. intros Hall. apply Forall_inv_tail in Hall.
      now apply IH in Hall.
  - split; [discriminate|]. intros Hall. apply Forall_inv in Hall.
    rewrite Ex in Hall. discriminate.
Qed.

Lemma mapR_error_kind {A B} (f : A -> result B) (l : list A) :
  (forall x, is_ok (f x) = false -> is_IndexError (f x) = true) ->
  is_ok (mapR f l) = false -> is_IndexError (mapR f l) = true.
Proof.
  intros Hf. induction l as [|x l IH]; simpl; [discriminate|].
  destruct (f x) as [y|e] eqn:Ex; simpl.
  - destruct (mapR f l) as [ys|e]; simpl; [discriminate|]. intros _. now apply IH.
  - intros _. specialize (Hf x). rewrite Ex in Hf. now apply Hf.
Qed.

Lemma embedding_row_ok (table : list (list R)) (id : R) :
  is_ok (embedding_row table id) = true <-> (0 <= Rtrunc id < len table)%Z.
Proof.
  unfold embedding_row.
  destruct (Z.leb_spec 0 (Rtrunc id)), (Z.ltb_spec (Rtrunc id) (len table)); simpl;
    split; try discriminate; try reflexivity; lia.
Qed.

Lemma embedding_row_error (table : list (list R)) (id : R) :
  is_ok (embedding_row table id) = false -> is_IndexError (embedding_row table id) = true.
Proof. unfold embedding_row. now destruct (_ && _). Qed.

Variable weight : mpath -> list (list R).
Variable external : mpath -> nn_Module -> list tensor -> result tensor.

(** Lines 179-180 on a batch [X] of shape [(b, F)]. *)
Lemma value_forward_domain_emb self idx c c' (j j' : nat) n d (rows : list (list R)) :
  lookup "feature_index" self = Some (AIndex idx) ->
  lookup "domain_column" self = Some (APy (PyStr c)) ->
  find (fun kv => String.eqb c (fst kv)) idx = Some (c', (j, j')) ->
  lookup "domain_embeddings" self = Some (AModule (Embedding n d)) ->
  (j < List.length (hd [] rows))%nat ->
  value (forward_domain_emb (H:=torch_real weight external) self (T2 rows))
  = rbind (mapR (embedding_row (weight ("domain_embeddings", [])))
                (map (fun row => IZR (Rtrunc (nth j row 0))) rows))
          (fun looked_up => Ok (T2 looked_up)).
Proof.
  intros Hidx Hc Hfind Hemb Hj.
  unfold value, forward_domain_emb, domain_column_index, bind, self_get, lift,
    getattr_of, call_module, log.
  rewrite Hidx, Hc. simpl. rewrite Hfind. simpl.
  unfold select_column_t, checked, shape_of, ShapeSem.select_column_shape.
  apply Nat.ltb_lt in Hj. rewrite Hj. simpl. rewrite Hemb. simpl.
  unfold column. now rewrite map_map.
Qed.

End DomainIds.

Section DomainTable.

Import RealSem.
Local Open Scope R_scope.

(** C9.  The constructor declares the domain embedding table with
    [num_domains + 1] rows.  For a table of that many rows and a batch [X]
    of shape [(b, F)] that has the domain column, the lookup of lines
    179-180 returns exactly when, in every row, the value of the domain
    column truncated to an integer lies in [[0, num_domains]], and raises
    [IndexError] otherwise; in particular the id [num_domains] is accepted
    and the id [num_domains + 1] is not. *)
Theorem C9_domain_ids_in_bounds
    (weight : mpath -> list (list R))
    (external : mpath -> nn_Module -> list tensor -> result tensor)
    cid (a : Args) (s self : attrs) idx c c' (j j' : nat) :
  MMOE_MT.init cid a s = (Ok tt, self) \/ MMOE_MT_ATT.init cid a s = (Ok tt, self) ->
  lookup "feature_index" s = Some (AIndex idx) ->
  domain_column a = PyStr c ->
  find (fun kv => String.eqb c (fst kv)) idx = Some (c', (j, j')) ->
  len (weight ("domain_embeddings", [])) = (num_domains a + 1)%Z ->
  let lookup_of X := value (forward_domain_emb (H:=torch_real weight external) self X) in
  (exists e_size,
     lookup "domain_embeddings" self
     = Some (AModule (Embedding (num_domains a + 1) e_size))) /\
  (forall rows, (j < List.length (hd [] rows))%nat ->
     (is_ok (lookup_of (T2 rows)) = true <->
      Forall (fun row => (0 <= Rtrunc (nth j row 0%R) <= num_domains a)%Z) rows) /\
     (is_ok (lookup_of (T2 rows)) = false -> is_IndexError (lookup_of (T2 rows)) = true)) /\
  (forall row, (j < List.length row)%nat -> (0 <= num_domains a)%Z ->
     nth j row 0 = IZR (num_domains a) -> is_ok (lookup_of (T2 [row])) = true) /\
  (forall row, (j < List.length row)%nat ->
     nth j row 0 = IZR (num_domains a + 1) -> is_IndexError (lookup_of (T2 [row])) = true).
Proof.
  intros Hinit Hidx Hc Hfind Htable lookup_of.
  apply init_constructed in Hinit
    as (_ & _ & _ & usetrans & e_dim & e_size & _ & _ & _ & Hself).
  assert (lookup "feature_index" self = Some (AIndex idx)) as Hidx'.
  { rewrite (built_frame "feature_index" Hself); [assumption|].
    unfold assigned_attributes, layer_attributes. simpl. intuition discriminate. }
  pose proof (built_domain_column Hself) as Hc'. rewrite Hc in Hc'.
  pose proof (built_domain_embeddings Hself) as Hemb.
  assert (forall rows, (j < List.length (hd [] rows))%nat ->
            lookup_of (T2 rows)
            = rbind (mapR (embedding_row (weight ("domain_embeddings", [])))
                          (map (fun row => IZR (Rtrunc (nth j row 0))) rows))
                    (fun looked_up => Ok (T2 looked_up))) as Hval.
  { intros rows Hj. unfold lookup_of.
    now apply (value_forward_domain_emb weight external self idx c c' j j'
                 (num_domains a + 1)%Z e_size rows). }
  assert (forall rows, (j < List.length (hd [] rows))%nat ->
     (is_ok (lookup_of (T2 rows)) = true <->
      Forall (fun row => (0 <= Rtrunc (nth j row 0%R) <= num_domains a)%Z) rows) /\
     (is_ok (lookup_of (T2 rows)) = false -> is_IndexError (lookup_of (T2 rows)) = true))
    as Hrows.
  { intros rows Hj. rewrite (Hval rows Hj).
    set (ids := map (fun row => IZR (Rtrunc (nth j row 0))) rows).
    assert (is_ok (rbind (mapR (embedding_row (weight ("domain_embeddings", []))) ids)
                         (fun looked_up => Ok (T2 looked_up)))
            = is_ok (mapR (embedding_row (weight ("domain_embeddings", []))) ids)) as ->
      by now destruct (mapR _ ids).
    split.
    - rewrite mapR_ok_iff. unfold ids. rewrite Forall_map.
      split; intros Hall; (eapply Forall_impl; [|exact Hall]); cbv beta; intros row Hrow.
      + apply embedding_row_ok in Hrow. rewrite Rtrunc_IZR, Htable in Hrow. lia.
      + apply embedding_row_ok. rewrite Rtrunc_IZR, Htable. lia.
    - intros Hfail.
      pose proof (mapR_error_kind (embedding_row (weight ("domain_embeddings", []))) ids
                    (embedding_row_error _) Hfail) as Hkind.
      now destruct (mapR _ ids). }
  split; [now exists e_size|]. split; [exact Hrows|]. split.
  - intros row Hj Hnd Hid. apply (Hrows [row] Hj). constructor; [|constructor].
    rewrite Hid, Rtrunc_IZR. lia.
  - intros row Hj Hid. destruct (is_ok (lookup_of (T2 [row]))) eqn:Hok.
    + apply (proj1 (Hrows [row] Hj)) in Hok. apply Forall_inv in Hok.
      rewrite Hid, Rtrunc_IZR in Hok. lia.
    + now apply (proj2 (Hrows [row] Hj)).
Qed.

(** C9 on the concrete model: three domains, a table of four rows, the
    domain column at position 1. *)
Lemma C9_domain_ids_in_bounds_witness :
  let lookup_of X :=
    value (forward_domain_emb (H:=DemoReal.reals) (Demo.mmoe_mt [64%Z] "sota") X) in
  (exists e_size,
     lookup "domain_embeddings" (Demo.mmoe_mt [64%Z] "sota")
     = Some (AModule (Embedding (3 + 1) e_size))) /\
  (forall rows, (1 < List.length (hd [] rows))%nat ->
     (is_ok (lookup_of (T2 rows)) = true <->
      Forall (fun row => (0 <= Rtrunc (nth 1 row 0%R) <= 3)%Z) rows) /\
     (is_ok (lookup_of (T2 rows)) = false -> is_IndexError (lookup_of (T2 rows)) = true)) /\
  (forall row, (1 < List.length row)%nat -> (0 <= 3)%Z ->
     nth 1 row 0 = IZR 3 -> is_ok (lookup_of (T2 [row])) = true) /\
  (forall row, (1 < List.length row)%nat ->
     nth 1 row 0 = IZR (3 + 1) -> is_IndexError (lookup_of (T2 [row])) = true).
Proof.
  apply (C9_domain_ids_in_bounds DemoReal.weight DemoReal.external
           Demo.compute_input_dim (Demo.args [64%Z] "sota") Demo.base
           (Demo.mmoe_mt [64%Z] "sota")
           [("user", (0, 1)%nat); ("301", (1, 2)%nat); ("price", (2, 3)%nat)]
           "301" "301" 1 2).
  - left. reflexivity.
  - reflexivity.
  - reflexivity.
  - reflexivity.
  - reflexivity.
Defined.

End DomainTable.

(** ** The shape of the output, in general *)

Section ShapeBlocks.

Import ShapeSem.
Local Open Scope nat_scope.

Variable sat : nn_Module -> list shape -> result shape.
Let shapes : Torch shape := torch_shape sat.











End ShapeBlocks.

Section ShapeForward.

Import ShapeSem.
Local Open Scope nat_scope.

Variable sat : nn_Module -> list shape -> result shape.
Let shapes : Torch shape := torch_shape sat.

Context {cid : list FeatureColumn -> Z} {a : Args} {usetrans : bool}
        {e_dim e_size : Z} {s self : attrs}.
Hypothesis Hself : constructed cid a usetrans e_dim e_size s self.
Hypothesis Hchk : check_result (len (task_names a)) a = Ok tt.

Let nt : nat := Z.to_nat (len (task_names a)).
Let E : nat := Z.to_nat (num_experts a).















End ShapeForward.

(* ===================================================================== *)
(** ** [filter_feature_columns] *)
(* ===================================================================== *)

Lemma filter_feature_columns_kept (cols : list FeatureColumn) (c : pyval) :
  c <> PyNone ->
  exists kept,
    filter_feature_columns cols c = Ok kept /\
    forall feat, In feat kept <-> In feat cols /\ named_in c feat = false.
Proof.
  intros Hc. eexists. split; [now apply filter_feature_columns_filter|].
  intros feat. rewrite filter_In, negb_true_iff. reflexivity.
Qed.

(** X1.  [filter_feature_columns] with a string as [filtered_col_names]
    applies Python's substring test: it returns, and keeps exactly the
    columns whose name does not occur anywhere inside that string.  A
    column named '30', or '', goes along with the column '301'. *)
Theorem filter_by_string_drops_substrings (cols : list FeatureColumn) (c : string) :
  exists kept,
    filter_feature_columns cols (PyStr c) = Ok kept /\
    forall feat,
      In feat kept <->
      In feat cols /\ ~ exists pre post, c = (pre ++ name feat ++ post)%string.
Proof.
  destruct (filter_feature_columns_kept cols (PyStr c)) as (kept & E & Hin);
    [discriminate|].
  exists kept. split; [exact E|]. intros feat. rewrite Hin.
  unfold named_in, py_in. rewrite <- str_contains_occurs.
  destruct (str_contains (name feat) c); intuition congruence.
Qed.

(** X2.  With a list (or tuple) of names the test is membership: the
    method returns, and keeps exactly the columns whose name is not an
    element of the list. *)
Theorem filter_by_list_drops_members (cols : list FeatureColumn) (l : list string) :
  exists kept,
    filter_feature_columns cols (PyStrs l) = Ok kept /\
    forall feat, In feat kept <-> In feat cols /\ ~ In (name feat) l.
Proof.
  destruct (filter_feature_columns_kept cols (PyStrs l)) as (kept & E & Hin);
    [discriminate|].
  exists kept. split; [exact E|]. intros feat. rewrite Hin.
  unfold named_in, py_in.
  assert (existsb (String.eqb (name feat)) l = true <-> In (name feat) l) as Hex.
  { rewrite existsb_exists. split.
    - intros (x & Hx & Heq). apply String.eqb_eq in Heq. now subst.
    - intros Hx. exists (name feat). split; [assumption | apply String.eqb_refl]. }
  destruct (existsb (String.eqb (name feat)) l); intuition congruence.
Qed.

(* ===================================================================== *)
(** ** More on the constructors *)
(* ===================================================================== *)

Lemma init_domain_None (a : Args) (s : attrs) :
  domain_column a = PyNone -> domain_id_as_feature a = false ->
  dnn_feature_columns a <> [] ->
  init_domain a s = (Raise none_not_iterable, s).
Proof.
  intros Hc Hd Hne. unfold init_domain. rewrite Hd, Hc.
  destruct (dnn_feature_columns a) as [|feat cols]; [congruence|]. reflexivity.
Qed.

(** The constructors on [domain_column=None] with
    [domain_id_as_feature=False]. *)
Lemma init_domain_column_None cid (a : Args) (s : attrs) :
  domain_column a = PyNone -> domain_id_as_feature a = false ->
  fst (MMOE_MT.init cid a s) <> Ok tt /\
  fst (MMOE_MT_ATT.init cid a s) <> Ok tt /\
  forall s1, init_common cid a s = (Ok tt, s1) ->
             MMOE_MT.init cid a s = (Raise none_not_iterable, s1) /\
             MMOE_MT_ATT.init cid a s = (Raise none_not_iterable, s1).
Proof.
  intros Hc Hd.
  assert (forall s1, init_common cid a s = (Ok tt, s1) ->
                     MMOE_MT.init cid a s = (Raise none_not_iterable, s1) /\
                     MMOE_MT_ATT.init cid a s = (Raise none_not_iterable, s1)) as Hlate.
  { intros s1 E. pose proof E as Hchk. apply init_common_ok in Hchk as (Hchk & _).
    apply check_result_ok_iff in Hchk as (_ & _ & Hne & _).
    unfold MMOE_MT.init, MMOE_MT_ATT.init. rewrite !(bind_ok _ _ _ _ _ E).
    split; apply bind_raise; now apply init_domain_None. }
  split; [|split; [|exact Hlate]].
  - destruct (MMOE_MT.init cid a s) as [[[]|e] self] eqn:E; [|discriminate].
    pose proof E as E'. unfold MMOE_MT.init in E'.
    apply bind_ok_inv in E' as ([] & s1 & Ec & _).
    destruct (Hlate s1 Ec) as [C _]. congruence.
  - destruct (MMOE_MT_ATT.init cid a s) as [[[]|e] self] eqn:E; [|discriminate].
    pose proof E as E'. unfold MMOE_MT_ATT.init in E'.
    apply bind_ok_inv in E' as ([] & s1 & Ec & _).
    destruct (Hlate s1 Ec) as [_ C]. congruence.
Qed.

(** X3.  [domain_column=None] together with [domain_id_as_feature=False]
    (the defaults of both) never yields a model: when the lines before
    the [#domain] part have run, [filter_feature_columns] evaluates
    [feat.name not in None] and the constructor ends in that [TypeError],
    the layers of lines 78-114 already assigned. *)
Theorem domain_column_None_is_rejected cid (a : Args) (s : attrs) :
  domain_column a = PyNone -> domain_id_as_feature a = false ->
  fst (MMOE_MT.init cid a s) <> Ok tt /\
  fst (MMOE_MT_ATT.init cid a s) <> Ok tt /\
  forall s1, init_common cid a s = (Ok tt, s1) ->
             MMOE_MT.init cid a s = (Raise none_not_iterable, s1) /\
             MMOE_MT_ATT.init cid a s = (Raise none_not_iterable, s1).
Proof. exact (init_domain_column_None cid a s). Qed.

Lemma domain_column_None_is_rejected_witness :
  let a' := {| dnn_feature_columns := Demo.cols;
               num_domains := 3; num_experts := 3;
               expert_dnn_hidden_units := [256; 128];
               gate_dnn_hidden_units := [64];
               tower_dnn_hidden_units := [64];
               task_types := ["binary"; "binary"];
               task_names := ["ctr"; "ctcvr"];
               domain_column := PyNone;
               flag := PyStr "sota";
               domain_id_as_feature := false |} in
  fst (MMOE_MT.init Demo.compute_input_dim a' Demo.base) <> Ok tt /\
  fst (MMOE_MT_ATT.init Demo.compute_input_dim a' Demo.base) <> Ok tt /\
  MMOE_MT.init Demo.compute_input_dim a' Demo.base
  = (Raise none_not_iterable, snd (init_common Demo.compute_input_dim a' Demo.base)) /\
  MMOE_MT_ATT.init Demo.compute_input_dim a' Demo.base
  = (Raise none_not_iterable, snd (init_common Demo.compute_input_dim a' Demo.base)).
Proof.
  cbv zeta.
  match goal with |- fst (MMOE_MT.init _ ?a _) <> _ /\ _ =>
    destruct (domain_column_None_is_rejected Demo.compute_input_dim a Demo.base)
      as (H1 & H2 & H3)
  end.
  - reflexivity.
  - reflexivity.
  - split; [exact H1|]. split; [exact H2|]. apply H3. reflexivity.
Defined.

Lemma bind_same_start {S A B} (c c' : M S A) (k : A -> M S B) s :
  c s = c' s -> bind c k s = bind c' k s.
Proof. unfold bind. now intros ->. Qed.

Lemma init_common_with cid b (a : Args) :
  init_common cid (with_domain_id_as_feature b a) = init_common cid a.
Proof. reflexivity. Qed.

Lemma init_domain_with b (a : Args) (s : attrs) :
  domain_column a <> PyNone ->
  init_domain (with_domain_id_as_feature b a) s = init_domain a s.
Proof.
  intros Hc. unfold init_domain, with_domain_id_as_feature. cbn [domain_id_as_feature
    dnn_feature_columns domain_column num_domains].
  rewrite (filter_feature_columns_filter _ _ Hc).
  unfold get, getattr, lift, ret, setattr, bind.
  destruct b, (domain_id_as_feature a); try reflexivity;
    (destruct (getattr_of s "embedding_dict") as [v|]; [|reflexivity]);
    destruct (as_embdict v); reflexivity.
Qed.

(** X4.  [domain_id_as_feature] is inert.  For a [domain_column] other
    than [None] either constructor ends in the same way, with the same
    object, whatever the value of the argument: the two branches of lines
    122-126 assign local names only.  For any [domain_column], a model
    built with [domain_id_as_feature=False] is the model built with
    [True]. *)
Theorem domain_id_as_feature_is_inert cid (a : Args) (s : attrs) :
  (domain_column a <> PyNone ->
   forall b,
     MMOE_MT.init cid (with_domain_id_as_feature b a) s = MMOE_MT.init cid a s /\
     MMOE_MT_ATT.init cid (with_domain_id_as_feature b a) s = MMOE_MT_ATT.init cid a s) /\
  (forall self,
     (MMOE_MT.init cid (with_domain_id_as_feature false a) s = (Ok tt, self) ->
      MMOE_MT.init cid (with_domain_id_as_feature true a) s = (Ok tt, self)) /\
     (MMOE_MT_ATT.init cid (with_domain_id_as_feature false a) s = (Ok tt, self) ->
      MMOE_MT_ATT.init cid (with_domain_id_as_feature true a) s = (Ok tt, self))).
Proof.
  assert (domain_column a <> PyNone ->
          forall b,
            MMOE_MT.init cid (with_domain_id_as_feature b a) s = MMOE_MT.init cid a s /\
            MMOE_MT_ATT.init cid (with_domain_id_as_feature b a) s
            = MMOE_MT_ATT.init cid a s) as Hsame.
  { intros Hc b. unfold MMOE_MT.init, MMOE_MT_ATT.init. rewrite init_common_with.
    destruct (init_common cid a s) as [[[]|e] s1] eqn:E.
    - split.
      + rewrite (bind_ok _ _ s tt s1 E). symmetry. rewrite (bind_ok _ _ s tt s1 E).
        symmetry. apply bind_same_start, init_domain_with, Hc.
      + rewrite (bind_ok _ _ s tt s1 E). symmetry. rewrite (bind_ok _ _ s tt s1 E).
        symmetry. apply bind_same_start, init_domain_with, Hc.
    - split; rewrite !(bind_raise _ _ s e s1 E); reflexivity. }
  split; [exact Hsame|].
  intros self.
  destruct (domain_column a) as [|c|l] eqn:Hc.
  - pose proof (init_domain_column_None cid (with_domain_id_as_feature false a) s
                  Hc eq_refl) as (C1 & C2 & _).
    split; intros E; [rewrite E in C1 | rewrite E in C2]; now contradiction.
  - assert (domain_column (with_domain_id_as_feature false a) <> PyNone) as Hc'
      by (simpl; congruence).
    destruct (Hsame ltac:(congruence) true) as [E1 E2].
    destruct (Hsame ltac:(congruence) false) as [F1 F2].
    split; intros E; congruence.
  - destruct (Hsame ltac:(congruence) true) as [E1 E2].
    destruct (Hsame ltac:(congruence) false) as [F1 F2].
    split; intros E; congruence.
Qed.

Lemma domain_id_as_feature_is_inert_witness :
  MMOE_MT.init Demo.compute_input_dim
    (with_domain_id_as_feature true (Demo.args [64] "sota")) Demo.base
  = MMOE_MT.init Demo.compute_input_dim (Demo.args [64] "sota") Demo.base /\
  MMOE_MT_ATT.init Demo.compute_input_dim
    (with_domain_id_as_feature true (Demo.args [64] "sota")) Demo.base
  = MMOE_MT_ATT.init Demo.compute_input_dim (Demo.args [64] "sota") Demo.base.
Proof.
  refine (proj1 (domain_id_as_feature_is_inert Demo.compute_input_dim
                   (Demo.args [64] "sota") Demo.base) _ true).
  discriminate.
Defined.

(** X5.  An empty [expert_dnn_hidden_units], which the docstring allows,
    is accepted by neither constructor: no choice of the other arguments
    makes [__init__] return. *)
Theorem empty_expert_units_never_construct cid (a : Args) (s : attrs) :
  expert_dnn_hidden_units a = [] ->
  fst (MMOE_MT.init cid a s) <> Ok tt /\ fst (MMOE_MT_ATT.init cid a s) <> Ok tt.
Proof.
  intros Hex. split.
  - destruct (MMOE_MT.init cid a s) as [[[]|e] self] eqn:E; [|discriminate].
    apply MMOE_MT_init_ok in E as (_ & C & _). contradiction.
  - destruct (MMOE_MT_ATT.init cid a s) as [[[]|e] self] eqn:E; [|discriminate].
    apply MMOE_MT_ATT_init_ok in E as (_ & C & _). contradiction.
Qed.

Lemma empty_expert_units_never_construct_witness :
  let a := {| dnn_feature_columns := Demo.cols;
              num_domains := 3; num_experts := 3;
              expert_dnn_hidden_units := [];
              gate_dnn_hidden_units := [64];
              tower_dnn_hidden_units := [64];
              task_types := ["binary"; "binary"];
              task_names := ["ctr"; "ctcvr"];
              domain_column := PyStr "301";
              flag := PyStr "sota";
              domain_id_as_feature := false |} in
  fst (MMOE_MT.init Demo.compute_input_dim a Demo.base) <> Ok tt /\
  fst (MMOE_MT_ATT.init Demo.compute_input_dim a Demo.base) <> Ok tt.
Proof.
  cbv zeta. apply empty_expert_units_never_construct. reflexivity.
Defined.

Lemma find_first_illegal (pre post : list string) (t : string) :
  Forall (fun t => legal_task_type t = true) pre -> legal_task_type t = false ->
  find (fun t => negb (legal_task_type t)) (pre ++ t :: post) = Some t.
Proof.
  intros Hpre Ht. induction Hpre as [|x pre Hx _ IH]; simpl.
  - now rewrite Ht.
  - now rewrite Hx.
Qed.

(** X6.  The checks of lines 59-70 are made in the order in which they are
    written and the first one that fails decides the exception: the task
    count before the expert count, that before the test for an empty
    column list, that before the comparison of the two lengths, and only
    then the task types, of which the first illegal one is named in the
    message. *)
Theorem validation_reports_first_failure cid (a : Args) (s : attrs) (e : pyexn) :
  (len (task_names a) <= 1 /\
   e = ValueError "num_tasks must be greater than 1") \/
  (1 < len (task_names a) /\ num_experts a <= 1 /\
   e = ValueError "num_experts must be greater than 1") \/
  (1 < len (task_names a) /\ 1 < num_experts a /\ dnn_feature_columns a = [] /\
   e = ValueError "dnn_feature_columns is null!") \/
  (1 < len (task_names a) /\ 1 < num_experts a /\ dnn_feature_columns a <> [] /\
   len (task_types a) <> len (task_names a) /\
   e = ValueError "num_tasks must be equal to the length of task_types") \/
  (1 < len (task_names a) /\ 1 < num_experts a /\ dnn_feature_columns a <> [] /\
   len (task_types a) = len (task_names a) /\
   exists pre t post,
     task_types a = pre ++ t :: post /\
     Forall (fun t => legal_task_type t = true) pre /\ legal_task_type t = false /\
     e = ValueError ("task must be binary or regression, " ++ t ++ " is illegal")) ->
  fst (MMOE_MT.init cid a s) = Raise e /\ fst (MMOE_MT_ATT.init cid a s) = Raise e.
Proof.
  intros Hcase.
  assert (check_result (len (task_names a)) a = Raise e) as Hchk.
  { unfold check_result.
    destruct Hcase as [(H1 & ->) | [(H1 & H2 & ->) | [(H1 & H2 & H3 & ->) |
                       [(H1 & H2 & H3 & H4 & ->) | (H1 & H2 & H3 & H4 & Hty)]]]].
    - destruct (Z.leb_spec (len (task_names a)) 1); [reflexivity | lia].
    - destruct (Z.leb_spec (len (task_names a)) 1); [lia|].
      destruct (Z.leb_spec (num_experts a) 1); [reflexivity | lia].
    - destruct (Z.leb_spec (len (task_names a)) 1); [lia|].
      destruct (Z.leb_spec (num_experts a) 1); [lia|].
      now rewrite H3.
    - destruct (Z.leb_spec (len (task_names a)) 1); [lia|].
      destruct (Z.leb_spec (num_experts a) 1); [lia|].
      destruct (Z.eqb_spec (len (dnn_feature_columns a)) 0) as [E0|_].
      { unfold len in E0. destruct (dnn_feature_columns a); [congruence | simpl in E0; lia]. }
      destruct (Z.eqb_spec (len (task_types a)) (len (task_names a))); [contradiction|].
      reflexivity.
    - destruct Hty as (pre & t & post & Hty & Hpre & Ht & ->).
      destruct (Z.leb_spec (len (task_names a)) 1); [lia|].
      destruct (Z.leb_spec (num_experts a) 1); [lia|].
      destruct (Z.eqb_spec (len (dnn_feature_columns a)) 0) as [E0|_].
      { unfold len in E0. destruct (dnn_feature_columns a); [congruence | simpl in E0; lia]. }
      destruct (Z.eqb_spec (len (task_types a)) (len (task_names a))); [|contradiction].
      cbn [negb]. rewrite Hty. now rewrite (find_first_illegal pre post t Hpre Ht). }
  destruct (init_rejects cid a s e Hchk) as [E1 E2]. now rewrite E1, E2.
Qed.

Lemma validation_reports_first_failure_witness :
  let a := {| dnn_feature_columns := Demo.cols;
              num_domains := 3; num_experts := 1;
              expert_dnn_hidden_units := [256; 128];
              gate_dnn_hidden_units := [64];
              tower_dnn_hidden_units := [64];
              task_types := ["binary"; "ranking"; "softmax"];
              task_names := ["ctr"; "ctcvr"; "like"];
              domain_column := PyStr "301";
              flag := PyStr "sota";
              domain_id_as_feature := false |} in
  let a' := {| dnn_feature_columns := Demo.cols;
               num_domains := 3; num_experts := 3;
               expert_dnn_hidden_units := [256; 128];
               gate_dnn_hidden_units := [64];
               tower_dnn_hidden_units := [64];
               task_types := ["binary"; "ranking"; "softmax"];
               task_names := ["ctr"; "ctcvr"; "like"];
               domain_column := PyStr "301";
               flag := PyStr "sota";
               domain_id_as_feature := false |} in
  (fst (MMOE_MT.init Demo.compute_input_dim a Demo.base)
   = Raise (ValueError "num_experts must be greater than 1") /\
   fst (MMOE_MT_ATT.init Demo.compute_input_dim a Demo.base)
   = Raise (ValueError "num_experts must be greater than 1")) /\
  (fst (MMOE_MT.init Demo.compute_input_dim a' Demo.base)
   = Raise (ValueError "task must be binary or regression, ranking is illegal") /\
   fst (MMOE_MT_ATT.init Demo.compute_input_dim a' Demo.base)
   = Raise (ValueError "task must be binary or regression, ranking is illegal")).
Proof.
  cbv zeta. split.
  - apply validation_reports_first_failure.
    right; left. repeat split; simpl; lia.
  - apply validation_reports_first_failure.
    do 4 right. repeat split; try (simpl; lia); try discriminate.
    exists ["binary"], "ranking", ["softmax"]. repeat split.
    repeat constructor.
Defined.

Lemma modules_for_range_Ok (n : Z) (m : nn_Module) (s : attrs) :
  modules_for_range n (Ok m) s = (Ok (repeat m (Z.to_nat n)), s).
Proof.
  unfold modules_for_range, range. generalize 0%nat as start.
  induction (Z.to_nat n) as [|k IH]; intros start; simpl; [reflexivity|].
  unfold bind at 1. unfold lift at 1. unfold bind at 1. now rewrite IH.
Qed.

Lemma nn_Linear_nonneg (i o : Z) : 0 <= i -> 0 <= o -> nn_Linear i o = Ok (Linear i o).
Proof.
  intros Hi Ho. unfold nn_Linear.
  destruct (Z.ltb_spec i 0); [lia|]. destruct (Z.ltb_spec o 0); [lia|]. reflexivity.
Qed.

Lemma mk_DNN_nonempty (i : Z) (h : list Z) : h <> [] -> mk_DNN i h = Ok (DNN i h).
Proof. destruct h; [congruence | reflexivity]. Qed.

Lemma last_unit_positive (units : list Z) :
  units <> [] -> Forall (fun u => 0 < u) units -> 0 < last_unit units.
Proof.
  intros Hne Hall. unfold last_unit.
  destruct units as [|u units] using rev_ind; [congruence|].
  rewrite last_last. apply Forall_app in Hall as [_ Hu]. now inversion Hu.
Qed.

Lemma len_pos_iff {A} (l : list A) : (0 <? len l) = true <-> l <> [].
Proof.
  unfold len. destruct l; simpl; split; try congruence; try discriminate.
  intros _. apply Z.ltb_lt. lia.
Qed.

Lemma len_pos_false {A} (l : list A) : (0 <? len l) = false <-> l = [].
Proof.
  unfold len. destruct l; simpl; split; try congruence; try reflexivity.
  intros C. apply Z.ltb_ge in C. lia.
Qed.

Ltac run_with tac :=
  erewrite bind_ok; [| solve [tac]].

(** Lines 55-120 on arguments that pass the checks, with a flag that does
    not ask for the self-attention layers. *)
Lemma init_common_accepts cid (a : Args) (s : attrs) :
  check_result (len (task_names a)) a = Ok tt ->
  py_in "usetrans" (flag a) = Ok false ->
  expert_dnn_hidden_units a <> [] ->
  Forall (fun u => 0 < u)
    (expert_dnn_hidden_units a ++ gate_dnn_hidden_units a ++ tower_dnn_hidden_units a) ->
  0 < cid (dnn_feature_columns a) ->
  exists s', init_common cid a s = (Ok tt, s').
Proof.
  intros Hchk Hflag Hex Hall Hin.
  apply Forall_app in Hall as [Hpe Hall]. apply Forall_app in Hall as [Hpg Hpt].
  pose proof Hchk as Hpos. apply check_result_ok_iff in Hpos as (Hnt & Hne & _).
  pose proof (last_unit_positive _ Hex Hpe) as Hle.
  unfold init_common.
  do 3 run_with reflexivity.
  run_with reflexivity.
  run_with ltac:(rewrite check_arguments_eq, Hchk; reflexivity).
  do 6 run_with reflexivity.
  run_with reflexivity.
  run_with ltac:(unfold lift; rewrite Hflag; reflexivity).
  run_with reflexivity.
  do 2 run_with reflexivity.
  rewrite (mk_DNN_nonempty _ _ Hex).
  run_with ltac:(apply modules_for_range_Ok).
  run_with reflexivity.
  destruct (0 <? len (gate_dnn_hidden_units a)) eqn:Hg.
  - pose proof (proj1 (len_pos_iff _) Hg) as Hgne.
    rewrite (mk_DNN_nonempty _ _ Hgne).
    erewrite bind_ok;
      [| erewrite bind_ok; [reflexivity | apply modules_for_range_Ok]].
    rewrite (last_item_nonempty _ Hg). cbn [rbind].
    rewrite nn_Linear_nonneg
      by (try lia; pose proof (last_unit_positive _ Hgne Hpg); lia).
    run_with ltac:(apply modules_for_range_Ok).
    run_with reflexivity.
    destruct (0 <? len (tower_dnn_hidden_units a)) eqn:Ht.
    + pose proof (proj1 (len_pos_iff _) Ht) as Htne.
      rewrite (last_item_nonempty _ (proj2 (len_pos_iff _) Hex)). cbn [rbind].
      rewrite (mk_DNN_nonempty _ _ Htne).
      erewrite bind_ok;
        [| erewrite bind_ok; [reflexivity | apply modules_for_range_Ok]].
      rewrite (last_item_nonempty _ Ht). cbn [rbind].
      rewrite nn_Linear_nonneg
        by (try lia; pose proof (last_unit_positive _ Htne Hpt); lia).
      run_with ltac:(apply modules_for_range_Ok).
      run_with reflexivity.
      eexists. reflexivity.
    + run_with reflexivity.
      rewrite (last_item_nonempty _ (proj2 (len_pos_iff _) Hex)). cbn [rbind].
      rewrite nn_Linear_nonneg by lia.
      run_with ltac:(apply modules_for_range_Ok).
      run_with reflexivity.
      eexists. reflexivity.
  - run_with reflexivity. cbn [rbind].
    rewrite nn_Linear_nonneg by lia.
    run_with ltac:(apply modules_for_range_Ok).
    run_with reflexivity.
    destruct (0 <? len (tower_dnn_hidden_units a)) eqn:Ht.
    + pose proof (proj1 (len_pos_iff _) Ht) as Htne.
      rewrite (last_item_nonempty _ (proj2 (len_pos_iff _) Hex)). cbn [rbind].
      rewrite (mk_DNN_nonempty _ _ Htne).
      erewrite bind_ok;
        [| erewrite bind_ok; [reflexivity | apply modules_for_range_Ok]].
      rewrite (last_item_nonempty _ Ht). cbn [rbind].
      rewrite nn_Linear_nonneg
        by (try lia; pose proof (last_unit_positive _ Htne Hpt); lia).
      run_with ltac:(apply modules_for_range_Ok).
      run_with reflexivity.
      eexists. reflexivity.
    + run_with reflexivity.
      rewrite (last_item_nonempty _ (proj2 (len_pos_iff _) Hex)). cbn [rbind].
      rewrite nn_Linear_nonneg by lia.
      run_with ltac:(apply modules_for_range_Ok).
      run_with reflexivity.
      eexists. reflexivity.
Qed.

Lemma init_domain_accepts (a : Args) (s : attrs) dict e_size :
  domain_id_as_feature a = true \/ domain_column a <> PyNone ->
  lookup "embedding_dict" s = Some (AEmbDict dict) ->
  lookup "embedding_size" s = Some (AInt e_size) ->
  0 <= num_domains a + 1 -> 0 <= e_size ->
  exists s', init_domain a s = (Ok e_size, s').
Proof.
  intros Hdom Hdict Hsize Hnd He.
  assert (nn_Embedding (num_domains a + 1) e_size
          = Ok (Embedding (num_domains a + 1) e_size)) as Hemb.
  { unfold nn_Embedding. destruct (Z.ltb_spec (num_domains a + 1) 0); [lia|].
    destruct (Z.ltb_spec e_size 0); [lia|]. reflexivity. }
  assert (forall k, String.eqb k "domain_column" = false ->
                    lookup k (("domain_column", APy (domain_column a)) :: s)
                    = lookup k s) as Hskip.
  { intros k Hk. simpl. now rewrite Hk. }
  unfold init_domain.
  destruct (domain_id_as_feature a) eqn:Hd.
  - unfold get, getattr, getattr_of, lift, ret, setattr, bind.
    rewrite Hdict. cbn [as_embdict]. rewrite (Hskip "embedding_size" eq_refl), Hsize.
    cbn [as_int]. rewrite Hemb. eexists. reflexivity.
  - destruct Hdom as [C | Hc]; [discriminate|].
    rewrite (filter_feature_columns_filter _ _ Hc).
    unfold get, getattr, getattr_of, lift, ret, setattr, bind.
    rewrite Hdict. cbn [as_embdict]. rewrite (Hskip "embedding_size" eq_refl), Hsize.
    cbn [as_int]. rewrite Hemb. eexists. reflexivity.
Qed.

(** X7.  [MMOE_MT.__init__] returns on valid hyper-parameters: more than
    one task, as many task types, each 'binary' or 'regression', more than
    one expert, a non-empty column list with a positive input dimension, a
    non-empty list of expert units, positive units throughout, a flag that
    does not contain 'usetrans', a [domain_column] other than [None] (or
    [domain_id_as_feature=True]), at least zero domains, and a positive
    embedding size set by the base class.  The object then holds
    [num_experts] experts, one prediction layer per task type, an
    embedding table of [num_domains + 1] rows and the four LHUC layers, and
    no self-attention layer has been added. *)
Theorem MMOE_MT_accepts_valid_arguments cid (a : Args) (s : attrs) dict e_size :
  1 < len (task_names a) -> 1 < num_experts a -> dnn_feature_columns a <> [] ->
  len (task_types a) = len (task_names a) ->
  Forall (fun t => legal_task_type t = true) (task_types a) ->
  py_in "usetrans" (flag a) = Ok false ->
  expert_dnn_hidden_units a <> [] ->
  Forall (fun u => 0 < u)
    (expert_dnn_hidden_units a ++ gate_dnn_hidden_units a ++ tower_dnn_hidden_units a) ->
  0 < cid (dnn_feature_columns a) ->
  domain_id_as_feature a = true \/ domain_column a <> PyNone ->
  0 <= num_domains a ->
  lookup "embedding_dict" s = Some (AEmbDict dict) ->
  lookup "embedding_size" s = Some (AInt e_size) ->
  0 < e_size ->
  exists self,
    MMOE_MT.init cid a s = (Ok tt, self) /\
    lookup "expert_dnn" self
    = Some (AModule (ModuleList
         (repeat (DNN (cid (dnn_feature_columns a)) (expert_dnn_hidden_units a))
                 (Z.to_nat (num_experts a))))) /\
    lookup "out" self = Some (AModule (ModuleList (map PredictionLayer (task_types a)))) /\
    lookup "domain_embeddings" self
    = Some (AModule (Embedding (num_domains a + 1) e_size)) /\
    lookup "lhuc" self
    = Some (AModule (ModuleList [Linear e_size 128; ReLU; Linear 128 64; Sigmoid])) /\
    lookup "int_layers" self = lookup "int_layers" s.
Proof.
  intros Hnt Hne Hcols Hlen Hty Hflag Hex Hall Hin Hdom Hnd Hdict Hsize He.
  assert (check_result (len (task_names a)) a = Ok tt) as Hchk
    by (apply check_result_ok_iff; auto).
  destruct (init_common_accepts cid a s Hchk Hflag Hex Hall Hin) as [s1 E1].
  pose proof E1 as Hs1.
  apply init_common_ok in Hs1 as (_ & _ & usetrans & e_dim & Hut & _ & ->).
  rewrite Hflag in Hut. injection Hut as <-.
  assert (forall k, ~ In k (layer_attributes ++
            ["tower_dnn_hidden_units"; "gate_dnn_hidden_units";
             "expert_dnn_hidden_units"; "input_dim"; "task_names"; "num_experts";
             "flag"; "domain_column"; "num_tasks"]) ->
          lookup k (after_layers cid a false e_dim s) = lookup k s) as Hframe
    by (intros k; apply lookup_after_layers).
  destruct (init_domain_accepts a (after_layers cid a false e_dim s) dict e_size)
    as [s2 E2]; try assumption; try lia.
  { rewrite Hframe; [assumption|]. simpl. intuition discriminate. }
  { rewrite Hframe; [assumption|]. simpl. intuition discriminate. }
  pose proof E2 as Hs2. apply init_domain_ok in Hs2 as (_ & _ & ->).
  eexists. split.
  - unfold MMOE_MT.init. rewrite (bind_ok _ _ _ _ _ E1), (bind_ok _ _ _ _ _ E2).
    unfold lhuc_block. rewrite !nn_Linear_nonneg by lia. reflexivity.
  - assert (constructed cid a false e_dim e_size s
              (("lhuc", AModule (ModuleList [Linear e_size 128; ReLU; Linear 128 64; Sigmoid]))
               :: after_domain a e_size (after_layers cid a false e_dim s))) as Hself
      by (left; reflexivity).
    split; [apply (built_expert_dnn Hself)|].
    split; [revert Hself; built_lookup|].
    split; [apply (built_domain_embeddings Hself)|].
    split; [reflexivity|].
    unfold after_domain, after_layers, opt_attr. cbv zeta.
    destruct (0 <? len (tower_dnn_hidden_units a)),
             (0 <? len (gate_dnn_hidden_units a)); reflexivity.
Qed.

Lemma MMOE_MT_accepts_valid_arguments_witness :
  exists self,
    MMOE_MT.init Demo.compute_input_dim (Demo.args [64] "sota") Demo.base = (Ok tt, self) /\
    lookup "expert_dnn" self
    = Some (AModule (ModuleList (repeat (DNN 9 [256; 128]) 3))) /\
    lookup "out" self
    = Some (AModule (ModuleList [PredictionLayer "binary"; PredictionLayer "binary"])) /\
    lookup "domain_embeddings" self = Some (AModule (Embedding 4 4)) /\
    lookup "lhuc" self
    = Some (AModule (ModuleList [Linear 4 128; ReLU; Linear 128 64; Sigmoid])) /\
    lookup "int_layers" self = lookup "int_layers" Demo.base.
Proof.
  apply (MMOE_MT_accepts_valid_arguments Demo.compute_input_dim (Demo.args [64] "sota")
           Demo.base Demo.embedding_dict 4).
  - reflexivity.
  - reflexivity.
  - discriminate.
  - reflexivity.
  - repeat constructor.
  - reflexivity.
  - discriminate.
  - repeat constructor.
  - reflexivity.
  - right. discriminate.
  - simpl. lia.
  - reflexivity.
  - reflexivity.
  - reflexivity.
Defined.

(* ===================================================================== *)
(** ** More on [forward] *)
(* ===================================================================== *)

Section ForwardReturns.

Context {T : Type} `{Torch T}.

(** A sequence that returned: both of its parts did. *)
Lemma value_bind_ok {A B} (c : F (T:=T) A) (k : A -> F B) b :
  writer c -> (forall a, writer (k a)) ->
  value (bind c k) = Ok b ->
  exists a, value c = Ok a /\ value (k a) = Ok b.
Proof.
  intros Hc Hk E. rewrite value_bind in E by assumption.
  now apply rbind_ok_inv in E.
Qed.

Lemma events_bind_ok {A B} (c : F (T:=T) A) (k : A -> F B) a :
  writer c -> (forall a, writer (k a)) ->
  value c = Ok a ->
  events (bind c k) = events c ++ events (k a).
Proof. intros Hc Hk E. rewrite events_bind by assumption. now rewrite E. Qed.

(** Lines 179-180 return only for a domain column that is a key of
    [feature_index]. *)
Lemma forward_domain_emb_needs_key self (X domain_emb : T) :
  value (forward_domain_emb self X) = Ok domain_emb ->
  exists c idx start stop,
    lookup "domain_column" self = Some (APy (PyStr c)) /\
    lookup "feature_index" self = Some (AIndex idx) /\
    In (c, (start, stop)) idx.
Proof.
  unfold forward_domain_emb. intros E.
  apply value_bind_ok in E as (j & Ej & _); [| writer | intro; writer].
  unfold domain_column_index in Ej.
  apply value_bind_ok in Ej as (idx & Eidx & Ej); [| writer | intro; writer].
  apply value_bind_ok in Ej as (dc & Edc & Ej); [| writer | intro; writer].
  apply self_get_ok in Eidx as (v & Hv & Eidx).
  destruct v; try discriminate. injection Eidx as ->.
  apply self_get_ok in Edc as (v & Hv' & Edc).
  destruct v; try discriminate. injection Edc as ->.
  destruct dc as [|c|l]; try discriminate.
  destruct (find (fun kv => String.eqb c (fst kv)) idx) as [[c' [start stop]]|] eqn:Ef;
    [|discriminate].
  apply find_some in Ef as [Hin Heq]. simpl in Heq. apply String.eqb_eq in Heq as <-.
  now exists c, idx, start, stop.
Qed.

End ForwardReturns.

(** X8.  A forward pass of either class returns a tensor only for a model
    whose [domain_column] is a string that is a key of the base class's
    [feature_index]: with [domain_column=None], a list of names, or a name
    that is not an input feature, [forward] raises on every batch, after
    the experts and the gates have run. *)
Theorem forward_needs_domain_column_key {T : Type} `{Torch T}
    cid (a : Args) (s self : attrs) (X out : T) :
  (MMOE_MT.init cid a s = (Ok tt, self) /\ value (MMOE_MT.forward self X) = Ok out) \/
  (MMOE_MT_ATT.init cid a s = (Ok tt, self) /\
   value (MMOE_MT_ATT.forward self X) = Ok out) ->
  exists c idx start stop,
    domain_column a = PyStr c /\
    lookup "feature_index" s = Some (AIndex idx) /\
    In (c, (start, stop)) idx.
Proof.
  intros Hrun.
  assert (exists usetrans e_dim e_size domain_emb,
             constructed cid a usetrans e_dim e_size s self /\
             value (forward_domain_emb self X) = Ok domain_emb)
    as (usetrans & e_dim & e_size & domain_emb & Hself & E).
  { destruct Hrun as [[Hinit E] | [Hinit E]].
    - destruct (init_constructed cid a s self (or_introl Hinit))
        as (_ & _ & _ & usetrans & e_dim & e_size & _ & _ & _ & Hself).
      exists usetrans, e_dim, e_size.
      unfold MMOE_MT.forward in E.
      apply value_bind_ok in E as (dnn_input & _ & E); [| writer | intro; writer].
      apply value_bind_ok in E as (expert_outs & _ & E); [| writer | intro; writer].
      apply value_bind_ok in E as (mmoe_outs & _ & E); [| writer | intro; writer].
      apply value_bind_ok in E as (domain_emb & E & _); [| writer | intro; writer].
      now exists domain_emb.
    - destruct (init_constructed cid a s self (or_intror Hinit))
        as (_ & _ & _ & usetrans & e_dim & e_size & _ & _ & _ & Hself).
      exists usetrans, e_dim, e_size.
      unfold MMOE_MT_ATT.forward in E.
      apply value_bind_ok in E as (dnn_input & _ & E); [| writer | intro; writer].
      apply value_bind_ok in E as (expert_outs & _ & E); [| writer | intro; writer].
      apply value_bind_ok in E as (mmoe_outs & _ & E); [| writer | intro; writer].
      apply value_bind_ok in E as (domain_emb & E & _); [| writer | intro; writer].
      now exists domain_emb. }
  apply forward_domain_emb_needs_key in E as (c & idx & start & stop & Hc & Hidx & Hin).
  rewrite (built_domain_column Hself) in Hc. injection Hc as Hc.
  rewrite (built_frame "feature_index" Hself) in Hidx
    by (unfold assigned_attributes, layer_attributes; simpl; intuition discriminate).
  now exists c, idx, start, stop.
Qed.

Lemma forward_needs_domain_column_key_witness :
  exists c idx start stop,
    domain_column (Demo.args [64] "sota") = PyStr c /\
    lookup "feature_index" Demo.base = Some (AIndex idx) /\
    In (c, (start, stop)) idx.
Proof.
  apply (@forward_needs_domain_column_key _ Demo.shapes Demo.compute_input_dim
           (Demo.args [64] "sota") Demo.base (Demo.mmoe_mt [64] "sota")
           [4; 3]%nat [4; 2]%nat).
  left. split; reflexivity.
Defined.

Section AttTowerGeneric.

Context {T : Type} `{Torch T}.

(** The tower of task [i] in [MMOE_MT_ATT], call by call, for a model with
    a tower DNN. *)
Lemma value_ATT_forward_tower cid (a : Args) usetrans e_dim e_size (s : attrs)
    (mmoe_outs : list T) (mmoe_out domain_emb : T) (i : nat) type_i :
  tower_dnn_hidden_units a <> [] ->
  (i < List.length (task_names a))%nat ->
  nth_error mmoe_outs i = Some mmoe_out ->
  nth_error (task_types a) i = Some type_i ->
  value (MMOE_MT_ATT.forward_tower (MMOE_MT_ATT_built cid a usetrans e_dim e_size s)
           mmoe_outs domain_emb i)
  = task_tower a e_size type_i i mmoe_out domain_emb.
Proof.
  intros Htower Hi Hm Hty.
  assert (constructed cid a usetrans e_dim e_size s
            (MMOE_MT_ATT_built cid a usetrans e_dim e_size s)) as Hself by now right.
  assert ((0 <? len (tower_dnn_hidden_units a)) = true) as Ht.
  { apply Z.ltb_lt. unfold len. destruct (tower_dnn_hidden_units a); [congruence|].
    simpl. lia. }
  assert (i < Z.to_nat (len (task_names a)))%nat as Hi' by (unfold len; lia).
  assert (forall t d, value (MMOE_MT_ATT.forward_att
                               (MMOE_MT_ATT_built cid a usetrans e_dim e_size s) t d i)
                      = task_factor e_size i t d) as Hatt.
  { intros t d. unfold MMOE_MT_ATT.forward_att, task_factor.
    rewrite value_bind; [| writer | intro; writer].
    rewrite (value_call_at _ _ _ _ _ _ att_target_attention (nth_error_repeat _ _ _ Hi')).
    destruct (call ("target_attention", [i]) _ [t; d]) as [att|]; simpl; [|reflexivity].
    rewrite value_bind; [| writer | intro; writer].
    assert (value (self_module (T:=T) (MMOE_MT_ATT_built cid a usetrans e_dim e_size s)
                     "lhuc" i) = Ok (ModuleList (lhuc_layers e_size))) as ->.
    { unfold value, self_module, bind, self_get, lift, getattr_of, item.
      rewrite att_lhuc. simpl. now rewrite (nth_error_repeat _ _ _ Hi'). }
    simpl. rewrite value_bind; [| writer | intro; writer]. simpl.
    apply value_run_lhuc. }
  unfold MMOE_MT_ATT.forward_tower, task_tower.
  rewrite value_bind; [| writer | intro; writer].
  rewrite value_self_get. unfold getattr_of. rewrite (built_tower_units Hself). simpl.
  rewrite value_bind; [| writer | intro; writer].
  unfold value at 1, lift, item. simpl. rewrite Hm. simpl.
  rewrite value_bind; [| writer | intro; writer].
  rewrite Ht.
  rewrite value_bind; [| writer | intro; writer].
  rewrite (value_call_at _ _ _ _ _ _ (built_tower_dnn Hself Ht) (nth_error_repeat _ _ _ Hi')).
  destruct (call ("tower_dnn", [i]) _ [mmoe_out]) as [t|]; simpl; [|reflexivity].
  rewrite value_bind; [| writer | intro; writer].
  rewrite Hatt.
  destruct (task_factor e_size i t domain_emb) as [att|]; simpl; [|reflexivity].
  rewrite value_bind; [| writer | intro; writer].
  unfold value at 1, lift. simpl.
  destruct (mul t att) as [t'|]; simpl; [|reflexivity].
  pose proof (built_tower_dnn_final_layer Hself) as Hfinal. rewrite Ht in Hfinal.
  rewrite (value_call_at _ _ _ _ _ _ Hfinal (nth_error_repeat _ _ _ Hi')).
  destruct (call ("tower_dnn_final_layer", [i]) _ [t']) as [logit|]; simpl; [|reflexivity].
  apply (value_call_at _ _ _ _ _ _ (built_out Hself)).
  rewrite nth_error_map, Hty. reflexivity.
Qed.

End AttTowerGeneric.

Section TowerWidth.

Import ShapeSem.
Local Open Scope nat_scope.

Variable sat : nn_Module -> list shape -> result shape.
Let shapes : Torch shape := torch_shape sat.

Lemma linear_shape_ok (i o : Z) (s t : shape) :
  linear_shape i o s = Ok t ->
  exists k pre, s = pre ++ [k] /\ Z.of_nat k = i /\ t = pre ++ [Z.to_nat o].
Proof.
  unfold linear_shape. destruct (rev s) as [|k pre] eqn:Er; [discriminate|].
  destruct (Z.eqb_spec (Z.of_nat k) i) as [Ek|]; [|discriminate].
  intros E. injection E as <-. exists k, (rev pre).
  split; [|split; [assumption | reflexivity]].
  rewrite <- (rev_involutive s), Er. reflexivity.
Qed.

(** A product with a tensor whose last dimension is 64 has 64 as its last
    dimension. *)
Lemma broadcast_last_64 (s1 pre2 r : shape) :
  s1 <> [] -> broadcast s1 (pre2 ++ [64]) = Ok r -> exists pre, r = pre ++ [64].
Proof.
  intros Hne. unfold broadcast. rewrite rev_app_distr. cbn [rev app].
  destruct (rev s1) as [|n r1] eqn:Er.
  { apply (f_equal (@rev nat)) in Er. rewrite rev_involutive in Er. now subst. }
  cbn [broadcast_rev].
  destruct (broadcast_rev r1 (rev pre2)) as [r0|]; cbn [rbind]; [|discriminate].
  destruct (Nat.eqb_spec n 64) as [->|Hn].
  - cbn [rbind]. intros E. injection E as <-. now exists (rev r0).
  - destruct (n =? 1); cbn [rbind].
    + intros E. injection E as <-. now exists (rev r0).
    + cbn [Nat.eqb]. discriminate.
Qed.

(** The four LHUC layers end in 64 units. *)
Lemma lhuc_chain_last (p : list nat) (e : Z) (x l : shape) :
  rbind (@call shape shapes ("lhuc", p ++ [0]) (Linear e 128) [x]) (fun h1 =>
  rbind (@call shape shapes ("lhuc", p ++ [1]) ReLU [h1]) (fun h2 =>
  rbind (@call shape shapes ("lhuc", p ++ [2]) (Linear 128 64) [h2]) (fun h3 =>
  @call shape shapes ("lhuc", p ++ [3]) Sigmoid [h3]))) = Ok l ->
  exists pre, l = pre ++ [64].
Proof.
  cbn [call shapes torch_shape call_shape]. intros E.
  apply rbind_ok_inv in E as (h1 & E1 & E). cbn [rbind] in E.
  apply rbind_ok_inv in E as (h3 & E3 & E). injection E as <-.
  apply linear_shape_ok in E3 as (k & pre & _ & _ & ->). now exists pre.
Qed.

(** A tower DNN whose output is rescaled by a tensor with 64 as last
    dimension feeds the final layer only if it ends in 64 units. *)
Lemma rescaled_tower_needs_64 (p q : mpath) (d : Z) (units : list Z)
    (m pre l t1 t2 t3 : shape) :
  units <> [] ->
  @call shape shapes p (DNN d units) [m] = Ok t1 ->
  l = pre ++ [64] ->
  @mul shape shapes t1 l = Ok t2 ->
  @call shape shapes q (Linear (last_unit units) 1) [t2] = Ok t3 ->
  last_unit units = 64%Z.
Proof.
  intros Hne E1 -> E2 E3. cbn [call mul shapes torch_shape call_shape] in *.
  rewrite last_item_nonempty in E1 by now apply len_pos_iff.
  apply linear_shape_ok in E1 as (k & pre1 & _ & _ & ->).
  apply broadcast_last_64 in E2 as (pre2 & ->).
  2:{ now destruct pre1. }
  apply linear_shape_ok in E3 as (k' & pre3 & E3 & Hk & _).
  apply app_inj_tail in E3 as [_ <-]. lia.
Qed.

Lemma lhuc_steps (p0 p1 p2 p3 : mpath) (e : Z) (x h1 h2 h3 h4 : shape) :
  @call shape shapes p0 (Linear e 128) [x] = Ok h1 ->
  @call shape shapes p1 ReLU [h1] = Ok h2 ->
  @call shape shapes p2 (Linear 128 64) [h2] = Ok h3 ->
  @call shape shapes p3 Sigmoid [h3] = Ok h4 ->
  exists pre, h4 = pre ++ [64].
Proof.
  cbn [call shapes torch_shape call_shape]. intros _ _ E3 E4.
  injection E4 as <-.
  apply linear_shape_ok in E3 as (k & pre & _ & _ & ->). now exists pre.
Qed.

(** The first task of a model that passed the checks. *)
Lemma first_task {A} (a : Args) (f : nat -> F (T:=shape) A) (ys : list A) :
  check_result (len (task_names a)) a = Ok tt ->
  (forall i, writer (f i)) ->
  value (mapM f (range (len (task_names a)))) = Ok ys ->
  exists y type_0,
    value (f 0) = Ok y /\ (nth_error (task_types a) 0 = Some type_0) /\
    (0 < List.length (task_names a)).
Proof.
  intros Hchk Hw E.
  apply check_result_ok_iff in Hchk as (Hnt & _ & _ & Hlen & _).
  apply mapM_ok in E as [Hall _]; [|assumption].
  unfold range in Hall. unfold len in *.
  destruct (task_names a) as [|n0 ns]; [simpl in Hnt; lia|].
  destruct (task_types a) as [|t0 ts]; [simpl in Hlen; lia|].
  rewrite Nat2Z.id in Hall. simpl in Hall. inversion Hall; subst.
  eexists _, t0. repeat split; [eassumption | simpl; lia].
Qed.

(** X9.  [MMOE_MT] multiplies the output of every tower DNN by the LHUC
    output, whose last dimension is the 64 of line 134, and hands the
    product to a final layer built for [tower_dnn_hidden_units[-1]]
    inputs.  So a model with tower DNNs whose last layer does not have 64
    units is built without complaint and fails on every batch, whatever
    the attention layers do. *)
Theorem MMOE_MT_tower_must_end_in_64 cid (a : Args) (s self : attrs) (X : shape) :
  MMOE_MT.init cid a s = (Ok tt, self) ->
  tower_dnn_hidden_units a <> [] ->
  last_unit (tower_dnn_hidden_units a) <> 64%Z ->
  is_ok (value (MMOE_MT.forward (H:=shapes) self X)) = false.
Proof.
  intros Hinit Htower H64.
  destruct (value (MMOE_MT.forward (H:=shapes) self X)) as [out|] eqn:E; [|reflexivity].
  exfalso. apply H64.
  apply MMOE_MT_init_ok in Hinit
    as (Hchk & _ & _ & usetrans & e_dim & e_size & _ & _ & _ & ->).
  assert (constructed cid a usetrans e_dim e_size s
            (MMOE_MT_built cid a usetrans e_dim e_size s)) as Hself by now left.
  assert ((0 <? len (tower_dnn_hidden_units a))%Z = true) as Ht by now apply len_pos_iff.
  unfold MMOE_MT.forward in E.
  apply value_bind_ok in E as (dnn_input & _ & E); [| writer | intro; writer].
  apply value_bind_ok in E as (expert_outs & _ & E); [| writer | intro; writer].
  apply value_bind_ok in E as (mmoe_outs & _ & E); [| writer | intro; writer].
  apply value_bind_ok in E as (domain_emb & _ & E); [| writer | intro; writer].
  apply value_bind_ok in E as (l & El & E); [| writer | intro; writer].
  apply value_bind_ok in E as (nt & Ent & E); [| writer | intro; writer].
  apply value_bind_ok in E as (outs & E & _); [| writer | intro; writer].
  rewrite value_self_get in Ent. unfold getattr_of in Ent.
  rewrite (built_num_tasks Hself) in Ent. injection Ent as <-.
  apply (first_task a) in E as (y & type_0 & E & Hty & Hpos);
    [| assumption | intro; writer].
  pose proof E as Em. unfold MMOE_MT.forward_tower in Em.
  apply value_bind_ok in Em as (units & _ & Em); [| writer | intro; writer].
  apply value_bind_ok in Em as (m & Em & _); [| writer | intro; writer].
  unfold value, lift in Em. cbn [fst] in Em. apply item_ok in Em.
  rewrite (value_MT_forward_tower cid a usetrans e_dim e_size s _ mmoe_outs m l 0 type_0
             Hself Hpos Em Hty), Ht in E.
  apply rbind_ok_inv in E as (logit & E & _).
  apply rbind_ok_inv in E as (t1 & E1 & E).
  apply rbind_ok_inv in E as (t2 & E2 & E3).
  rewrite (value_forward_lhuc _ e_size) in El by reflexivity.
  apply rbind_ok_inv in El as (h1 & L1 & El).
  apply rbind_ok_inv in El as (h2 & L2 & El).
  apply rbind_ok_inv in El as (h3 & L3 & El).
  apply rbind_ok_inv in El as (h4 & L4 & El).
  cbn [mul_int shapes torch_shape] in El. injection El as <-.
  destruct (lhuc_steps _ _ _ _ _ _ _ _ _ _ L1 L2 L3 L4) as [pre Hl].
  exact (rescaled_tower_needs_64 _ _ _ _ _ _ _ _ _ _ Htower E1 Hl E2 E3).
Qed.

(** X10.  The same holds of [MMOE_MT_ATT], where the factor is the output
    of the task's own LHUC block: for any behaviour of the attention
    layers, a model with tower DNNs that do not end in 64 units fails on
    every batch. *)
Theorem MMOE_MT_ATT_tower_must_end_in_64 cid (a : Args) (s self : attrs) (X : shape) :
  MMOE_MT_ATT.init cid a s = (Ok tt, self) ->
  tower_dnn_hidden_units a <> [] ->
  last_unit (tower_dnn_hidden_units a) <> 64%Z ->
  is_ok (value (MMOE_MT_ATT.forward (H:=shapes) self X)) = false.
Proof.
  intros Hinit Htower H64.
  destruct (value (MMOE_MT_ATT.forward (H:=shapes) self X)) as [out|] eqn:E;
    [|reflexivity].
  exfalso. apply H64.
  apply MMOE_MT_ATT_init_ok in Hinit
    as (Hchk & _ & _ & usetrans & e_dim & e_size & _ & _ & _ & ->).
  assert (constructed cid a usetrans e_dim e_size s
            (MMOE_MT_ATT_built cid a usetrans e_dim e_size s)) as Hself by now right.
  unfold MMOE_MT_ATT.forward in E.
  apply value_bind_ok in E as (dnn_input & _ & E); [| writer | intro; writer].
  apply value_bind_ok in E as (expert_outs & _ & E); [| writer | intro; writer].
  apply value_bind_ok in E as (mmoe_outs & _ & E); [| writer | intro; writer].
  apply value_bind_ok in E as (domain_emb & _ & E); [| writer | intro; writer].
  apply value_bind_ok in E as (nt & Ent & E); [| writer | intro; writer].
  apply value_bind_ok in E as (outs & E & _); [| writer | intro; writer].
  rewrite value_self_get in Ent. unfold getattr_of in Ent.
  rewrite (built_num_tasks Hself) in Ent. injection Ent as <-.
  apply (first_task a) in E as (y & type_0 & E & Hty & Hpos);
    [| assumption | intro; writer].
  pose proof E as Em. unfold MMOE_MT_ATT.forward_tower in Em.
  apply value_bind_ok in Em as (units & _ & Em); [| writer | intro; writer].
  apply value_bind_ok in Em as (m & Em & _); [| writer | intro; writer].
  unfold value, lift in Em. cbn [fst] in Em. apply item_ok in Em.
  rewrite (value_ATT_forward_tower cid a usetrans e_dim e_size s mmoe_outs m domain_emb
             0 type_0 Htower Hpos Em Hty) in E.
  unfold task_tower, task_factor in E.
  apply rbind_ok_inv in E as (t1 & E1 & E).
  apply rbind_ok_inv in E as (att & Eatt & E).
  apply rbind_ok_inv in E as (t2 & E2 & E).
  apply rbind_ok_inv in E as (logit & E3 & _).
  apply rbind_ok_inv in Eatt as (att0 & _ & Eatt).
  apply rbind_ok_inv in Eatt as (h1 & L1 & Eatt).
  apply rbind_ok_inv in Eatt as (h2 & L2 & Eatt).
  apply rbind_ok_inv in Eatt as (h3 & L3 & L4).
  destruct (lhuc_steps _ _ _ _ _ _ _ _ _ _ L1 L2 L3 L4) as [pre Hl].
  exact (rescaled_tower_needs_64 _ _ _ _ _ _ _ _ _ _ Htower E1 Hl E2 E3).
Qed.

End TowerWidth.

Lemma MMOE_MT_tower_must_end_in_64_witness :
  is_ok (value (MMOE_MT.forward (H:=Demo.shapes) (Demo.mmoe_mt [32] "sota") [4; 3]%nat))
  = false.
Proof.
  apply (MMOE_MT_tower_must_end_in_64 Demo.satrans_shape Demo.compute_input_dim
           (Demo.args [32] "sota") Demo.base).
  - reflexivity.
  - discriminate.
  - discriminate.
Defined.

Lemma MMOE_MT_ATT_tower_must_end_in_64_witness :
  is_ok (value (MMOE_MT_ATT.forward (H:=Demo.shapes) (Demo.mmoe_mt_att [128; 32] "sota")
                  [4; 3]%nat))
  = false.
Proof.
  apply (MMOE_MT_ATT_tower_must_end_in_64 Demo.satrans_shape Demo.compute_input_dim
           (Demo.args [128; 32] "sota") Demo.base).
  - reflexivity.
  - discriminate.
  - discriminate.
Defined.





(* ===================================================================== *)
(** ** The calls of a forward pass *)
(* ===================================================================== *)

Section CallSequence.

Context {T : Type} `{Torch T}.

Lemma called_app (tr tr' : list (event T)) : called (tr ++ tr') = called tr ++ called tr'.
Proof. unfold called. apply flat_map_app. Qed.

(** The calls of a sequence that returned. *)
Lemma calls_bind_ok {A B} (c : F (T:=T) A) (k : A -> F B) b :
  writer c -> (forall a, writer (k a)) ->
  value (bind c k) = Ok b ->
  exists a, value c = Ok a /\ value (k a) = Ok b /\
            calls (bind c k) = calls c ++ calls (k a).
Proof.
  intros Hc Hk E. destruct (value_bind_ok c k b Hc Hk E) as (a & Ea & Eb).
  exists a. repeat split; try assumption.
  unfold calls. now rewrite (events_bind_ok c k a Hc Hk Ea), called_app.
Qed.

Lemma calls_self_get {A} self a (cast : attr -> result A) :
  calls (self_get (T:=T) self a cast) = [].
Proof. reflexivity. Qed.

Lemma calls_lift {A} (r : result A) : calls (lift r : F (T:=T) A) = [].
Proof. reflexivity. Qed.

Lemma calls_ret {A} (x : A) : calls (ret x : F (T:=T) A) = [].
Proof. reflexivity. Qed.

Lemma calls_call_module p m (inputs : list T) : calls (call_module p m inputs) = [p].
Proof. reflexivity. Qed.

Lemma calls_self_module self a i : calls (self_module (T:=T) self a i) = [].
Proof.
  unfold calls, self_module, events, bind, self_get, lift.
  destruct (rbind (getattr_of self a) as_modules); reflexivity.
Qed.

Lemma calls_call_at self a i (inputs : list T) out :
  value (call_at self a i inputs) = Ok out -> calls (call_at self a i inputs) = [(a, [i])].
Proof.
  intros E. apply call_at_ok in E as (ms & m & _ & _ & _ & Ev).
  unfold calls. now rewrite Ev.
Qed.

Lemma calls_layers_from (a : string) (prefix : list nat) (layers : list nn_Module)
    (start : nat) (x y : T) :
  value (foldM (fun x '(k, layer) => call_module (a, prefix ++ [k]) layer [x])
               x (combine (seq start (List.length layers)) layers)) = Ok y ->
  calls (foldM (fun x '(k, layer) => call_module (a, prefix ++ [k]) layer [x])
               x (combine (seq start (List.length layers)) layers))
  = map (fun k => (a, prefix ++ [k])) (seq start (List.length layers)).
Proof.
  revert start x. induction layers as [|layer layers IH]; intros start x E.
  - reflexivity.
  - cbn [List.length seq combine foldM map] in *.
    apply calls_bind_ok in E as (x' & _ & E & ->);
      [| writer | intro; apply writer_foldM; intros ? []; writer].
    rewrite calls_call_module. cbn [app]. f_equal. now apply IH.
Qed.

Lemma calls_run_layers (p : mpath) (layers : list nn_Module) (x y : T) :
  value (run_layers p layers x) = Ok y ->
  calls (run_layers p layers x) = members (fst p) (snd p) (List.length layers).
Proof. apply calls_layers_from. Qed.

(** The calls of a loop that returned. *)
Lemma calls_mapM_ok {A B} (f : A -> F (T:=T) B) (g : A -> list mpath) (xs : list A) ys :
  (forall x, writer (f x)) ->
  value (mapM f xs) = Ok ys ->
  (forall x y, In x xs -> value (f x) = Ok y -> calls (f x) = g x) ->
  calls (mapM f xs) = flat_map g xs.
Proof.
  intros Hw E Hg. apply mapM_ok in E as [Hall Hev]; [|assumption].
  unfold calls. rewrite Hev. clear Hev.
  induction Hall as [|x y xs ys Hx _ IH]; [reflexivity|].
  cbn [flat_map]. rewrite called_app. f_equal.
  - apply (Hg x y); [now left | assumption].
  - apply IH. intros x' y' Hin. apply Hg. now right.
Qed.

Lemma flat_map_unit {A B} (f : A -> B) (l : list A) :
  flat_map (fun x => [f x]) l = map f l.
Proof. induction l; simpl; congruence. Qed.

End CallSequence.

(** One step through a computation that returned: the value bound is
    named, and the calls of the sequence are split. *)
Ltac apply_writer :=
  match goal with Hk : forall x y z, writer _ |- _ => apply Hk end.

Ltac next E x Ex :=
  let Hc := fresh "Hc" in
  apply calls_bind_ok in E as (x & Ex & E & Hc);
  [rewrite Hc; clear Hc | writer; try apply_writer | intro; writer; try apply_writer].

Section CallsOfForward.

Context {T : Type} `{Torch T}.
Context {cid : list FeatureColumn -> Z} {a : Args} {usetrans : bool}
        {e_dim e_size : Z} {s self : attrs}.
Hypothesis Hself : constructed cid a usetrans e_dim e_size s self.
Hypothesis Hflag : py_in "usetrans" (flag a) = Ok usetrans.


Lemma calls_forward_dnn_input (X dnn_input : T) :
  value (forward_dnn_input self X) = Ok dnn_input ->
  calls (forward_dnn_input self X)
  = if usetrans then members "int_layers" [] 3 else [].
Proof.
  unfold forward_dnn_input. intros E.
  next E cols Ecols. next E dict Edict. next E u Eu. next E lists Elists.
  destruct lists as [sparse dense].
  next E fl Efl. next E ut Eut.
  rewrite !calls_self_get, !calls_lift. cbn [app].
  assert (calls (log (T:=T) (InputFromFeatureColumns cols)) = []) as -> by reflexivity.
  cbn [app].
  rewrite value_self_get in Efl. unfold getattr_of in Efl.
  rewrite (built_flag Hself) in Efl. injection Efl as <-.
  unfold value, lift in Eut. cbn [fst] in Eut. rewrite Hflag in Eut. injection Eut as <-.
  destruct usetrans.
  - next E att0 Eatt0. next E layers Elayers. next E att Eatt. next E flat Eflat.
    rewrite calls_self_get, !calls_lift. cbn [app].
    rewrite value_self_get in Elayers. unfold getattr_of in Elayers.
    rewrite (built_int_layers Hself eq_refl) in Elayers. injection Elayers as <-.
    rewrite (calls_run_layers _ _ _ _ Eatt). cbn [fst snd].
    assert (calls (if 0 <? len dense
                   then dense_input <- lift (concat_fun dense 1) ;;
                        lift (concat_fun [flat; dense_input] (-1))
                   else ret flat) = []) as ->.
    { destruct (0 <? len dense); [|reflexivity].
      unfold calls, events, bind, lift. destruct (concat_fun dense 1); reflexivity. }
    now rewrite app_nil_r.
  - reflexivity.
Qed.

Lemma calls_forward_expert_outs (dnn_input expert_outs : T) :
  value (forward_expert_outs self dnn_input) = Ok expert_outs ->
  calls (forward_expert_outs self dnn_input)
  = members "expert_dnn" [] (Z.to_nat (num_experts a)).
Proof.
  unfold forward_expert_outs. intros E.
  next E n En. next E outs Eouts.
  rewrite calls_self_get, calls_lift, app_nil_r. cbn [app].
  rewrite value_self_get in En. unfold getattr_of in En.
  rewrite (built_num_experts Hself) in En. injection En as <-.
  assert (forall i, writer (call_at self "expert_dnn" i [dnn_input])) as Hw
    by (intro; writer).
  rewrite (calls_mapM_ok _ (fun i => [("expert_dnn", [i])]) _ _ Hw Eouts).
  - apply flat_map_unit.
  - intros i y _ Ey. now apply calls_call_at in Ey.
Qed.

Lemma calls_forward_gate (dnn_input expert_outs mmoe_out : T) (i : nat) :
  value (forward_gate self dnn_input expert_outs i) = Ok mmoe_out ->
  calls (forward_gate self dnn_input expert_outs i)
  = (if 0 <? len (gate_dnn_hidden_units a) then [("gate_dnn", [i])] else [])
    ++ [("gate_dnn_final_layer", [i])].
Proof.
  unfold forward_gate. intros E.
  next E units Eunits. next E logits Elogits. next E w Ew. next E g Eg.
  rewrite calls_self_get, !calls_lift, !app_nil_r. cbn [app].
  rewrite value_self_get in Eunits. unfold getattr_of in Eunits.
  rewrite (built_gate_units Hself) in Eunits. injection Eunits as <-.
  destruct (0 <? len (gate_dnn_hidden_units a)).
  - next Elogits h Eh.
    apply calls_call_at in Eh. apply calls_call_at in Elogits.
    now rewrite Eh, Elogits.
  - apply calls_call_at in Elogits. now rewrite Elogits.
Qed.

Lemma calls_forward_mmoe_outs (dnn_input expert_outs : T) (mmoe_outs : list T) :
  value (forward_mmoe_outs self dnn_input expert_outs) = Ok mmoe_outs ->
  calls (forward_mmoe_outs self dnn_input expert_outs)
  = flat_map (fun i => (if 0 <? len (gate_dnn_hidden_units a)
                        then [("gate_dnn", [i])] else [])
                       ++ [("gate_dnn_final_layer", [i])])
             (range (len (task_names a))).
Proof.
  unfold forward_mmoe_outs. intros E.
  next E n En. rewrite calls_self_get. cbn [app].
  rewrite value_self_get in En. unfold getattr_of in En.
  rewrite (built_num_tasks Hself) in En. injection En as <-.
  assert (forall i, writer (forward_gate self dnn_input expert_outs i)) as Hw
    by (intro; writer).
  apply (calls_mapM_ok _ _ _ _ Hw E).
  intros i y _ Ey. now apply calls_forward_gate in Ey.
Qed.

Lemma calls_forward_domain_emb (X domain_emb : T) :
  value (forward_domain_emb self X) = Ok domain_emb ->
  calls (forward_domain_emb self X) = [("domain_embeddings", [])].
Proof.
  unfold forward_domain_emb. intros E.
  next E j Ej. next E ids Eids. next E m Em.
  rewrite calls_lift, calls_self_get, calls_call_module. cbn [app].
  assert (calls (domain_column_index (T:=T) self) = []) as ->; [|reflexivity].
  unfold calls, events, domain_column_index, bind, self_get, lift, ret, raise.
  destruct (rbind (getattr_of self "feature_index") as_index) as [idx|]; [|reflexivity].
  destruct (rbind (getattr_of self "domain_column") as_py) as [[|c|l]|]; try reflexivity.
  destruct (find _ idx) as [[c' [start stop]]|]; reflexivity.
Qed.

(** Lines 139-180. *)
Lemma calls_shared {B} (k : T -> list T -> T -> F (T:=T) B) (X : T) (out : B) :
  (forall x y z, writer (k x y z)) ->
  value (dnn_input <- forward_dnn_input self X ;;
         expert_outs <- forward_expert_outs self dnn_input ;;
         mmoe_outs <- forward_mmoe_outs self dnn_input expert_outs ;;
         domain_emb <- forward_domain_emb self X ;;
         k dnn_input mmoe_outs domain_emb) = Ok out ->
  exists dnn_input mmoe_outs domain_emb,
    value (k dnn_input mmoe_outs domain_emb) = Ok out /\
    calls (dnn_input <- forward_dnn_input self X ;;
           expert_outs <- forward_expert_outs self dnn_input ;;
           mmoe_outs <- forward_mmoe_outs self dnn_input expert_outs ;;
           domain_emb <- forward_domain_emb self X ;;
           k dnn_input mmoe_outs domain_emb)
    = shared_calls a usetrans ++ calls (k dnn_input mmoe_outs domain_emb).
Proof.
  intros Hk E.
  next E dnn_input Hin. next E expert_outs Hex. next E mmoe_outs Hmm.
  next E domain_emb Hdom.
  exists dnn_input, mmoe_outs, domain_emb. split; [assumption|].
  rewrite (calls_forward_dnn_input _ _ Hin), (calls_forward_expert_outs _ _ Hex),
    (calls_forward_mmoe_outs _ _ _ Hmm), (calls_forward_domain_emb _ _ Hdom).
  unfold shared_calls. now rewrite <- !app_assoc.
Qed.

Lemma calls_MT_forward_lhuc (domain_emb lhuc_output : T) :
  self = MMOE_MT_built cid a usetrans e_dim e_size s ->
  value (MMOE_MT.forward_lhuc self domain_emb) = Ok lhuc_output ->
  calls (MMOE_MT.forward_lhuc self domain_emb) = members "lhuc" [] 4.
Proof.
  intros Hmt. unfold MMOE_MT.forward_lhuc. intros E.
  next E layers Elayers. next E out Eout.
  rewrite calls_self_get, calls_lift, app_nil_r. cbn [app].
  rewrite value_self_get in Elayers. unfold getattr_of in Elayers.
  rewrite Hmt in Elayers. injection Elayers as <-.
  now rewrite (calls_run_layers _ _ _ _ Eout).
Qed.

Lemma calls_MT_forward_tower (mmoe_outs : list T) (lhuc_output out : T) (i : nat) :
  value (MMOE_MT.forward_tower self mmoe_outs lhuc_output i) = Ok out ->
  calls (MMOE_MT.forward_tower self mmoe_outs lhuc_output i)
  = (if 0 <? len (tower_dnn_hidden_units a) then [("tower_dnn", [i])] else [])
    ++ [("tower_dnn_final_layer", [i]); ("out", [i])].
Proof.
  unfold MMOE_MT.forward_tower. intros E.
  next E units Eunits. next E m Em. next E logit Elogit.
  rewrite calls_self_get, calls_lift. cbn [app].
  rewrite value_self_get in Eunits. unfold getattr_of in Eunits.
  rewrite (built_tower_units Hself) in Eunits. injection Eunits as <-.
  apply calls_call_at in E. rewrite E.
  destruct (0 <? len (tower_dnn_hidden_units a)).
  - next Elogit t Et. next Elogit t' Et'.
    apply calls_call_at in Et. apply calls_call_at in Elogit.
    now rewrite Et, Elogit, calls_lift.
  - apply calls_call_at in Elogit. now rewrite Elogit.
Qed.

Lemma calls_ATT_forward_att (tower_dnn_out domain_emb att : T) (i : nat) :
  self = MMOE_MT_ATT_built cid a usetrans e_dim e_size s ->
  value (MMOE_MT_ATT.forward_att self tower_dnn_out domain_emb i) = Ok att ->
  calls (MMOE_MT_ATT.forward_att self tower_dnn_out domain_emb i)
  = ("target_attention", [i]) :: members "lhuc" [i] 4.
Proof.
  intros Hatt. unfold MMOE_MT_ATT.forward_att. intros E.
  next E att0 Eatt0. next E block Eblock. next E layers Elayers.
  apply calls_call_at in Eatt0.
  rewrite Eatt0, calls_self_module, calls_lift. cbn [app]. f_equal.
  rewrite (calls_run_layers _ _ _ _ E). cbn [fst snd]. f_equal.
  unfold self_module in Eblock.
  apply value_bind_ok in Eblock as (ms & Ems & Eblock); [| writer | intro; writer].
  rewrite value_self_get in Ems. unfold getattr_of in Ems.
  rewrite Hatt, att_lhuc in Ems. injection Ems as <-.
  unfold value, lift in Eblock. cbn [fst] in Eblock. apply item_ok in Eblock.
  apply nth_error_In, repeat_spec in Eblock. subst block.
  unfold value, lift in Elayers. cbn [fst as_modules] in Elayers.
  injection Elayers as <-. reflexivity.
Qed.

Lemma calls_ATT_forward_tower (mmoe_outs : list T) (domain_emb out : T) (i : nat) :
  self = MMOE_MT_ATT_built cid a usetrans e_dim e_size s ->
  value (MMOE_MT_ATT.forward_tower self mmoe_outs domain_emb i) = Ok out ->
  calls (MMOE_MT_ATT.forward_tower self mmoe_outs domain_emb i)
  = (if 0 <? len (tower_dnn_hidden_units a)
     then [("tower_dnn", [i]); ("target_attention", [i])] ++ members "lhuc" [i] 4
     else [])
    ++ [("tower_dnn_final_layer", [i]); ("out", [i])].
Proof.
  intros Hatt. unfold MMOE_MT_ATT.forward_tower. intros E.
  next E units Eunits. next E m Em. next E logit Elogit.
  rewrite calls_self_get, calls_lift. cbn [app].
  rewrite value_self_get in Eunits. unfold getattr_of in Eunits.
  rewrite (built_tower_units Hself) in Eunits. injection Eunits as <-.
  apply calls_call_at in E. rewrite E.
  destruct (0 <? len (tower_dnn_hidden_units a)).
  - next Elogit t Et. next Elogit att Eatt. next Elogit t' Et'.
    apply calls_call_at in Et. apply calls_call_at in Elogit.
    rewrite Et, Elogit, calls_lift, (calls_ATT_forward_att _ _ _ _ Hatt Eatt).
    cbn [app]. now rewrite <- app_assoc.
  - apply calls_call_at in Elogit. now rewrite Elogit.
Qed.

End CallsOfForward.

(** X12.  The modules a forward pass of [MMOE_MT] calls itself, the
    embedding lookups inside [input_from_feature_columns] apart.  When
    [forward] returns, it has called, in this order and each once: the three
    self-attention layers if the flag contains 'usetrans'; the experts
    [0 .. num_experts-1]; for every task its gate DNN, if there is one,
    and its final gate layer; the domain embedding; the four LHUC layers,
    once for all tasks; and for every task its tower DNN, if there is
    one, its final tower layer and its prediction layer. *)
Theorem MMOE_MT_forward_calls {T : Type} `{Torch T}
    cid (a : Args) (s self : attrs) (X out : T) :
  MMOE_MT.init cid a s = (Ok tt, self) ->
  value (MMOE_MT.forward self X) = Ok out ->
  exists usetrans,
    py_in "usetrans" (flag a) = Ok usetrans /\
    calls (MMOE_MT.forward self X) = MMOE_MT_calls a usetrans.
Proof.
  intros Hinit E.
  apply MMOE_MT_init_ok in Hinit
    as (_ & _ & _ & usetrans & e_dim & e_size & Hflag & _ & _ & Hmt).
  assert (constructed cid a usetrans e_dim e_size s self) as Hself by now left.
  exists usetrans. split; [assumption|].
  unfold MMOE_MT.forward in *.
  apply (calls_shared Hself Hflag) in E
    as (dnn_input & mmoe_outs & domain_emb & E & ->); [|intros; writer].
  unfold MMOE_MT_calls. f_equal.
  next E lhuc_output El. next E n En. next E outs Eouts.
  rewrite (calls_MT_forward_lhuc _ _ Hmt El), calls_self_get, calls_lift,
    app_nil_r.
  cbn [app]. do 4 f_equal.
  rewrite value_self_get in En. unfold getattr_of in En.
  rewrite (built_num_tasks Hself) in En. injection En as <-.
  assert (forall i, writer (MMOE_MT.forward_tower self mmoe_outs lhuc_output i)) as Hw
    by (intro; writer).
  apply (calls_mapM_ok _ _ _ _ Hw Eouts).
  intros i y _ Ey. now apply (calls_MT_forward_tower Hself) in Ey.
Qed.

Lemma MMOE_MT_forward_calls_witness :
  exists usetrans,
    py_in "usetrans" (flag (Demo.args [64] "sota")) = Ok usetrans /\
    calls (MMOE_MT.forward (H:=Demo.shapes) (Demo.mmoe_mt [64] "sota") [4; 3]%nat)
    = MMOE_MT_calls (Demo.args [64] "sota") usetrans.
Proof.
  apply (@MMOE_MT_forward_calls _ Demo.shapes Demo.compute_input_dim
           (Demo.args [64] "sota") Demo.base (Demo.mmoe_mt [64] "sota")
           [4; 3]%nat [4; 2]%nat).
  - reflexivity.
  - reflexivity.
Defined.

(** X13.  The modules a forward pass of [MMOE_MT_ATT] calls.  Up to the
    domain embedding they are those of [MMOE_MT]; then, for every task,
    its tower DNN, its target-attention layer and the four layers of its
    own LHUC block if the model has tower DNNs, and its final tower layer
    and its prediction layer.  Without tower DNNs neither the attention
    layers nor the LHUC blocks are called. *)
Theorem MMOE_MT_ATT_forward_calls {T : Type} `{Torch T}
    cid (a : Args) (s self : attrs) (X out : T) :
  MMOE_MT_ATT.init cid a s = (Ok tt, self) ->
  value (MMOE_MT_ATT.forward self X) = Ok out ->
  exists usetrans,
    py_in "usetrans" (flag a) = Ok usetrans /\
    calls (MMOE_MT_ATT.forward self X) = MMOE_MT_ATT_calls a usetrans.
Proof.
  intros Hinit E.
  apply MMOE_MT_ATT_init_ok in Hinit
    as (_ & _ & _ & usetrans & e_dim & e_size & Hflag & _ & _ & Hatt).
  assert (constructed cid a usetrans e_dim e_size s self) as Hself by now right.
  exists usetrans. split; [assumption|].
  unfold MMOE_MT_ATT.forward in *.
  apply (calls_shared Hself Hflag) in E
    as (dnn_input & mmoe_outs & domain_emb & E & ->); [|intros; writer].
  unfold MMOE_MT_ATT_calls. f_equal.
  next E n En. next E outs Eouts.
  rewrite calls_self_get, calls_lift, app_nil_r. cbn [app].
  rewrite value_self_get in En. unfold getattr_of in En.
  rewrite (built_num_tasks Hself) in En. injection En as <-.
  assert (forall i, writer (MMOE_MT_ATT.forward_tower self mmoe_outs domain_emb i)) as Hw
    by (intro; writer).
  apply (calls_mapM_ok _ _ _ _ Hw Eouts).
  intros i y _ Ey. now apply (calls_ATT_forward_tower Hself _ _ _ _ Hatt) in Ey.
Qed.

Lemma MMOE_MT_ATT_forward_calls_witness :
  exists usetrans,
    py_in "usetrans" (flag (Demo.args [64] "usetrans")) = Ok usetrans /\
    calls (MMOE_MT_ATT.forward (H:=Demo.shapes) (Demo.mmoe_mt_att [64] "usetrans")
             [4; 3]%nat)
    = MMOE_MT_ATT_calls (Demo.args [64] "usetrans") usetrans.
Proof.
  apply (@MMOE_MT_ATT_forward_calls _ Demo.shapes Demo.compute_input_dim
           (Demo.args [64] "usetrans") Demo.base (Demo.mmoe_mt_att [64] "usetrans")
           [4; 3]%nat [4; 2]%nat).
  - reflexivity.
  - reflexivity.
Defined.

(* ===================================================================== *)
(** ** [concat_fun] *)
(* ===================================================================== *)

Section ConcatFun.

Import ShapeSem.
Local Open Scope nat_scope.

Variable sat : nn_Module -> list shape -> result shape.
Let shapes : Torch shape := torch_shape sat.

Lemma set_dim_nth (d : nat) (s : shape) : set_dim d (nth d s 0) s = s.
Proof.
  revert d. induction s as [|x s IH]; intros [|d]; simpl; try reflexivity.
  now rewrite IH.
Qed.

(** [torch.cat] of a single tensor, where it is defined, is that tensor. *)
Lemma cat_singleton (s r : shape) (dim : Z) : cat [s] dim = Ok r -> r = s.
Proof.
  unfold cat. destruct (norm_dim dim (List.length s)) as [d|]; cbn [rbind];
    [|discriminate].
  cbn [forallb map total fold_right]. intros E. injection E as <-.
  now rewrite Nat.add_0_r, set_dim_nth.
Qed.

(** X14.  On shapes, [concat_fun] extends [torch.cat]: wherever
    [torch.cat(inputs, dim=axis)] is defined, [concat_fun(inputs, axis)]
    returns the same shape; a list of one tensor is accepted with any
    [axis], also where [torch.cat] raises, as it does for a tensor without
    dimensions; and an empty list raises. *)
Theorem concat_fun_extends_cat (inputs : list shape) (axis : Z) :
  (forall r, cat inputs axis = Ok r -> concat_fun (H:=shapes) inputs axis = Ok r) /\
  (forall x, concat_fun (H:=shapes) [x] axis = Ok x) /\
  is_ok (concat_fun (H:=shapes) [] axis) = false /\
  is_ok (cat [[]] axis) = false.
Proof.
  split; [|split; [|split]].
  - intros r E. destruct inputs as [|x [|y rest]]; try exact E.
    apply cat_singleton in E. now subst.
  - reflexivity.
  - reflexivity.
  - unfold cat, norm_dim. cbn [List.length Z.of_nat Z.opp].
    destruct (Z.leb_spec 0 axis), (Z.ltb_spec axis 0); try reflexivity. lia.
Qed.

End ConcatFun.

Lemma concat_fun_extends_cat_witness :
  concat_fun (H:=Demo.shapes) [[4; 1; 4]; [4; 1; 4]]%nat 1 = Ok [4; 2; 4]%nat.
Proof.
  apply (proj1 (concat_fun_extends_cat Demo.satrans_shape
                  [[4; 1; 4]; [4; 1; 4]]%nat 1)).
  reflexivity.
Defined.

(* ===================================================================== *)
(** ** Towers without a DNN *)
(* ===================================================================== *)



(* ===================================================================== *)
(** ** The mixture is a convex combination *)
(* ===================================================================== *)

Section MixtureRange.

Import RealSem.
Local Open Scope R_scope.

Lemma Forall_map2 {A B C} (P : A -> Prop) (Q : B -> Prop) (R' : C -> Prop)
    (f : A -> B -> C) (l : list A) (l' : list B) :
  (forall x y, P x -> Q y -> R' (f x y)) ->
  Forall P l -> Forall Q l' -> Forall R' (map2 f l l').
Proof.
  intros Hf Hl. revert l'. induction Hl as [|x l Hx _ IH]; intros l' Hl'.
  - constructor.
  - destruct Hl' as [|y l' Hy Hl']; simpl; constructor; auto.
Qed.

Lemma sum_nonneg (w : list R) : Forall (fun x => 0 <= x) w -> 0 <= sum w.
Proof. induction 1 as [|x w Hx _ IH]; simpl; lra. Qed.

(** A weighted sum with non-negative weights lies between the bounds of
    the vectors, scaled by the total weight. *)
Lemma weighted_sum_bounds (D : nat) (lo hi : R) (w : list R) (experts : list (list R)) :
  List.length w = List.length experts ->
  Forall (fun x => 0 <= x) w ->
  Forall (Forall (fun x => lo <= x <= hi)) experts ->
  Forall (fun x => lo * sum w <= x <= hi * sum w) (weighted_sum D w experts).
Proof.
  intros Hlen Hw. revert experts Hlen.
  induction Hw as [|wj w Hwj Hw IH]; intros [|ej experts] Hlen Hall;
    try discriminate; simpl.
  - apply Forall_forall. intros x Hx. apply repeat_spec in Hx. subst. lra.
  - apply Forall_cons_iff in Hall as [Hej Hall].
    apply (Forall_map2 (fun x => lo * wj <= x <= hi * wj)
                       (fun x => lo * sum w <= x <= hi * sum w)).
    + intros x y Hx Hy. lra.
    + apply Forall_forall. intros x Hx. apply in_map_iff in Hx as (e & <- & He).
      rewrite Forall_forall in Hej. specialize (Hej e He). nra.
    + apply IH; [now injection Hlen | assumption].
Qed.

(** X16.  The mixture handed to a tower is a convex combination of the
    expert outputs: under the conditions on the gate logits and on the
    expert outputs under which [forward] forms it, every entry of the
    mixture lies between any two bounds that hold for all entries of the
    expert outputs. *)
Theorem mixture_within_expert_range
    (weight : mpath -> list (list R))
    (external : mpath -> nn_Module -> list tensor -> result tensor)
    cid (a : Args) (s self : attrs) (dnn_input : tensor)
    (G : list (list R)) (EO : list (list (list R))) (D : nat) (i : nat) (lo hi : R) :
  MMOE_MT.init cid a s = (Ok tt, self) \/ MMOE_MT_ATT.init cid a s = (Ok tt, self) ->
  (i < List.length (task_names a))%nat ->
  gate_logits (H:=torch_real weight external) cid a i dnn_input = Ok (T2 G) ->
  G <> [] ->
  Forall (fun g => List.length g = Z.to_nat (num_experts a)) G ->
  List.length EO = List.length G ->
  Forall (fun experts => List.length experts = Z.to_nat (num_experts a) /\
                         Forall (fun e => List.length e = D) experts) EO ->
  Forall (Forall (Forall (fun x => lo <= x <= hi))) EO ->
  exists mmoe_out,
    value (forward_gate (H:=torch_real weight external) self dnn_input (T3 EO) i)
    = Ok mmoe_out /\
    Forall (fun x => lo <= x <= hi) (entries mmoe_out).
Proof.
  intros Hinit Hi Hlogits HG Hrows Hb HEO Hrange.
  apply init_constructed in Hinit
    as (Hchk & _ & _ & usetrans & e_dim & e_size & _ & _ & _ & Hself).
  apply check_result_ok_iff in Hchk as (_ & Hne & _).
  assert (0 < Z.to_nat (num_experts a))%nat as HE by lia.
  rewrite (value_forward_gate (H:=torch_real weight external)
             cid a usetrans e_dim e_size s self dnn_input (T3 EO) i Hself Hi),
          Hlogits.
  cbn [rbind].
  assert (List.length (hd [] G) = Z.to_nat (num_experts a)) as HhdG.
  { destruct G as [|g G]; [congruence|]. now apply Forall_inv in Hrows. }
  assert (List.length (hd [] EO) = Z.to_nat (num_experts a)) as HhdEO.
  { destruct EO as [|eo EO]; [destruct G; [congruence | discriminate]|].
    now apply Forall_inv in HEO as [HEO _]. }
  pose proof (gate_mul_expert G EO _ HG HhdG Hb HhdEO) as Hmix.
  cbn [softmax unsqueeze torch_matmul squeeze torch_real] in *.
  rewrite <- (rbind_assoc _ (fun weights => matmul weights (T3 EO)) squeeze_t).
  rewrite Hmix. cbn [rbind].
  destruct (squeeze_t_total
              (T3 (map2 (fun g experts => [vecmat (softmax_row g) experts]) G EO)))
    as [mmoe_out Hsq].
  rewrite Hsq. exists mmoe_out. split; [reflexivity|].
  rewrite (entries_squeeze _ _ Hsq). cbn [entries].
  rewrite concat_map2_singleton. apply Forall_concat.
  assert (Forall (fun experts =>
            (List.length experts = Z.to_nat (num_experts a) /\
             Forall (fun e => List.length e = D) experts) /\
            Forall (Forall (fun x => lo <= x <= hi)) experts) EO) as Hboth.
  { rewrite Forall_forall in *. intros experts Hin. split; auto. }
  eapply Forall_map2; [| exact Hrows | exact Hboth].
  intros g experts Hg [[Hlen HD] Hr]. cbv beta in *.
  assert (g <> []) as Hgne by (intros ->; simpl in Hg; lia).
  rewrite (vecmat_weighted_sum D) by (try assumption; intros ->; simpl in Hlen; lia).
  pose proof (weighted_sum_bounds D lo hi (softmax_row g) experts) as Hbound.
  rewrite (softmax_row_sum g Hgne), !Rmult_1_r in Hbound.
  apply Hbound.
  - rewrite softmax_row_length. congruence.
  - eapply Forall_impl; [|exact (softmax_row_positive g Hgne)].
    intros w Hw. cbv beta in Hw. lra.
  - assumption.
Qed.

End MixtureRange.

Section MixtureRangeWitness.

Import RealSem.
Local Open Scope R_scope.

Lemma mixture_within_expert_range_witness :
  exists mmoe_out,
    value (forward_gate (H:=DemoReal.reals) (Demo.mmoe_mt [64%Z] "sota")
             (T2 [repeat 1 9; repeat 2 9])
             (T3 [[[1; 4]; [2; 5]; [3; 6]]; [[1; 1]; [2; 2]; [3; 3]]]) 1)
    = Ok mmoe_out /\
    Forall (fun x => 1 <= x <= 6) (entries mmoe_out).
Proof.
  apply (mixture_within_expert_range DemoReal.weight DemoReal.external
           Demo.compute_input_dim (Demo.args [64%Z] "sota") Demo.base
           (Demo.mmoe_mt [64%Z] "sota") (T2 [repeat 1 9; repeat 2 9])
           [[0; 0; 0]; [0; 0; 0]]
           [[[1; 4]; [2; 5]; [3; 6]]; [[1; 1]; [2; 2]; [3; 3]]] 2 1 1 6).
  - left. reflexivity.
  - simpl. lia.
  - apply (demo_gate_logits 1 [repeat 1 9; repeat 2 9]); [discriminate | reflexivity].
  - discriminate.
  - repeat constructor.
  - reflexivity.
  - repeat constructor.
  - repeat first [apply Forall_nil | apply Forall_cons]; lra.
Defined.

End MixtureRangeWitness.
